(** * Touch Grass backend: authentication and family linkage

    A shallow embedding of the authentication core of the backend:
    - [src/models/User.js]: the user schema, [generateFamilyCode], the
      pre-save password hook and [comparePassword];
    - the Kid model: the kid-profile schema;
    - the auth controller: [generateToken], [signup], [login];
    - [src/middleware/auth.js]: the bearer-token guard.

    Conventions of the embedding.
    - A JavaScript string is a [string] of code units below 256 (the Latin-1
      range, one code unit per character).  On these, [trim], [toLowerCase],
      [length] and the e-mail pattern are those of JavaScript.  The capitals
      of the micro sign and of the y with diaeresis lie beyond the range:
      [toUpperCase] is that of JavaScript on every string without them, and
      a query by an upper-cased code with one of the two finds nothing.
    - A field of a request body is any JSON value or absent ([JsValue]);
      numbers are integers.  Truthiness, [===], [.length] and the method
      calls on such a value are the JavaScript ones: calling a string method
      on a value that is no string throws a [TypeError].
    - Where a value that is no string (the password, the name of a kid) or
      no number (the age of a kid) reaches [User.create] or [Kid.create],
      Mongoose's casts decide what follows; they are not part of the model,
      which gives no answer ([None]) for such a request.
    - The collections are lists in the order the driver scans them, so that
      [findOne] is the first match.
    - The libraries the code calls (bcryptjs, jsonwebtoken) are interfaces,
      given as type classes; entropy and the clock are explicit arguments. *)

From Stdlib Require Import String Ascii List ZArith NArith Lia Bool Permutation FinFun.
From Stdlib Require Import Init.Byte Strings.Byte.
Import ListNotations.
Local Open Scope string_scope.
Local Open Scope list_scope.

(** ** JavaScript string primitives used by the code *)

Module JsString.

Definition code (c : ascii) : N := N_of_ascii c.

Definition is_upper (c : ascii) : bool := ((65 <=? code c) && (code c <=? 90))%N.
Definition is_lower (c : ascii) : bool := ((97 <=? code c) && (code c <=? 122))%N.
Definition is_digit (c : ascii) : bool := ((48 <=? code c) && (code c <=? 57))%N.

(** The blanks of [trim] below 256: \t \n \v \f \r, the space and the
    no-break space. *)
Definition is_space (c : ascii) : bool :=
  (((9 <=? code c) && (code c <=? 13)) || (code c =? 32) || (code c =? 160))%N.

(** The letters beyond ASCII: capitals from 192 to 222 but the
    multiplication sign, small ones from 224 to 254 but the division sign,
    32 apart. *)
Definition is_upper_latin (c : ascii) : bool :=
  ((192 <=? code c) && (code c <=? 222) && negb (code c =? 215))%N.

Definition is_lower_latin (c : ascii) : bool :=
  ((224 <=? code c) && (code c <=? 254) && negb (code c =? 247))%N.

Definition to_lower_char (c : ascii) : ascii :=
  if is_upper c || is_upper_latin c then ascii_of_N (code c + 32) else c.

Definition to_upper_char (c : ascii) : ascii :=
  if is_lower c || is_lower_latin c then ascii_of_N (code c - 32) else c.

(** The capital of a character: of the sharp s (223) it is [SS]. *)
Definition upper_of_char (c : ascii) : string :=
  if (code c =? 223)%N then String "S" (String "S" EmptyString)
  else String (to_upper_char c) EmptyString.

(** The micro sign (181) and the y with diaeresis (255): the capital is no
    code unit below 256. *)
Definition upper_beyond (c : ascii) : bool :=
  ((code c =? 181) || (code c =? 255))%N.

Fixpoint map_chars (f : ascii -> ascii) (s : string) : string :=
  match s with
  | EmptyString => EmptyString
  | String c r => String (f c) (map_chars f r)
  end.

Fixpoint all_chars (p : ascii -> bool) (s : string) : bool :=
  match s with
  | EmptyString => true
  | String c r => p c && all_chars p r
  end.

Definition toLowerCase : string -> string := map_chars to_lower_char.

Fixpoint toUpperCase (s : string) : string :=
  match s with
  | EmptyString => EmptyString
  | String c r => (upper_of_char c ++ toUpperCase r)%string
  end.

(** Whether [s.toUpperCase()] is a string of the model. *)
Definition upper_in_range (s : string) : bool :=
  all_chars (fun c => negb (upper_beyond c)) s.

Fixpoint trimStart (s : string) : string :=
  match s with
  | EmptyString => EmptyString
  | String c r => if is_space c then trimStart r else s
  end.

Fixpoint trimEnd (s : string) : string :=
  match s with
  | EmptyString => EmptyString
  | String c r =>
      match trimEnd r with
      | EmptyString => if is_space c then EmptyString else String c EmptyString
      | r' => String c r'
      end
  end.

Definition trim (s : string) : string := trimEnd (trimStart s).

(** [!s] is true exactly for the empty string. *)
Definition truthy (s : string) : bool := negb (s =? "").

Definition startsWith (p s : string) : bool := prefix p s.

(** [s.substring(n)]: the characters from index [n] on. *)
Definition substringFrom (n : nat) (s : string) : string :=
  substring n (String.length s - n) s.

(** A string between double quotes. *)
Definition quoted (s : string) : string :=
  (String (ascii_of_nat 34) s ++ String (ascii_of_nat 34) EmptyString)%string.

(** [xs.join(sep)] *)
Definition join (sep : string) (xs : list string) : string := String.concat sep xs.

End JsString.
Import JsString.

(** ** Family codes: [userSchema.statics.generateFamilyCode] *)

(** [buf.toString('hex')]: two lower-case hexadecimal digits per byte. *)
Definition hex_digit (n : N) : ascii :=
  if (n <? 10)%N then ascii_of_N (48 + n) else ascii_of_N (87 + n).

Definition hex_of_byte (b : byte) : string :=
  let n := Byte.to_N b in
  String (hex_digit (n / 16)) (String (hex_digit (n mod 16)) EmptyString).

Definition toString_hex (buf : list byte) : string :=
  String.concat "" (map hex_of_byte buf).

(** The outcome of one [crypto.randomBytes(3)] call. *)
Abbreviation bytes3 := (byte * (byte * byte))%type.

Definition buffer_of (r : bytes3) : list byte :=
  let '(b0, (b1, b2)) := r in [b0; b1; b2].

(** [crypto.randomBytes(3).toString('hex').toUpperCase()], the entropy [r]
    made explicit. *)
Definition generateFamilyCode (r : bytes3) : string :=
  toUpperCase (toString_hex (buffer_of r)).

(** Upper-case alphanumeric, and the sub-alphabet of upper-case hexadecimal. *)
Definition is_upper_alnum (c : ascii) : bool := is_digit c || is_upper c.

Definition is_upper_hex (c : ascii) : bool :=
  is_digit c || ((65 <=? code c) && (code c <=? 70))%N.

(** Every value of a byte, every outcome of [randomBytes(3)], and the codes
    the generator can produce. *)
Definition all_bytes : list byte :=
  map (fun n => match Byte.of_nat n with Some b => b | None => x00 end) (seq 0 256).

Definition all_bytes3 : list bytes3 :=
  list_prod all_bytes (list_prod all_bytes all_bytes).

Definition family_code_space : list string := map generateFamilyCode all_bytes3.

Definition producible (c : string) : Prop := exists r, generateFamilyCode r = c.

(** Reading a code back: the inverse of the generator on its range. *)
Definition unhex_digit (c : ascii) : option N :=
  if is_digit c then Some (code c - 48)%N
  else if ((65 <=? code c) && (code c <=? 70))%N then Some (code c - 55)%N
  else None.

Definition unhex_byte (hi lo : ascii) : option byte :=
  match unhex_digit hi, unhex_digit lo with
  | Some h, Some l => Byte.of_N (16 * h + l)
  | _, _ => None
  end.

Definition parseFamilyCode (s : string) : option bytes3 :=
  match s with
  | String a (String b (String c (String d (String e (String f EmptyString))))) =>
      match unhex_byte a b, unhex_byte c d, unhex_byte e f with
      | Some x, Some y, Some z => Some (x, (y, z))
      | _, _, _ => None
      end
  | _ => None
  end.

(** ** Regular expressions, for the schema's [match] validator *)

Module Regex.

Inductive re : Type :=
| Void
| Eps
| Chr (p : ascii -> bool)
| Cat (a b : re)
| Alt (a b : re)
| Star (a : re).

Definition Plus (a : re) : re := Cat a (Star a).
Definition Opt (a : re) : re := Alt Eps a.

Fixpoint nullable (r : re) : bool :=
  match r with
  | Void => false
  | Eps => true
  | Chr _ => false
  | Cat a b => nullable a && nullable b
  | Alt a b => nullable a || nullable b
  | Star _ => true
  end.

(** Constructors that drop the empty language, to keep derivatives small. *)
Definition cat (a b : re) : re :=
  match a, b with
  | Void, _ => Void
  | _, Void => Void
  | Eps, _ => b
  | _, _ => Cat a b
  end.

Definition alt (a b : re) : re :=
  match a, b with
  | Void, _ => b
  | _, Void => a
  | _, _ => Alt a b
  end.

Fixpoint deriv (c : ascii) (r : re) : re :=
  match r with
  | Void => Void
  | Eps => Void
  | Chr p => if p c then Eps else Void
  | Cat a b =>
      if nullable a then alt (cat (deriv c a) b) (deriv c b)
      else cat (deriv c a) b
  | Alt a b => alt (deriv c a) (deriv c b)
  | Star a => cat (deriv c a) (Star a)
  end.

(** [/^r$/.test(s)] *)
Fixpoint test (r : re) (s : string) : bool :=
  match s with
  | EmptyString => nullable r
  | String c s' => test (deriv c r) s'
  end.

Definition lit (c : ascii) : re := Chr (Ascii.eqb c).

(** [\w] *)
Definition word : re :=
  Chr (fun c => is_upper c || is_lower c || is_digit c || Ascii.eqb c "_").

End Regex.

(** [/^\w+([\.-]?\w+)*@\w+([\.-]?\w+)*(\.\w{2,3})+$/] *)
Definition emailPattern : Regex.re :=
  let w := Regex.word in
  let sep := Regex.Alt (Regex.lit ".") (Regex.lit "-") in
  let tail := Regex.Star (Regex.Cat (Regex.Opt sep) (Regex.Plus w)) in
  let tld := Regex.Cat (Regex.lit ".") (Regex.Cat w (Regex.Cat w (Regex.Opt w))) in
  Regex.Cat (Regex.Plus w)
    (Regex.Cat tail
       (Regex.Cat (Regex.lit "@")
          (Regex.Cat (Regex.Plus w) (Regex.Cat tail (Regex.Plus tld))))).

(** ** Data model *)

(** A MongoDB ObjectId. *)
Definition oid : Type := N.

Module User.
(** A document of the [User] collection.  [password] is absent from a
    document that was loaded without it ([select: false]). *)
Record t : Type := mk {
  _id : oid;
  email : string;
  password : option string;
  role : string;
  familyCode : option string;
  parent : option oid;
  name : option string;
  kids : list oid;
  createdAt : Z
}.
End User.

Module Kid.
Record t : Type := mk {
  _id : oid;
  name : string;
  age : Z;
  avatarColor : string;
  interests : list string;
  parent : oid;
  createdAt : Z
}.
End Kid.

(** The two collections and the source of fresh ObjectIds. *)
Record Db : Type := mkDb {
  users : list User.t;
  kids : list Kid.t;
  next_oid : oid
}.

(** [process.env]: the signing secret, and [JWT_EXPIRE] read as a time span
    in seconds ([None] when unset or not a time span). *)
Record Env : Type := mkEnv {
  JWT_SECRET : option string;
  JWT_EXPIRE : option Z
}.

(** Errors thrown inside a handler, told apart by [error.name]. *)
Inductive JsError : Type :=
| JsonWebTokenError (msg : string)
| TokenExpiredError
| ValidationError (messages : list string)
| MongoServerError (msg : string)
| TypeError (msg : string)
| CastError (path : string)
| DocumentNotFoundError
| Error (msg : string).

Definition error_name (e : JsError) : string :=
  match e with
  | JsonWebTokenError _ => "JsonWebTokenError"
  | TokenExpiredError => "TokenExpiredError"
  | ValidationError _ => "ValidationError"
  | MongoServerError _ => "MongoServerError"
  | TypeError _ => "TypeError"
  | CastError _ => "CastError"
  | DocumentNotFoundError => "DocumentNotFoundError"
  | Error _ => "Error"
  end.

(** [Object.values(error.errors).map(err => err.message)] *)
Definition error_messages (e : JsError) : list string :=
  match e with
  | ValidationError messages => messages
  | _ => []
  end.

(** A computation that returns or throws. *)
Inductive Result (A : Type) : Type :=
| Ok (a : A)
| Thrown (e : JsError).
Arguments Ok {A} a.
Arguments Thrown {A} e.

(** ** The values of a request body *)

(** A field of [req.body] as [express.json()] delivers it: absent, or a JSON
    value.  Of an array the handlers observe the length; of an object,
    whether its [length] compares below six (it does not when the object has
    no such key). *)
Inductive JsValue : Type :=
| JUndefined
| JNull
| JBool (b : bool)
| JNum (n : Z)
| JStr (s : string)
| JArr (len : nat)
| JObj (short : bool).

(** [!v] is true for [undefined], [null], [false], [0] and the empty string,
    and for nothing else. *)
Definition truthy_js (v : JsValue) : bool :=
  match v with
  | JUndefined | JNull => false
  | JBool b => b
  | JNum n => negb (n =? 0)%Z
  | JStr s => truthy s
  | JArr _ | JObj _ => true
  end.

(** [typeof v === 'string'] and [typeof v === 'number'] *)
Definition is_str (v : JsValue) : bool :=
  match v with
  | JStr _ => true
  | _ => false
  end.

Definition is_num (v : JsValue) : bool :=
  match v with
  | JNum _ => true
  | _ => false
  end.

(** The string behind a value already known to be one. *)
Definition str_of (v : JsValue) : string :=
  match v with
  | JStr s => s
  | _ => ""
  end.

(** A value as a field of a schema takes it without a cast. *)
Definition text_of (v : JsValue) : option string :=
  match v with
  | JStr s => Some s
  | _ => None
  end.

Definition num_of (v : JsValue) : option Z :=
  match v with
  | JNum n => Some n
  | _ => None
  end.

(** [v.length < 6], asked of a truthy value: a number and [true] have no
    [length], and [undefined < 6] is false. *)
Definition length_below_6 (v : JsValue) : bool :=
  match v with
  | JStr s => (String.length s <? 6)%nat
  | JArr len => (len <? 6)%nat
  | JObj short => short
  | _ => false
  end.

(** [xs.includes(v)], for an array [xs] of strings. *)
Definition includes (xs : list string) (v : JsValue) : bool :=
  match v with
  | JStr s => existsb (String.eqb s) xs
  | _ => false
  end.

(** A value that is a string, or is missing. *)
Definition text_or_missing (v : JsValue) : bool :=
  is_str v || negb (truthy_js v).

(** [v === s], for a string [s]. *)
Definition strict_eq (v : JsValue) (s : string) : bool :=
  match v with
  | JStr x => x =? s
  | _ => false
  end.

(** ** The libraries, as interfaces *)

(** bcryptjs. *)
Class BcryptLib : Type := {
  bcrypt_hash : string -> string -> string;      (* plaintext, salt *)
  bcrypt_compare : string -> string -> bool      (* candidate, digest *)
}.

(** The claims of a token: what [generateToken] signs, with the time stamps
    jsonwebtoken adds. *)
Record Claims : Type := mkClaims {
  claim_id : oid;
  claim_role : string;
  iat : Z;
  exp : option Z
}.

(** jsonwebtoken (HS256): the keyed tag, the encoding of header and payload,
    and the compact serialisation with its reader.  Reading a serialised
    token gives back its signing input, claims and tag; the empty string
    reads as no token. *)
Class JwtLib : Type := {
  hmac : string -> string -> string;             (* key, signing input *)
  jws_encode : Claims -> string;
  jws_compact : string -> string -> string;      (* signing input, tag *)
  jws_decode : string -> option (string * Claims * string);
  jws_decode_compact : forall c tag,
    jws_decode (jws_compact (jws_encode c) tag) = Some (jws_encode c, c, tag);
  jws_decode_empty : jws_decode "" = None
}.

(** ** Queries *)

Definition opt_eqb (o : option string) (s : string) : bool :=
  match o with
  | Some x => x =? s
  | None => false
  end.

(** Projection applied by a query that does not select the password. *)
Definition without_password (u : User.t) : User.t :=
  User.mk (User._id u) (User.email u) None (User.role u) (User.familyCode u)
    (User.parent u) (User.name u) (User.kids u) (User.createdAt u).

(** [User.findOne({ email })]; the schema keeps the password out. *)
Definition findOne_email (e : string) (db : Db) : option User.t :=
  option_map without_password (find (fun u => User.email u =? e) (users db)).

(** [User.findOne({ email }).select('+password')] *)
Definition findOne_email_with_password (e : string) (db : Db) : option User.t :=
  find (fun u => User.email u =? e) (users db).

(** [User.findOne({ familyCode })] *)
Definition findOne_familyCode (c : string) (db : Db) : option User.t :=
  option_map without_password
    (find (fun u => opt_eqb (User.familyCode u) c) (users db)).

(** [User.findOne({ familyCode: code.toUpperCase() })]: an upper-cased code
    that is no string of the model is the family code of no document. *)
Definition findOne_familyCode_upper (code : string) (db : Db) : option User.t :=
  if upper_in_range code then findOne_familyCode (toUpperCase code) db
  else None.

(** [User.findById(id).select('-password')] *)
Definition findById (id : oid) (db : Db) : option User.t :=
  option_map without_password (find (fun u => (User._id u =? id)%N) (users db)).

(** [User.findByIdAndUpdate(id, { $push: { kids: k } })] *)
Definition push_kid (id k : oid) (u : User.t) : User.t :=
  if (User._id u =? id)%N then
    User.mk (User._id u) (User.email u) (User.password u) (User.role u)
      (User.familyCode u) (User.parent u) (User.name u) (User.kids u ++ [k])
      (User.createdAt u)
  else u.

Fixpoint update_first {A} (p : A -> bool) (f : A -> A) (l : list A) : list A :=
  match l with
  | [] => []
  | x :: r => if p x then f x :: r else x :: update_first p f r
  end.

Definition findByIdAndUpdate_push_kids (id k : oid) (db : Db) : Db :=
  mkDb (update_first (fun u => (User._id u =? id)%N) (push_kid id k) (users db))
       (kids db) (next_oid db).

(** ** Mongoose documents: [new], [set], [isModified], validation, [save] *)

(** A document in memory: its fields, whether it was ever stored, and the
    paths changed since it was loaded or last stored. *)
Record Document : Type := mkDoc {
  fields : User.t;
  isNew : bool;
  modifiedPaths : list string
}.

Definition isModified (d : Document) (path : string) : bool :=
  existsb (String.eqb path) (modifiedPaths d).

(** A document as a query returns it. *)
Definition hydrate (u : User.t) : Document := mkDoc u false [].

Definition with_email (e : string) (u : User.t) : User.t :=
  User.mk (User._id u) e (User.password u) (User.role u) (User.familyCode u)
    (User.parent u) (User.name u) (User.kids u) (User.createdAt u).

Definition with_password (p : option string) (u : User.t) : User.t :=
  User.mk (User._id u) (User.email u) p (User.role u) (User.familyCode u)
    (User.parent u) (User.name u) (User.kids u) (User.createdAt u).

Definition with_role (r : string) (u : User.t) : User.t :=
  User.mk (User._id u) (User.email u) (User.password u) r (User.familyCode u)
    (User.parent u) (User.name u) (User.kids u) (User.createdAt u).

Definition with_familyCode (c : option string) (u : User.t) : User.t :=
  User.mk (User._id u) (User.email u) (User.password u) (User.role u) c
    (User.parent u) (User.name u) (User.kids u) (User.createdAt u).

Definition with_parent (p : option oid) (u : User.t) : User.t :=
  User.mk (User._id u) (User.email u) (User.password u) (User.role u)
    (User.familyCode u) p (User.name u) (User.kids u) (User.createdAt u).

Definition with_name (n : option string) (u : User.t) : User.t :=
  User.mk (User._id u) (User.email u) (User.password u) (User.role u)
    (User.familyCode u) (User.parent u) n (User.kids u) (User.createdAt u).

Definition mark (path : string) (d : Document) (u : User.t) : Document :=
  mkDoc u (isNew d)
    (if isModified d path then modifiedPaths d else modifiedPaths d ++ [path]).

(** [doc.password = v]: a path is marked only when its value changes. *)
Definition set_password (v : string) (d : Document) : Document :=
  if opt_eqb (User.password (fields d)) v then d
  else mark "password" d (with_password (Some v) (fields d)).

(** [doc.email = v], through the schema's [lowercase] and [trim] setters. *)
Definition set_email (v : string) (d : Document) : Document :=
  let v' := trim (toLowerCase v) in
  if User.email (fields d) =? v' then d
  else mark "email" d (with_email v' (fields d)).

(** [doc.name = v], through the schema's [trim] setter. *)
Definition set_name (v : string) (d : Document) : Document :=
  let v' := trim v in
  if opt_eqb (User.name (fields d)) v' then d
  else mark "name" d (with_name (Some v') (fields d)).

Definition present {A} (o : option A) (path : string) : list string :=
  match o with
  | Some _ => [path]
  | None => []
  end.

(** [new User({ email, password, role, familyCode, parent, name })]: setters
    and defaults applied, every supplied path marked. *)
Definition new_User (id : oid) (now : Z) (email password role : string)
    (familyCode : option string) (parent : option oid) (name : option string)
    : Document :=
  mkDoc
    (User.mk id (trim (toLowerCase email)) (Some password) role familyCode
       parent (option_map trim name) [] now)
    true
    (["email"; "password"; "role"] ++ present familyCode "familyCode"
       ++ present parent "parent" ++ present name "name").

(** The validators of the user schema, one message per failing path. *)
Definition validate_path (path : string) (u : User.t) : list string :=
  if path =? "email" then
    if User.email u =? "" then ["Email is required"]
    else if Regex.test emailPattern (User.email u) then []
    else ["Please provide a valid email address"]
  else if path =? "password" then
    match User.password u with
    | None => ["Password is required"]
    | Some p =>
        if p =? "" then ["Password is required"]
        else if (String.length p <? 6)%nat
             then ["Password must be at least 6 characters long"]
        else []
    end
  else if path =? "role" then
    if User.role u =? "" then ["Path `role` is required."]
    else if (User.role u =? "parent") || (User.role u =? "kid") then []
    else [("`" ++ User.role u ++ "` is not a valid enum value for path `role`.")%string]
  else if path =? "name" then
    match User.name u with
    | Some n => if (50 <? String.length n)%nat
                then ["Name cannot exceed 50 characters"] else []
    | None => []
    end
  else [].

Definition schema_paths : list string := ["email"; "password"; "role"; "name"].

(** Whether a path of a document in memory holds what was read from the
    store: every path does, but the password of a document that was loaded
    without it. *)
Definition loaded (d : Document) (path : string) : bool :=
  negb (isNew d)
  && (negb (path =? "password")
      || match User.password (fields d) with
         | Some _ => true
         | None => false
         end).

(** The validation [save()] runs: of every path for a new document, of the
    loaded and the changed paths for a stored one. *)
Definition validate (d : Document) : list string :=
  flat_map
    (fun p => if isNew d || isModified d p || loaded d p
              then validate_path p (fields d) else [])
    schema_paths.

(** Calls into bcryptjs, in the order they are made. *)
Inductive BcryptCall : Type :=
| GenSalt (rounds : N)
| Hash (plaintext salt : string)
| Compare (candidate digest : string).

(** [userSchema.pre('save', ...)]; [salt] is what [bcrypt.genSalt(10)] draws. *)
Definition pre_save `{BcryptLib} (salt : string) (d : Document)
    : Result Document * list BcryptCall :=
  if negb (isModified d "password") then (Ok d, [])
  else
    match User.password (fields d) with
    | None =>
        (Thrown (Error "Illegal arguments: undefined, string"),
         [GenSalt 10])
    | Some p =>
        (Ok (mkDoc (with_password (Some (bcrypt_hash p salt)) (fields d))
               (isNew d) (modifiedPaths d)),
         [GenSalt 10; Hash p salt])
    end.

Definition write_path (src : User.t) (dst : User.t) (path : string) : User.t :=
  if path =? "email" then with_email (User.email src) dst
  else if path =? "password" then with_password (User.password src) dst
  else if path =? "role" then with_role (User.role src) dst
  else if path =? "familyCode" then with_familyCode (User.familyCode src) dst
  else if path =? "parent" then with_parent (User.parent src) dst
  else if path =? "name" then with_name (User.name src) dst
  else dst.

(** [doc.save()]: validation, then the pre-save hook, then the write: an
    insert for a new document (the [email] index is unique), an update of the
    changed paths for a stored one, which fails when no document of that id
    is stored any more. *)
Definition User_save `{BcryptLib} (salt : string) (db : Db) (d : Document)
    : Result User.t * Db * list BcryptCall :=
  match validate d with
  | (_ :: _) as msgs => (Thrown (ValidationError msgs), db, [])
  | [] =>
      match pre_save salt d with
      | (Thrown e, calls) => (Thrown e, db, calls)
      | (Ok d', calls) =>
          let u := fields d' in
          if isNew d' then
            if existsb (fun v => User.email v =? User.email u) (users db) then
              (Thrown (MongoServerError "E11000 duplicate key error"),
               db, calls)
            else
              (Ok u, mkDb (users db ++ [u]) (kids db) (next_oid db + 1)%N, calls)
          else if negb (existsb (fun v => (User._id v =? User._id u)%N)
                                (users db)) then
            (Thrown DocumentNotFoundError, db, calls)
          else
            (Ok u,
             mkDb (update_first (fun v => (User._id v =? User._id u)%N)
                     (fun v => fold_left (write_path u) (modifiedPaths d') v)
                     (users db))
                  (kids db) (next_oid db),
             calls)
      end
  end.

(** [User.create({...})] *)
Definition User_create `{BcryptLib} (salt : string) (now : Z) (db : Db)
    (email password role : string) (familyCode : option string)
    (parent : option oid) (name : option string) : Result User.t * Db :=
  let '(r, db', _) :=
    User_save salt db
      (new_User (next_oid db) now email password role familyCode parent name) in
  (r, db').

(** [user.comparePassword(candidate)]: [bcrypt.compare] rejects a candidate
    that is no string, and a digest that is missing; the method then throws
    an error of its own. *)
Definition comparePassword `{BcryptLib} (u : User.t) (candidate : JsValue)
    : Result bool :=
  match candidate, User.password u with
  | JStr c, Some digest => Ok (bcrypt_compare c digest)
  | _, _ => Thrown (Error "Error comparing passwords")
  end.

(** The validators of the kid schema. *)
Definition validate_Kid (name : option string) (age : option Z)
    (parent : option oid) : list string :=
  (match name with
   | None => ["Kid name is required"]
   | Some n =>
       if n =? "" then ["Kid name is required"]
       else if (String.length n <? 2)%nat
            then ["Name must be at least 2 characters long"]
       else if (50 <? String.length n)%nat
            then ["Name cannot exceed 50 characters"]
       else []
   end)
  ++ (match age with
      | None => ["Age is required"]
      | Some a =>
          if (a <? 1)%Z then ["Age must be at least 1"]
          else if (18 <? a)%Z then ["Age cannot exceed 18"]
          else []
      end)
  ++ (match parent with
      | None => ["Path `parent` is required."]
      | Some _ => []
      end).

(** [Kid.create({ name, age, parent })] *)
Definition Kid_create (now : Z) (db : Db) (name : option string)
    (age : option Z) (parent : option oid) : Result Kid.t * Db :=
  let name' := option_map trim name in
  match validate_Kid name' age parent, name', age, parent with
  | [], Some n, Some a, Some p =>
      let k := Kid.mk (next_oid db) n a "from-blue-400 to-purple-500" [] p now in
      (Ok k, mkDb (users db) (kids db ++ [k]) (next_oid db + 1)%N)
  | msgs, _, _, _ => (Thrown (ValidationError msgs), db)
  end.

(** ** Tokens: [jwt.sign], [jwt.verify], [generateToken] *)

Definition truthy_opt (o : option string) : bool :=
  match o with
  | Some s => truthy s
  | None => false
  end.

(** [!n] on numbers is true for [0]. *)
Definition truthy_num (o : option Z) : bool :=
  match o with
  | Some n => negb (n =? 0)%Z
  | None => false
  end.

(** The string behind a value already known to be one. *)
Definition val (o : option string) : string :=
  match o with
  | Some s => s
  | None => ""
  end.

(** Seconds since the epoch, from a clock in milliseconds. *)
Definition seconds (now : Z) : Z := (now / 1000)%Z.

(** [jwt.sign({ id, role }, secret, { expiresIn })] at time [now]. *)
Definition jwt_sign `{JwtLib} (id : oid) (role : string)
    (secret : option string) (expiresIn : option Z) (now : Z) : Result string :=
  if negb (truthy_opt secret) then
    Thrown (Error "secretOrPrivateKey must have a value")
  else
    match expiresIn with
    | None =>
        Thrown (Error
          (quoted "expiresIn"
             ++ " should be a number of seconds or string representing a timespan")%string)
    | Some ttl =>
        let c := mkClaims id role (seconds now) (Some (seconds now + ttl)%Z) in
        Ok (jws_compact (jws_encode c) (hmac (val secret) (jws_encode c)))
    end.

(** [jwt.verify(token, secret)] at time [now]: the signature is checked
    before the expiry. *)
Definition jwt_verify `{JwtLib} (token : string) (secret : option string)
    (now : Z) : Result Claims :=
  if negb (truthy token) then Thrown (JsonWebTokenError "jwt must be provided")
  else
    match jws_decode token with
    | None => Thrown (JsonWebTokenError "jwt malformed")
    | Some (input, c, tag) =>
        if negb (truthy_opt secret) then
          Thrown (JsonWebTokenError "secret or public key must be provided")
        else if negb (hmac (val secret) input =? tag) then
          Thrown (JsonWebTokenError "invalid signature")
        else
          match exp c with
          | Some e =>
              if (e <=? seconds now)%Z then Thrown TokenExpiredError else Ok c
          | None => Ok c
          end
    end.

Definition generateToken `{JwtLib} (env : Env) (now : Z) (id : oid)
    (role : string) : Result string :=
  jwt_sign id role (JWT_SECRET env) (JWT_EXPIRE env) now.

(** ** Requests and responses *)

Module Body.
(** [req.body] of signup and login. *)
Record t : Type := mk {
  email : JsValue;
  password : JsValue;
  role : JsValue;
  familyCode : JsValue;
  name : JsValue;
  age : JsValue
}.
End Body.

Module Data.
(** The [data] object of a response. *)
Record t : Type := mk {
  id : oid;
  email : string;
  role : string;
  createdAt : Z;
  familyCode : option string;
  name : option string;
  parentId : option oid;
  kidId : option oid;
  age : option Z
}.
End Data.

Record Response : Type := mkResponse {
  status : Z;
  success : bool;
  message : option string;
  token : option string;
  data : option Data.t
}.

(** [res.status(st).json({ success: false, message: msg })] *)
Definition fail (st : Z) (msg : string) : Response :=
  mkResponse st false (Some msg) None None.

(** ** [signup] *)

(** The [while (!isUnique)] loop of the parent branch.  [rnd i] is the
    outcome of the [i]-th call of [crypto.randomBytes(3)]; [fuel] bounds the
    iterations that are unfolded, [None] standing for a loop still running. *)
Fixpoint unique_code_loop (fuel : nat) (rnd : nat -> bytes3) (i : nat) (db : Db)
    : option string :=
  match fuel with
  | O => None
  | S fuel' =>
      let userFamilyCode := generateFamilyCode (rnd i) in
      match findOne_familyCode userFamilyCode db with
      | None => Some userFamilyCode
      | Some _ => unique_code_loop fuel' rnd (S i) db
      end
  end.

(** [role === 'kid'] *)
Definition is_kid (role : JsValue) : bool := strict_eq role "kid".

(** The body holds what the schemas take without a cast: a string for the
    password and, for a kid, a string for the name and a number for the
    age. *)
Definition schema_typed (body : Body.t) : bool :=
  is_str (Body.password body)
  && (negb (is_kid (Body.role body))
      || (is_str (Body.name body) && is_num (Body.age body))).

(** The [try] block of [signup]. *)
Definition signup_try `{BcryptLib} `{JwtLib} (env : Env) (now : Z)
    (salt : string) (rnd : nat -> bytes3) (fuel : nat) (db : Db)
    (body : Body.t) : option (Result Response * Db) :=
  let email := Body.email body in
  let password := Body.password body in
  let role := Body.role body in
  let familyCode := Body.familyCode body in
  let name := Body.name body in
  let age := Body.age body in
  if negb (truthy_js email) || negb (truthy_js password) then
    Some (Ok (fail 400 "Please provide email and password"), db)
  else if length_below_6 password then
    Some (Ok (fail 400 "Password must be at least 6 characters long"), db)
  else if truthy_js role && negb (includes ["parent"; "kid"] role) then
    Some (Ok (fail 400 ("Role must be either " ++ quoted "parent" ++ " or "
                         ++ quoted "kid")%string), db)
  else if is_kid role && negb (truthy_js familyCode) then
    Some (Ok (fail 400 "Family code is required for kid signup"), db)
  else if is_kid role && negb (truthy_js name) then
    Some (Ok (fail 400 "Name is required for kid signup"), db)
  else if is_kid role && negb (truthy_js age) then
    Some (Ok (fail 400 "Age is required for kid signup"), db)
  else if negb (is_str email) then
    Some (Thrown (TypeError "email.toLowerCase is not a function"), db)
  else
    match findOne_email (trim (toLowerCase (str_of email))) db with
    | Some _ => Some (Ok (fail 409 "User with this email already exists"), db)
    | None =>
        if is_kid role && negb (is_str familyCode) then
          Some (Thrown (TypeError "familyCode.toUpperCase is not a function"),
                db)
        else
        let branch : option (Response + (option User.t * option string)) :=
          if is_kid role then
            match findOne_familyCode_upper (str_of familyCode) db with
            | None =>
                Some (inl (fail 400
                  "Invalid family code. Please check with your parent."))
            | Some parentUser => Some (inr (Some parentUser, None))
            end
          else
            match unique_code_loop fuel rnd 0 db with
            | None => None
            | Some userFamilyCode => Some (inr (None, Some userFamilyCode))
            end in
        match branch with
        | None => None
        | Some (inl r) => Some (Ok r, db)
        | Some (inr (parentUser, userFamilyCode)) =>
            if negb (schema_typed body) then None
            else
            match
              User_create salt now db (trim (toLowerCase (str_of email)))
                (str_of password)
                (if truthy_js role then str_of role else "parent")
                (match parentUser with
                 | Some p => if is_kid role then User.familyCode p
                             else userFamilyCode
                 | None => userFamilyCode
                 end)
                (option_map User._id parentUser)
                (if is_kid role then text_of name else None)
            with
            | (Thrown e, db1) => Some (Thrown e, db1)
            | (Ok user, db1) =>
                let kidStep : Result (option Kid.t) * Db :=
                  match parentUser with
                  | Some p =>
                      if is_kid role then
                        match
                          Kid_create now db1 (text_of name) (num_of age)
                            (Some (User._id p))
                        with
                        | (Thrown e, db2) => (Thrown e, db2)
                        | (Ok kidDoc, db2) =>
                            (Ok (Some kidDoc),
                             findByIdAndUpdate_push_kids (User._id p)
                               (Kid._id kidDoc) db2)
                        end
                      else (Ok None, db1)
                  | None => (Ok None, db1)
                  end in
                match kidStep with
                | (Thrown e, db3) => Some (Thrown e, db3)
                | (Ok kidDoc, db3) =>
                    match generateToken env now (User._id user) (User.role user) with
                    | Thrown e => Some (Thrown e, db3)
                    | Ok token =>
                        let parentRole := User.role user =? "parent" in
                        let kidRole := User.role user =? "kid" in
                        let responseData :=
                          Data.mk (User._id user) (User.email user)
                            (User.role user) (User.createdAt user)
                            (if parentRole then User.familyCode user else None)
                            (if kidRole then User.name user else None)
                            (if kidRole then User.parent user else None)
                            (if kidRole then option_map Kid._id kidDoc else None)
                            (if kidRole then num_of age else None) in
                        Some (Ok (mkResponse 201 true
                                    (Some "User created successfully")
                                    (Some token) (Some responseData)),
                              db3)
                    end
                end
            end
        end
    end.

(** The [catch] block of [signup]. *)
Definition signup_catch (e : JsError) : Response :=
  if error_name e =? "ValidationError" then
    let messages := error_messages e in
    fail 400 (join ", " messages)
  else fail 500 "Error creating user".

Definition signup `{BcryptLib} `{JwtLib} (env : Env) (now : Z) (salt : string)
    (rnd : nat -> bytes3) (fuel : nat) (db : Db) (body : Body.t)
    : option (Response * Db) :=
  match signup_try env now salt rnd fuel db body with
  | None => None
  | Some (Ok r, db') => Some (r, db')
  | Some (Thrown e, db') => Some (signup_catch e, db')
  end.

(** ** [login] *)

Definition login_try `{BcryptLib} `{JwtLib} (env : Env) (now : Z) (db : Db)
    (body : Body.t) : Result Response :=
  let email := Body.email body in
  let password := Body.password body in
  if negb (truthy_js email) || negb (truthy_js password) then
    Ok (fail 400 "Please provide email and password")
  else if negb (is_str email) then
    Thrown (TypeError "email.toLowerCase is not a function")
  else
    match findOne_email_with_password (trim (toLowerCase (str_of email))) db with
    | None => Ok (fail 401 "Invalid email or password")
    | Some user =>
        match comparePassword user password with
        | Thrown e => Thrown e
        | Ok isPasswordValid =>
            if negb isPasswordValid then Ok (fail 401 "Invalid email or password")
            else
              match generateToken env now (User._id user) (User.role user) with
              | Thrown e => Thrown e
              | Ok token =>
                  Ok (mkResponse 200 true (Some "Login successful") (Some token)
                        (Some (Data.mk (User._id user) (User.email user)
                                 (User.role user) (User.createdAt user)
                                 None None None None None)))
              end
        end
    end.

Definition login `{BcryptLib} `{JwtLib} (env : Env) (now : Z) (db : Db)
    (body : Body.t) : Response :=
  match login_try env now db body with
  | Ok r => r
  | Thrown _ => fail 500 "Error logging in"
  end.

(** ** The access guard: [auth] *)

(** What the guard asks of the token library and of the store. *)
Inductive AuthEffect : Type :=
| JwtVerify (token : string)
| UserFindById (id : oid).

(** The guard answers itself, or attaches the user and calls [next()]. *)
Inductive AuthOutcome : Type :=
| Rejected (r : Response)
| Next (user : User.t).

(** [authHeader] is [req.header('Authorization')]. *)
Definition auth `{JwtLib} (env : Env) (now : Z) (db : Db)
    (authHeader : option string) : AuthOutcome * list AuthEffect :=
  if negb (truthy_opt authHeader) then
    (Rejected (fail 401 "No authorization token provided"), [])
  else if negb (startsWith "Bearer " (val authHeader)) then
    (Rejected (fail 401 "Invalid token format. Use: Bearer <token>"), [])
  else
    let token := substringFrom 7 (val authHeader) in
    if negb (truthy token) then (Rejected (fail 401 "No token found"), [])
    else
      match jwt_verify token (JWT_SECRET env) now with
      | Ok decoded =>
          match findById (claim_id decoded) db with
          | None =>
              (Rejected (fail 401 "User not found"),
               [JwtVerify token; UserFindById (claim_id decoded)])
          | Some user =>
              (Next user, [JwtVerify token; UserFindById (claim_id decoded)])
          end
      | Thrown error =>
          if error_name error =? "JsonWebTokenError" then
            (Rejected (fail 401 "Invalid token"), [JwtVerify token])
          else if error_name error =? "TokenExpiredError" then
            (Rejected (fail 401 "Token has expired"), [JwtVerify token])
          else (Rejected (fail 500 "Authentication failed"), [JwtVerify token])
      end.


(** ** Plain stand-ins for the libraries

    Transparent functions in place of bcryptjs and jsonwebtoken, on which the
    model can be run: a digest is the salt, a dollar sign and the plaintext;
    a tag is the key, a colon and the signing input; claims are written field
    by field in a self-delimiting way. *)

Module Plain.

Definition plain_hash (p salt : string) : string := (salt ++ "$" ++ p)%string.

Fixpoint after_dollar (s : string) : string :=
  match s with
  | EmptyString => EmptyString
  | String c r => if Ascii.eqb c "$" then r else after_dollar r
  end.

Definition plain_compare (candidate digest : string) : bool :=
  after_dollar digest =? candidate.

#[export] Instance bcrypt : BcryptLib :=
  {| bcrypt_hash := plain_hash; bcrypt_compare := plain_compare |}.

Definition plain_hmac (key input : string) : string := (key ++ ":" ++ input)%string.

Fixpoint enc_nat (n : nat) : string :=
  match n with
  | O => "0"
  | S m => String "1" (enc_nat m)
  end.

Fixpoint dec_nat (s : string) : option (nat * string) :=
  match s with
  | EmptyString => None
  | String c r =>
      if Ascii.eqb c "1" then
        match dec_nat r with
        | Some (n, r') => Some (S n, r')
        | None => None
        end
      else if Ascii.eqb c "0" then Some (O, r)
      else None
  end.

Fixpoint enc_str (s : string) : string :=
  match s with
  | EmptyString => "0"
  | String c r => String "1" (String c (enc_str r))
  end.

Fixpoint dec_str (s : string) : option (string * string) :=
  match s with
  | EmptyString => None
  | String t r =>
      if Ascii.eqb t "0" then Some (EmptyString, r)
      else
        match r with
        | EmptyString => None
        | String c r' =>
            if Ascii.eqb t "1" then
              match dec_str r' with
              | Some (x, rest) => Some (String c x, rest)
              | None => None
              end
            else None
        end
  end.

Definition enc_Z (z : Z) : string :=
  String (if (z <? 0)%Z then "-" else "+")%char (enc_nat (Z.abs_nat z)).

Definition dec_Z (s : string) : option (Z * string) :=
  match s with
  | EmptyString => None
  | String c r =>
      match dec_nat r with
      | Some (n, rest) =>
          if Ascii.eqb c "-" then Some ((- Z.of_nat n)%Z, rest)
          else if Ascii.eqb c "+" then Some (Z.of_nat n, rest)
          else None
      | None => None
      end
  end.

Definition enc_exp (e : option Z) : string :=
  match e with
  | Some z => String "S" (enc_Z z)
  | None => "N"
  end.

Definition dec_exp (s : string) : option (option Z * string) :=
  match s with
  | EmptyString => None
  | String c r =>
      if Ascii.eqb c "N" then Some (None, r)
      else if Ascii.eqb c "S" then
        match dec_Z r with
        | Some (z, rest) => Some (Some z, rest)
        | None => None
        end
      else None
  end.

Definition plain_encode (c : Claims) : string :=
  (enc_nat (N.to_nat (claim_id c)) ++ enc_str (claim_role c)
     ++ enc_Z (iat c) ++ enc_exp (exp c))%string.

Definition dec_claims (s : string) : option Claims :=
  match dec_nat s with
  | Some (n, r1) =>
      match dec_str r1 with
      | Some (role, r2) =>
          match dec_Z r2 with
          | Some (i, r3) =>
              match dec_exp r3 with
              | Some (e, EmptyString) => Some (mkClaims (N.of_nat n) role i e)
              | _ => None
              end
          | None => None
          end
      | None => None
      end
  | None => None
  end.

Definition plain_compact (input tag : string) : string :=
  (enc_str input ++ tag)%string.

Definition plain_decode (token : string) : option (string * Claims * string) :=
  match dec_str token with
  | Some (input, tag) =>
      match dec_claims input with
      | Some c => Some (input, c, tag)
      | None => None
      end
  | None => None
  end.

End Plain.


(** ** The input checks of signup, as the specification lists them *)

Module SignupSpec.

(** The checks, in the order of the specification; the fourth one has a
    part for each required field. *)
Inductive Check : Type :=
| EmailAndPasswordPresent
| PasswordLongEnough
| RoleKnown
| KidHasFamilyCode
| KidHasName
| KidHasAge
| EmailNotRegistered.

Definition order : list Check :=
  [EmailAndPasswordPresent; PasswordLongEnough; RoleKnown;
   KidHasFamilyCode; KidHasName; KidHasAge; EmailNotRegistered].

(** Comparison of two addresses, case-insensitive and trimmed. *)
Definition eq_ci_trim (a b : string) : bool :=
  trim (toLowerCase a) =? trim (toLowerCase b).

Definition registered (db : Db) (email : string) : bool :=
  existsb (fun u => eq_ci_trim (User.email u) email) (users db).

(** The role the request asks for, [parent] when none is given; a role
    that is given and is no string is the name of no role. *)
Definition requested_role (b : Body.t) : string :=
  if truthy_js (Body.role b) then str_of (Body.role b) else "parent".

(** The password is a text of six characters or more. *)
Definition long_enough (password : JsValue) : bool :=
  match password with
  | JStr p => (6 <=? String.length p)%nat
  | _ => false
  end.

Definition passes (db : Db) (b : Body.t) (c : Check) : bool :=
  match c with
  | EmailAndPasswordPresent =>
      truthy_js (Body.email b) && truthy_js (Body.password b)
  | PasswordLongEnough => long_enough (Body.password b)
  | RoleKnown =>
      (requested_role b =? "parent") || (requested_role b =? "kid")
  | KidHasFamilyCode =>
      negb (requested_role b =? "kid") || truthy_js (Body.familyCode b)
  | KidHasName =>
      negb (requested_role b =? "kid") || truthy_js (Body.name b)
  | KidHasAge =>
      negb (requested_role b =? "kid") || truthy_js (Body.age b)
  | EmailNotRegistered =>
      match Body.email b with
      | JStr e => negb (registered db e)
      | _ => true
      end
  end.

Definition rejection (c : Check) : Response :=
  match c with
  | EmailAndPasswordPresent => fail 400 "Please provide email and password"
  | PasswordLongEnough => fail 400 "Password must be at least 6 characters long"
  | RoleKnown =>
      fail 400 ("Role must be either " ++ quoted "parent" ++ " or "
                  ++ quoted "kid")%string
  | KidHasFamilyCode => fail 400 "Family code is required for kid signup"
  | KidHasName => fail 400 "Name is required for kid signup"
  | KidHasAge => fail 400 "Age is required for kid signup"
  | EmailNotRegistered => fail 409 "User with this email already exists"
  end.

(** First failure wins. *)
Definition first_failure (db : Db) (b : Body.t) : option Check :=
  find (fun c => negb (passes db b c)) order.

End SignupSpec.

(** Stored addresses are in the schema's normal form (lower case, trimmed),
    as its setters leave them. *)
Definition emails_normalized (db : Db) : Prop :=
  forall u, In u (users db) -> trim (toLowerCase (User.email u)) = User.email u.

(** No stored user carries the family code [c]. *)
Definition code_unused (db : Db) (c : string) : Prop :=
  forall u, In u (users db) -> User.familyCode u <> Some c.

(** Entropy that draws every outcome of [randomBytes(3)] at some call. *)
Definition draws_every_outcome (rnd : nat -> bytes3) : Prop :=
  forall r : bytes3, exists n, rnd n = r.

(** The outcomes in turn: the [n]-th is [n] written with three digits of
    base 256. *)
Definition byte_of_N (n : N) : byte :=
  match Byte.of_N (n mod 256) with
  | Some b => b
  | None => x00
  end.

Definition nth_bytes3 (n : nat) : bytes3 :=
  let m := N.of_nat n in
  (byte_of_N (m / 65536), (byte_of_N (m / 256), byte_of_N m)).

(** ** Sample data *)

Module Sample.

Definition env : Env := mkEnv (Some "s3cret") (Some 60%Z).

Definition empty : Db := mkDb [] [] 1%N.

Definition parent1 : User.t :=
  User.mk 1%N "p1@x.com" (Some "salt$secret1") "parent" (Some "A3F2B1") None
    None [] 5000%Z.

Definition kid1 : User.t :=
  User.mk 2%N "k1@x.com" (Some "salt$secret1") "kid" (Some "A3F2B1") (Some 1%N)
    (Some "Al") [] 6000%Z.

(** One parent. *)
Definition family : Db := mkDb [parent1] [] 2%N.

Definition parentBody : Body.t :=
  Body.mk (JStr "P1@x.com") (JStr "secret1") JUndefined JUndefined JUndefined
    JUndefined.

Definition parent2Body : Body.t :=
  Body.mk (JStr "p2@x.com") (JStr "secret2") JUndefined JUndefined JUndefined
    JUndefined.

Definition kidBody (email code : string) : Body.t :=
  Body.mk (JStr email) (JStr "secret1") (JStr "kid") (JStr code) (JStr "Al")
    (JNum 10%Z).

(** Credentials with a number for the password. *)
Definition numericBody (email : string) : Body.t :=
  Body.mk (JStr email) (JNum 12345%Z) JUndefined JUndefined JUndefined
    JUndefined.

(** What the service signs for [parent1] at second 5, valid for a minute;
    the token it issues, and the same claims signed with another key. *)
Definition claims1 : Claims := mkClaims 1%N "parent" 5%Z (Some 65%Z).

Definition token1 : string :=
  Plain.plain_compact (Plain.plain_encode claims1)
    (Plain.plain_hmac "s3cret" (Plain.plain_encode claims1)).

Definition forged1 : string :=
  Plain.plain_compact (Plain.plain_encode claims1)
    (Plain.plain_hmac "guess" (Plain.plain_encode claims1)).

(** Entropy that draws A3 F2 B1 for the first [n] calls and then every
    outcome in turn, from 00 00 00 on. *)
Definition late (n : nat) : nat -> bytes3 :=
  fun i => if (i <? n)%nat then (xa3, (xf2, xb1)) else nth_bytes3 (i - n).

End Sample.

(** ** Why a login is refused *)

(** Whether a digest verifies a supplied password: none verifies a value
    that is no string. *)
Definition verifies `{BcryptLib} (candidate : JsValue) (digest : string)
    : bool :=
  match candidate with
  | JStr c => bcrypt_compare c digest
  | _ => false
  end.

(** The request carries both credentials, the address being a string, and
    either no user is stored under the normalised address, or the stored
    digest does not verify the supplied password. *)
Inductive LoginRefused `{BcryptLib} (db : Db) (body : Body.t) : Prop :=
| NoSuchUser :
    is_str (Body.email body) = true ->
    truthy_js (Body.email body) = true ->
    truthy_js (Body.password body) = true ->
    findOne_email_with_password
      (trim (toLowerCase (str_of (Body.email body)))) db = None ->
    LoginRefused db body
| WrongPassword (user : User.t) (digest : string) :
    is_str (Body.email body) = true ->
    truthy_js (Body.email body) = true ->
    truthy_js (Body.password body) = true ->
    findOne_email_with_password
      (trim (toLowerCase (str_of (Body.email body)))) db = Some user ->
    User.password user = Some digest ->
    verifies (Body.password body) digest = false ->
    LoginRefused db body.

(** ** What the schemas can object to, once the input checks have passed *)

Definition user_validation_outcomes : list (list string) :=
  [ []; ["Email is required"]; ["Please provide a valid email address"];
    ["Name cannot exceed 50 characters"];
    ["Email is required"; "Name cannot exceed 50 characters"];
    ["Please provide a valid email address"; "Name cannot exceed 50 characters"] ].

Definition kid_validation_outcomes : list (list string) :=
  map (fun '(a, b) => a ++ b)
    (list_prod
       [ []; ["Kid name is required"];
         ["Name must be at least 2 characters long"];
         ["Name cannot exceed 50 characters"] ]
       [ []; ["Age is required"]; ["Age must be at least 1"];
         ["Age cannot exceed 18"] ]).

(** * The rest of the backend: roles, the signed-in user, kid profiles

    Further parts of the backend, on the conventions above:
    - [src/middleware/checkRole.js]: the role check;
    - the auth controller: [getCurrentUser], [logout];
    - the kid controller: [addKid], [getKids], [getKid], [updateKid],
      [deleteKid];
    - [src/routes/kids.js] and the [/me] route: the middleware chains.

    Further conventions.
    - The body of a kid route is typed as the API documents it: [name] and
      [avatarColor] are absent or strings, [age] is absent or an integer,
      [interests] is absent, an array of strings, or something that is no
      array.
    - [req.params.id] is any text of the URL: one that reads as an ObjectId,
      or one that does not, which Mongoose refuses to cast when it builds
      the query ([CastError]).
    - [save()] on a document loaded from the store validates every loaded
      path and writes the changed ones.
    - A request is handled against one state of the store: nothing
      interleaves between a middleware and its handler.
    - The driver does not fail: a query or a write returns, so that the
      only errors thrown are those of validation and of the libraries. *)

From Stdlib Require Import Sorted.
(** ** The role check: [checkRole(...allowedRoles)] *)

(** [None] stands for [next()]; [user] is [req.user]. *)
Definition checkRole (allowedRoles : list string) (user : option User.t)
    : option Response :=
  match user with
  | None => Some (fail 401 "User not authenticated")
  | Some u =>
      if negb (existsb (String.eqb (User.role u)) allowedRoles) then
        Some (fail 403
                ("Access denied. Only " ++ join " or " allowedRoles
                   ++ " can perform this action")%string)
      else None
  end.

(** ** [getCurrentUser] and [logout] *)

Module Me.
(** The [data] object of [GET /api/auth/me]. *)
Record t : Type := mk {
  id : oid;
  email : string;
  role : string;
  createdAt : Z;
  familyCode : option (option string);
  kids : option (list oid);
  name : option (option string);
  parent : option (option oid)
}.
End Me.

(** A field that is on the object only for some roles holds, when it is
    there, what the document has (which may be nothing). *)
Definition only_if {A} (b : bool) (a : A) : option A :=
  if b then Some a else None.

Inductive MeResponse : Type :=
| MeFailed (r : Response)
| MeFound (status : Z) (data : Me.t).

(** [user] is [req.user], attached by the guard. *)
Definition getCurrentUser (db : Db) (reqUser : User.t) : MeResponse :=
  match findById (User._id reqUser) db with
  | None => MeFailed (fail 404 "User not found")
  | Some user =>
      let parentRole := User.role user =? "parent" in
      let kidRole := negb parentRole && (User.role user =? "kid") in
      MeFound 200
        (Me.mk (User._id user) (User.email user) (User.role user)
           (User.createdAt user)
           (only_if parentRole (User.familyCode user))
           (only_if parentRole (User.kids user))
           (only_if kidRole (User.name user))
           (only_if kidRole (User.parent user)))
  end.

Definition logout : Response :=
  mkResponse 200 true
    (Some "Logout successful. Please remove the token from client storage.")
    None None.

(** [router.get('/me', auth, getCurrentUser)] *)
Definition me_route `{JwtLib} (env : Env) (now : Z) (db : Db)
    (authHeader : option string) : MeResponse :=
  match fst (auth env now db authHeader) with
  | Rejected r => MeFailed r
  | Next user => getCurrentUser db user
  end.

(** ** The kid controller *)

(** [req.body.interests]: not sent, something that is no array (truthy or
    not), or an array of tags. *)
Inductive Interests : Type :=
| InterestsUndefined
| InterestsOther (truthy : bool)
| InterestsArray (tags : list string).

Definition truthy_interests (i : Interests) : bool :=
  match i with
  | InterestsUndefined => false
  | InterestsOther t => t
  | InterestsArray _ => true
  end.

(** The tags of a value already known to be an array. *)
Definition tags_of (i : Interests) : list string :=
  match i with
  | InterestsArray tags => tags
  | _ => []
  end.

(** The number behind a value already known to be one. *)
Definition num (o : option Z) : Z :=
  match o with
  | Some n => n
  | None => 0%Z
  end.

(** [!Array.isArray(interests) || interests.length === 0] *)
Definition not_a_filled_array (i : Interests) : bool :=
  match i with
  | InterestsArray tags => (List.length tags =? 0)%nat
  | _ => true
  end.

Module KidBody.
(** [req.body] of the kid routes. *)
Record t : Type := mk {
  name : option string;
  age : option Z;
  avatarColor : option string;
  interests : Interests
}.
End KidBody.

(** What a kid route sends besides status, flag and message. *)
Inductive KidPayload : Type :=
| NoData
| OneKid (kid : Kid.t)
| KidList (count : nat) (kids : list Kid.t).

Record KidResponse : Type := mkKidResponse {
  kid_status : Z;
  kid_success : bool;
  kid_message : option string;
  kid_payload : KidPayload
}.

Definition kid_fail (st : Z) (msg : string) : KidResponse :=
  mkKidResponse st false (Some msg) NoData.

(** The validators of the kid schema, path by path, on a built document. *)
Definition validate_Kid_path (path : string) (k : Kid.t) : list string :=
  if path =? "name" then
    if Kid.name k =? "" then ["Kid name is required"]
    else if (String.length (Kid.name k) <? 2)%nat
         then ["Name must be at least 2 characters long"]
    else if (50 <? String.length (Kid.name k))%nat
         then ["Name cannot exceed 50 characters"]
    else []
  else if path =? "age" then
    if (Kid.age k <? 1)%Z then ["Age must be at least 1"]
    else if (18 <? Kid.age k)%Z then ["Age cannot exceed 18"]
    else []
  else if path =? "avatarColor" then
    if Kid.avatarColor k =? "" then ["Avatar color is required"] else []
  else if path =? "interests" then
    if (List.length (Kid.interests k) <=? 10)%nat then []
    else ["Cannot have more than 10 interests"]
  else [].

Definition kid_schema_paths : list string :=
  ["name"; "age"; "avatarColor"; "interests"].

(** [Kid.create({ name, age, avatarColor, interests, parent })], every field
    supplied: setters, validation of every path, insert. *)
Definition Kid_create_full (now : Z) (db : Db) (name : string) (age : Z)
    (avatarColor : string) (interests : list string) (parent : oid)
    : Result Kid.t * Db :=
  let k := Kid.mk (next_oid db) (trim name) age (trim avatarColor) interests
             parent now in
  match flat_map (fun p => validate_Kid_path p k) kid_schema_paths with
  | [] => (Ok k, mkDb (users db) (kids db ++ [k]) (next_oid db + 1)%N)
  | msgs => (Thrown (ValidationError msgs), db)
  end.

(** [Kid.findOne({ _id: kidId, parent: parentId })] *)
Definition owned_by (kidId parentId : oid) (k : Kid.t) : bool :=
  ((Kid._id k =? kidId) && (Kid.parent k =? parentId))%N.

Definition Kid_findOne (kidId parentId : oid) (db : Db) : option Kid.t :=
  find (owned_by kidId parentId) (kids db).

(** [Kid.find({ parent }).sort({ createdAt: -1 })]: newest first; kids of
    equal time stamp stay in scan order. *)
Fixpoint insert_newest_first (k : Kid.t) (l : list Kid.t) : list Kid.t :=
  match l with
  | [] => [k]
  | x :: r =>
      if (Kid.createdAt x <=? Kid.createdAt k)%Z then k :: l
      else x :: insert_newest_first k r
  end.

Definition sort_newest_first (l : list Kid.t) : list Kid.t :=
  fold_right insert_newest_first [] l.

Definition Kid_find_sorted (parentId : oid) (db : Db) : list Kid.t :=
  sort_newest_first
    (filter (fun k => (Kid.parent k =? parentId)%N) (kids db)).

(** [Kid.findOneAndDelete({ _id: kidId, parent: parentId })] *)
Fixpoint remove_first {A} (p : A -> bool) (l : list A) : list A :=
  match l with
  | [] => []
  | x :: r => if p x then r else x :: remove_first p r
  end.

(** [User.findByIdAndUpdate(id, { $pull: { kids: k } })] *)
Definition pull_kid (k : oid) (u : User.t) : User.t :=
  User.mk (User._id u) (User.email u) (User.password u) (User.role u)
    (User.familyCode u) (User.parent u) (User.name u)
    (filter (fun x => negb (x =? k)%N) (User.kids u)) (User.createdAt u).

Definition findByIdAndUpdate_pull_kids (id k : oid) (db : Db) : Db :=
  mkDb (update_first (fun u => (User._id u =? id)%N) (pull_kid k) (users db))
       (kids db) (next_oid db).

(** The [catch] block shared by [addKid] and [updateKid]. *)
Definition kid_catch (fallback : string) (e : JsError) : KidResponse :=
  if error_name e =? "ValidationError" then
    let messages := error_messages e in
    kid_fail 400 (join ", " messages)
  else kid_fail 500 fallback.

(** [addKid]; [reqUser] is [req.user]. *)
Definition addKid (now : Z) (db : Db) (reqUser : User.t) (body : KidBody.t)
    : KidResponse * Db :=
  let name := KidBody.name body in
  let age := KidBody.age body in
  let avatarColor := KidBody.avatarColor body in
  let interests := KidBody.interests body in
  let parentId := User._id reqUser in
  if negb (truthy_opt name) || negb (truthy_num age)
     || negb (truthy_interests interests) then
    (kid_fail 400 "Please provide name, age, and interests", db)
  else if not_a_filled_array interests then
    (kid_fail 400 "Interests must be a non-empty array", db)
  else
    match
      Kid_create_full now db (val name) (num age)
        (if truthy_opt avatarColor then val avatarColor
         else "from-blue-400 to-purple-500")
        (tags_of interests) parentId
    with
    | (Thrown e, db1) => (kid_catch "Failed to add kid" e, db1)
    | (Ok kid, db1) =>
        (mkKidResponse 201 true (Some "Kid added successfully") (OneKid kid),
         findByIdAndUpdate_push_kids parentId (Kid._id kid) db1)
    end.

(** [getKids] *)
Definition getKids (db : Db) (reqUser : User.t) : KidResponse :=
  let kids := Kid_find_sorted (User._id reqUser) db in
  mkKidResponse 200 true None (KidList (List.length kids) kids).

(** [req.params.id]: the text of an ObjectId, or some other text. *)
Inductive IdParam : Type :=
| WellFormed (id : oid)
| Malformed.

(** [getKid]; [kidId] is [req.params.id].  The query throws on an id that
    is malformed, and the [catch] block answers. *)
Definition getKid (db : Db) (reqUser : User.t) (kidId : IdParam)
    : KidResponse :=
  match kidId with
  | Malformed => kid_fail 500 "Failed to retrieve kid"
  | WellFormed kidId =>
      match Kid_findOne kidId (User._id reqUser) db with
      | None => kid_fail 404 "Kid not found"
      | Some kid => mkKidResponse 200 true None (OneKid kid)
      end
  end.

(** A kid document in memory, with the paths assigned a new value. *)
Record KidDocument : Type := mkKidDoc {
  kid_fields : Kid.t;
  kid_modified : list string
}.

Definition kid_mark (path : string) (changed : bool) (d : KidDocument)
    (k : Kid.t) : KidDocument :=
  if changed then
    mkKidDoc k (if existsb (String.eqb path) (kid_modified d)
                then kid_modified d else kid_modified d ++ [path])
  else d.

Definition kid_with_name (n : string) (k : Kid.t) : Kid.t :=
  Kid.mk (Kid._id k) n (Kid.age k) (Kid.avatarColor k) (Kid.interests k)
    (Kid.parent k) (Kid.createdAt k).

Definition kid_with_age (a : Z) (k : Kid.t) : Kid.t :=
  Kid.mk (Kid._id k) (Kid.name k) a (Kid.avatarColor k) (Kid.interests k)
    (Kid.parent k) (Kid.createdAt k).

Definition kid_with_avatarColor (c : string) (k : Kid.t) : Kid.t :=
  Kid.mk (Kid._id k) (Kid.name k) (Kid.age k) c (Kid.interests k)
    (Kid.parent k) (Kid.createdAt k).

Definition kid_with_interests (i : list string) (k : Kid.t) : Kid.t :=
  Kid.mk (Kid._id k) (Kid.name k) (Kid.age k) (Kid.avatarColor k) i
    (Kid.parent k) (Kid.createdAt k).

(** [kid.name = name], and the like: through the setters, marked when the
    value changes. *)
Definition kid_set_name (v : string) (d : KidDocument) : KidDocument :=
  kid_mark "name" (negb (Kid.name (kid_fields d) =? trim v)) d
    (kid_with_name (trim v) (kid_fields d)).

Definition kid_set_age (v : Z) (d : KidDocument) : KidDocument :=
  kid_mark "age" (negb (Kid.age (kid_fields d) =? v)%Z) d
    (kid_with_age v (kid_fields d)).

Definition kid_set_avatarColor (v : string) (d : KidDocument) : KidDocument :=
  kid_mark "avatarColor" (negb (Kid.avatarColor (kid_fields d) =? trim v)) d
    (kid_with_avatarColor (trim v) (kid_fields d)).

Definition kid_set_interests (v : list string) (d : KidDocument) : KidDocument :=
  kid_mark "interests"
    (negb (if list_eq_dec string_dec (Kid.interests (kid_fields d)) v
           then true else false)) d
    (kid_with_interests v (kid_fields d)).

Definition set_if_defined {A} (o : option A)
    (f : A -> KidDocument -> KidDocument) (d : KidDocument) : KidDocument :=
  match o with
  | Some v => f v d
  | None => d
  end.

Definition kid_write_path (src : Kid.t) (dst : Kid.t) (path : string) : Kid.t :=
  if path =? "name" then kid_with_name (Kid.name src) dst
  else if path =? "age" then kid_with_age (Kid.age src) dst
  else if path =? "avatarColor" then kid_with_avatarColor (Kid.avatarColor src) dst
  else if path =? "interests" then kid_with_interests (Kid.interests src) dst
  else dst.

(** [kid.save()] on a kid loaded whole from the store: every loaded path is
    validated, changed or not, then the changed paths are written to the
    stored document of that id, which fails when no document of that id is
    stored any more. *)
Definition Kid_save (db : Db) (d : KidDocument) : Result Kid.t * Db :=
  match
    flat_map (fun p => validate_Kid_path p (kid_fields d)) kid_schema_paths
  with
  | [] =>
      if negb (existsb (fun k => (Kid._id k =? Kid._id (kid_fields d))%N)
                 (kids db)) then
        (Thrown DocumentNotFoundError, db)
      else
        (Ok (kid_fields d),
         mkDb (users db)
           (update_first (fun k => (Kid._id k =? Kid._id (kid_fields d))%N)
              (fun k =>
                 fold_left (kid_write_path (kid_fields d)) (kid_modified d) k)
              (kids db))
           (next_oid db))
  | msgs => (Thrown (ValidationError msgs), db)
  end.

(** [interests !== undefined] *)
Definition defined_interests (i : Interests) : bool :=
  match i with
  | InterestsUndefined => false
  | _ => true
  end.

(** [updateKid] *)
Definition updateKid (db : Db) (reqUser : User.t) (kidId : IdParam)
    (body : KidBody.t) : KidResponse * Db :=
  let interests := KidBody.interests body in
  match kidId with
  | Malformed => (kid_catch "Failed to update kid" (CastError "_id"), db)
  | WellFormed kidId =>
      match Kid_findOne kidId (User._id reqUser) db with
      | None => (kid_fail 404 "Kid not found", db)
      | Some found =>
          let kid := mkKidDoc found [] in
          let kid := set_if_defined (KidBody.name body) kid_set_name kid in
          let kid := set_if_defined (KidBody.age body) kid_set_age kid in
          let kid :=
            set_if_defined (KidBody.avatarColor body) kid_set_avatarColor kid in
          if defined_interests interests && not_a_filled_array interests then
            (kid_fail 400 "Interests must be a non-empty array", db)
          else
            let kid :=
              if defined_interests interests
              then kid_set_interests (tags_of interests) kid else kid in
            match Kid_save db kid with
            | (Thrown e, db1) => (kid_catch "Failed to update kid" e, db1)
            | (Ok saved, db1) =>
                (mkKidResponse 200 true (Some "Kid updated successfully")
                   (OneKid saved), db1)
            end
      end
  end.

(** [deleteKid] *)
Definition deleteKid (db : Db) (reqUser : User.t) (kidId : IdParam)
    : KidResponse * Db :=
  let parentId := User._id reqUser in
  match kidId with
  | Malformed => (kid_fail 500 "Failed to delete kid", db)
  | WellFormed kidId =>
      match Kid_findOne kidId parentId db with
      | None => (kid_fail 404 "Kid not found", db)
      | Some _ =>
          (mkKidResponse 200 true (Some "Kid deleted successfully") NoData,
           findByIdAndUpdate_pull_kids parentId kidId
             (mkDb (users db) (remove_first (owned_by kidId parentId) (kids db))
                (next_oid db)))
      end
  end.

(** ** The kid routes: [router.use(auth); router.use(checkRole('parent'))] *)

Inductive KidRequest : Type :=
| PostKid (body : KidBody.t)
| ListKids
| ReadKid (kidId : IdParam)
| PutKid (kidId : IdParam) (body : KidBody.t)
| DeleteKid (kidId : IdParam).

Definition kid_handler (now : Z) (db : Db) (reqUser : User.t)
    (req : KidRequest) : KidResponse * Db :=
  match req with
  | PostKid body => addKid now db reqUser body
  | ListKids => (getKids db reqUser, db)
  | ReadKid kidId => (getKid db reqUser kidId, db)
  | PutKid kidId body => updateKid db reqUser kidId body
  | DeleteKid kidId => deleteKid db reqUser kidId
  end.

(** A request is answered by a middleware or by its handler. *)
Inductive RouteAnswer : Type :=
| Stopped (r : Response)
| Handled (r : KidResponse).

Definition kids_route `{JwtLib} (env : Env) (now : Z) (db : Db)
    (authHeader : option string) (req : KidRequest) : RouteAnswer * Db :=
  match fst (auth env now db authHeader) with
  | Rejected r => (Stopped r, db)
  | Next user =>
      match checkRole ["parent"] (Some user) with
      | Some r => (Stopped r, db)
      | None =>
          let '(r, db') := kid_handler now db user req in
          (Handled r, db')
      end
  end.

(** ** What a pattern accepts *)

(** The strings a pattern denotes. *)
Inductive matches : Regex.re -> string -> Prop :=
| MEps : matches Regex.Eps ""
| MChr (p : ascii -> bool) (c : ascii) :
    p c = true -> matches (Regex.Chr p) (String c "")
| MCat (a b : Regex.re) (s1 s2 : string) :
    matches a s1 -> matches b s2 -> matches (Regex.Cat a b) (s1 ++ s2)
| MAltL (a b : Regex.re) (s : string) :
    matches a s -> matches (Regex.Alt a b) s
| MAltR (a b : Regex.re) (s : string) :
    matches b s -> matches (Regex.Alt a b) s
| MStar0 (a : Regex.re) : matches (Regex.Star a) ""
| MStarS (a : Regex.re) (s1 s2 : string) :
    matches a s1 -> matches (Regex.Star a) s2 ->
    matches (Regex.Star a) (s1 ++ s2).

(** The characters a pattern can consume. *)
Fixpoint alphabet (r : Regex.re) (c : ascii) : bool :=
  match r with
  | Regex.Void | Regex.Eps => false
  | Regex.Chr p => p c
  | Regex.Cat a b | Regex.Alt a b => alphabet a c || alphabet b c
  | Regex.Star a => alphabet a c
  end.

Fixpoint all_chars (p : ascii -> bool) (s : string) : bool :=
  match s with
  | EmptyString => true
  | String c r => p c && all_chars p r
  end.

(** [\w], and [[\w.-]] *)
Definition word_char (c : ascii) : bool :=
  is_upper c || is_lower c || is_digit c || Ascii.eqb c "_".

Definition label_char (c : ascii) : bool :=
  word_char c || Ascii.eqb c "." || Ascii.eqb c "-".

(** ** Shapes used to state what the handlers have done *)

(** The 201 response of signup for a created [user]. *)
Definition created_response (user : User.t) (kidDoc : option Kid.t)
    (age : option Z) (token : string) : Response :=
  let parentRole := User.role user =? "parent" in
  let kidRole := User.role user =? "kid" in
  mkResponse 201 true (Some "User created successfully") (Some token)
    (Some (Data.mk (User._id user) (User.email user) (User.role user)
             (User.createdAt user)
             (if parentRole then User.familyCode user else None)
             (if kidRole then User.name user else None)
             (if kidRole then User.parent user else None)
             (if kidRole then option_map Kid._id kidDoc else None)
             (if kidRole then age else None))).

(** The two ways signup ends after its token step. *)
Definition token_step `{JwtLib} (env : Env) (now : Z) (user : User.t)
    (kidDoc : option Kid.t) (age : option Z) (resp : Response) : Prop :=
  (exists tok,
      generateToken env now (User._id user) (User.role user) = Ok tok
      /\ resp = created_response user kidDoc age tok)
  \/ (exists e,
        generateToken env now (User._id user) (User.role user) = Thrown e
        /\ resp = signup_catch e).

(** A user document without its [kids] array. *)
Definition account (u : User.t) : User.t :=
  User.mk (User._id u) (User.email u) (User.password u) (User.role u)
    (User.familyCode u) (User.parent u) (User.name u) [] (User.createdAt u).

(** A user document as far as a kid route of [parentId] must leave it: whole
    for every other user, without its [kids] array for that one. *)
Definition outside (parentId : oid) (v : User.t) : User.t :=
  if (User._id v =? parentId)%N then account v else v.

(** The family codes carried by users of role parent, in scan order. *)
Definition parent_codes (us : list User.t) : list string :=
  flat_map
    (fun u => if User.role u =? "parent"
              then match User.familyCode u with Some c => [c] | None => [] end
              else [])
    us.

(** The bounds of the kid schema. *)
Definition kid_valid (k : Kid.t) : Prop :=
  (2 <= String.length (Kid.name k) <= 50)%nat
  /\ trim (Kid.name k) = Kid.name k
  /\ (1 <= Kid.age k <= 18)%Z
  /\ Kid.avatarColor k <> ""
  /\ (List.length (Kid.interests k) <= 10)%nat.

(** The document [updateKid] hands to [kid.save()]: the stored profile with
    the assignments of the body made on it. *)
Definition kid_edit (found : Kid.t) (body : KidBody.t) : KidDocument :=
  let kid := mkKidDoc found [] in
  let kid := set_if_defined (KidBody.name body) kid_set_name kid in
  let kid := set_if_defined (KidBody.age body) kid_set_age kid in
  let kid := set_if_defined (KidBody.avatarColor body) kid_set_avatarColor kid in
  if defined_interests (KidBody.interests body)
  then kid_set_interests (tags_of (KidBody.interests body)) kid else kid.

(** The profile a body asks for: the sent fields, through the setters, over
    the stored ones. *)
Definition kid_edited (found : Kid.t) (body : KidBody.t) : Kid.t :=
  Kid.mk (Kid._id found)
    (match KidBody.name body with
     | Some n => trim n
     | None => Kid.name found
     end)
    (match KidBody.age body with
     | Some a => a
     | None => Kid.age found
     end)
    (match KidBody.avatarColor body with
     | Some c => trim c
     | None => Kid.avatarColor found
     end)
    (if defined_interests (KidBody.interests body)
     then tags_of (KidBody.interests body) else Kid.interests found)
    (Kid.parent found) (Kid.createdAt found).

(** What no kid route changes of a stored profile. *)
Definition kid_frame (k : Kid.t) : oid * oid * Z :=
  (Kid._id k, Kid.parent k, Kid.createdAt k).

(** A document in memory agrees with the stored profile it was loaded from
    on every path that is not marked as changed. *)
Definition kid_doc_inv (found : Kid.t) (d : KidDocument) : Prop :=
  kid_frame (kid_fields d) = kid_frame found
  /\ (Kid.name (kid_fields d) = Kid.name found \/ In "name" (kid_modified d))
  /\ (Kid.age (kid_fields d) = Kid.age found \/ In "age" (kid_modified d))
  /\ (Kid.avatarColor (kid_fields d) = Kid.avatarColor found
      \/ In "avatarColor" (kid_modified d))
  /\ (Kid.interests (kid_fields d) = Kid.interests found
      \/ In "interests" (kid_modified d)).

(** The kid profiles a response carries. *)
Definition payload_kids (p : KidPayload) : list Kid.t :=
  match p with
  | NoData => []
  | OneKid k => [k]
  | KidList _ ks => ks
  end.

(** No two stored kid profiles share an id. *)
Definition kid_ids_distinct (db : Db) : Prop :=
  NoDup (map Kid._id (kids db)).

(** Newest first: no profile is followed by a newer one. *)
Definition newest_first (l : list Kid.t) : Prop :=
  StronglySorted (fun a b => (Kid.createdAt b <= Kid.createdAt a)%Z) l.

(** Every stored address is in normal form and matches the schema's
    pattern. *)
Definition addresses_valid (db : Db) : Prop :=
  forall u, In u (users db) ->
    trim (toLowerCase (User.email u)) = User.email u
    /\ Regex.test emailPattern (User.email u) = true.

(** The next ObjectId is carried by no stored document. *)
Definition next_oid_fresh (db : Db) : Prop :=
  (forall u, In u (users db) -> User._id u <> next_oid db)
  /\ (forall k, In k (kids db) -> Kid._id k <> next_oid db).

(** The store is well formed: ids identify documents and lie below the
    counter, as do the owners of the profiles, and the [kids] array of every
    user lists, once each, exactly the ids of the profiles it owns. *)
Record store_wf (db : Db) : Prop := mk_store_wf {
  wf_user_ids : NoDup (map User._id (users db));
  wf_kid_ids : NoDup (map Kid._id (kids db));
  wf_users_below :
    forall v, In v (users db) -> (User._id v < next_oid db)%N;
  wf_kids_below :
    forall k, In k (kids db) ->
      (Kid._id k < next_oid db)%N /\ (Kid.parent k < next_oid db)%N;
  wf_listed_once : forall v, In v (users db) -> NoDup (User.kids v);
  wf_linked :
    forall v i, In v (users db) ->
      (In i (User.kids v) <->
       exists k, In k (kids db) /\ Kid._id k = i /\ Kid.parent k = User._id v)
}.

(** ** The stores the service comes to hold *)






(** ** More sample data *)

Module Household.

Definition parent1 : User.t := push_kid 1%N 3%N Sample.parent1.

Definition parent2 : User.t :=
  User.mk 4%N "p2@x.com" (Some "salt$secret2") "parent" (Some "0B0B0B") None
    None [5%N] 7000%Z.

Definition al : Kid.t :=
  Kid.mk 3%N "Al" 10%Z "from-blue-400 to-purple-500" [] 1%N 6000%Z.

Definition bea : Kid.t :=
  Kid.mk 5%N "Bea" 7%Z "from-blue-400 to-purple-500" ["chess"] 4%N 8000%Z.

(** Two families: a parent with a kid account and its profile, and a parent
    with a profile added directly. *)
Definition db : Db :=
  mkDb [parent1; Sample.kid1; parent2] [al; bea] 6%N.

Definition cyBody : KidBody.t :=
  KidBody.mk (Some " Cy ") (Some 4%Z) None (InterestsArray ["lego"; "frogs"]).

Definition renameBody : KidBody.t :=
  KidBody.mk (Some " Alan ") None None InterestsUndefined.

(** A kid signup with the family code of [parent1]. *)
Definition joinBody (age : Z) : Body.t :=
  Body.mk (JStr "k9@x.com") (JStr "secret9") (JStr "kid") (JStr "a3f2b1")
    (JStr "Kim") (JNum age).

(** The token the service issues to the kid account [kid1] at second 5,
    valid for a minute. *)
Definition kidClaims : Claims := mkClaims 2%N "kid" 5%Z (Some 65%Z).

Definition kidToken : string :=
  Plain.plain_compact (Plain.plain_encode kidClaims)
    (Plain.plain_hmac "s3cret" (Plain.plain_encode kidClaims)).

End Household.

(** * Properties *)

(** ** The family-code generator *)

Example generateFamilyCode_sample : generateFamilyCode (xa3, (xf2, xb1)) = "A3F2B1".
Proof. reflexivity. Qed.

Lemma hex_byte_shape (b : byte) :
  exists hi lo, toUpperCase (hex_of_byte b) = String hi (String lo EmptyString)
    /\ is_upper_hex hi = true /\ is_upper_hex lo = true
    /\ unhex_byte hi lo = Some b.
Proof.
  destruct b; do 2 eexists; (split; [reflexivity | repeat split; reflexivity]).
Qed.

Lemma app_empty_r (s : string) : (s ++ "")%string = s.
Proof. induction s as [|c s IH]; cbn; [reflexivity | now rewrite IH]. Qed.

Lemma app_assoc_s (a b c : string) :
  ((a ++ b) ++ c)%string = (a ++ (b ++ c))%string.
Proof. induction a as [|x a IH]; cbn; [reflexivity | now rewrite IH]. Qed.

Lemma toUpperCase_app (a b : string) :
  toUpperCase (a ++ b) = (toUpperCase a ++ toUpperCase b)%string.
Proof.
  induction a as [|c a IH]; cbn; [reflexivity|].
  now rewrite IH, app_assoc_s.
Qed.

Lemma generateFamilyCode_bytes b0 b1 b2 :
  generateFamilyCode (b0, (b1, b2)) =
  (toUpperCase (hex_of_byte b0) ++ toUpperCase (hex_of_byte b1)
     ++ toUpperCase (hex_of_byte b2))%string.
Proof.
  unfold generateFamilyCode, toString_hex, buffer_of.
  cbn [map String.concat]. now rewrite !toUpperCase_app.
Qed.

Lemma generateFamilyCode_parse (r : bytes3) :
  parseFamilyCode (generateFamilyCode r) = Some r.
Proof.
  destruct r as [b0 [b1 b2]]. rewrite generateFamilyCode_bytes.
  destruct (hex_byte_shape b0) as (h0 & l0 & -> & _ & _ & E0).
  destruct (hex_byte_shape b1) as (h1 & l1 & -> & _ & _ & E1).
  destruct (hex_byte_shape b2) as (h2 & l2 & -> & _ & _ & E2).
  cbn [append parseFamilyCode]. now rewrite E0, E1, E2.
Qed.

Lemma generateFamilyCode_inj (r r' : bytes3) :
  generateFamilyCode r = generateFamilyCode r' -> r = r'.
Proof.
  intros E. apply (f_equal parseFamilyCode) in E.
  rewrite !generateFamilyCode_parse in E. congruence.
Qed.

Lemma generateFamilyCode_shape (r : bytes3) :
  String.length (generateFamilyCode r) = 6
  /\ all_chars is_upper_hex (generateFamilyCode r) = true.
Proof.
  destruct r as [b0 [b1 b2]]. rewrite generateFamilyCode_bytes.
  destruct (hex_byte_shape b0) as (h0 & l0 & -> & A0 & B0 & _).
  destruct (hex_byte_shape b1) as (h1 & l1 & -> & A1 & B1 & _).
  destruct (hex_byte_shape b2) as (h2 & l2 & -> & A2 & B2 & _).
  cbn [append String.length all_chars].
  now rewrite A0, B0, A1, B1, A2, B2.
Qed.

Lemma upper_hex_is_upper_alnum (c : ascii) :
  is_upper_hex c = true -> is_upper_alnum c = true.
Proof.
  unfold is_upper_hex, is_upper_alnum, is_upper.
  destruct (is_digit c); [reflexivity | cbn [orb]].
  rewrite !andb_true_iff, !N.leb_le. lia.
Qed.

Lemma all_chars_impl (p q : ascii -> bool) (s : string) :
  (forall c, p c = true -> q c = true) ->
  all_chars p s = true -> all_chars q s = true.
Proof.
  intros Hpq. induction s as [|c s IH]; cbn; [reflexivity|].
  rewrite !andb_true_iff. intros [Hc Hs]. auto.
Qed.

(** Enumerations of the entropy. *)

Lemma all_bytes_complete (b : byte) : In b all_bytes.
Proof.
  assert (E : existsb (Byte.eqb b) all_bytes = true) by (destruct b; reflexivity).
  apply existsb_exists in E. destruct E as (x & Hin & Hx).
  apply Byte.byte_dec_bl in Hx. now subst.
Qed.

Lemma all_bytes_NoDup : NoDup all_bytes.
Proof.
  apply (NoDup_map_inv Byte.to_nat).
  replace (map Byte.to_nat all_bytes) with (seq 0 256) by reflexivity.
  apply seq_NoDup.
Qed.

Lemma all_bytes_length : List.length all_bytes = 256.
Proof. unfold all_bytes. now rewrite length_map, length_seq. Qed.

Lemma NoDup_list_prod {A B} (l : list A) (l' : list B) :
  NoDup l -> NoDup l' -> NoDup (list_prod l l').
Proof.
  intros Hl Hl'. induction Hl as [|a l Ha Hl IH]; cbn; [constructor|].
  apply NoDup_app.
  - apply Injective_map_NoDup; [|assumption].
    intros x y E. now injection E.
  - assumption.
  - intros [x y] Hin Hin'. apply in_map_iff in Hin as (z & E & _).
    injection E as <- <-. apply in_prod_iff in Hin'. tauto.
Qed.

Lemma all_bytes3_complete (r : bytes3) : In r all_bytes3.
Proof.
  destruct r as [b0 [b1 b2]]. unfold all_bytes3.
  repeat apply in_prod; apply all_bytes_complete.
Qed.

Lemma all_bytes3_NoDup : NoDup all_bytes3.
Proof. unfold all_bytes3. repeat apply NoDup_list_prod; apply all_bytes_NoDup. Qed.

Lemma all_bytes3_length : N.of_nat (List.length all_bytes3) = (16 ^ 6)%N.
Proof.
  unfold all_bytes3. rewrite !length_prod, all_bytes_length.
  rewrite !Nat2N.inj_mul. reflexivity.
Qed.

Lemma family_code_space_spec (c : string) :
  In c family_code_space <-> producible c.
Proof.
  unfold family_code_space, producible. rewrite in_map_iff. split.
  - intros (r & E & _). now exists r.
  - intros (r & E). exists r. auto using all_bytes3_complete.
Qed.

Lemma family_code_space_NoDup : NoDup family_code_space.
Proof.
  unfold family_code_space. apply Injective_map_NoDup.
  - intros r r'. apply generateFamilyCode_inj.
  - apply all_bytes3_NoDup.
Qed.

Lemma family_code_space_size :
  N.of_nat (List.length family_code_space) = (16 ^ 6)%N.
Proof. unfold family_code_space. rewrite length_map. apply all_bytes3_length. Qed.

Lemma code_space_size_unique (l : list string) :
  NoDup l -> (forall c, In c l <-> producible c) ->
  N.of_nat (List.length l) = (16 ^ 6)%N.
Proof.
  intros Hnd Hl. rewrite <- family_code_space_size. f_equal.
  apply Permutation_length, NoDup_Permutation;
    auto using family_code_space_NoDup.
  intros c. now rewrite Hl, family_code_space_spec.
Qed.

(** C2, as amended.  Every code the generator produces has six characters,
    each an upper-case hexadecimal digit (so the code is upper-case
    alphanumeric); [family_code_space] lists the producible codes without
    repetition, and every such listing has 16^6 = 16777216 entries. *)
Theorem C2_family_codes_are_hex_16_pow_6 :
  (forall r : bytes3,
      String.length (generateFamilyCode r) = 6
      /\ all_chars is_upper_hex (generateFamilyCode r) = true
      /\ all_chars is_upper_alnum (generateFamilyCode r) = true)
  /\ NoDup family_code_space
  /\ (forall c, In c family_code_space <-> producible c)
  /\ (forall l : list string,
        NoDup l -> (forall c, In c l <-> producible c) ->
        N.of_nat (List.length l) = (16 ^ 6)%N).
Proof.
  split; [|split; [|split]].
  - intros r. destruct (generateFamilyCode_shape r) as [Hlen Hhex].
    repeat split; try assumption.
    revert Hhex. apply all_chars_impl, upper_hex_is_upper_alnum.
  - apply family_code_space_NoDup.
  - apply family_code_space_spec.
  - apply code_space_size_unique.
Qed.

(** C2, as stated, fails: the six-character upper-case alphanumeric string
    ZZZZZZ is never produced, and no duplicate-free listing of the producible
    codes has 36^6 entries. *)
Lemma C2_code_space_is_not_36_pow_6 :
  String.length "ZZZZZZ" = 6
  /\ all_chars is_upper_alnum "ZZZZZZ" = true
  /\ ~ producible "ZZZZZZ"
  /\ ~ (exists l : list string,
          NoDup l /\ (forall c, In c l <-> producible c)
          /\ N.of_nat (List.length l) = (36 ^ 6)%N).
Proof.
  repeat split.
  - intros [r E]. destruct (generateFamilyCode_shape r) as [_ H].
    rewrite E in H. discriminate H.
  - intros (l & Hnd & Hl & Hsz).
    rewrite (code_space_size_unique l Hnd Hl) in Hsz. discriminate Hsz.
Qed.

(** ** The normal form of an address *)

Lemma to_lower_char_idem (c : ascii) :
  to_lower_char (to_lower_char c) = to_lower_char c.
Proof. destruct c as [[] [] [] [] [] [] [] []]; reflexivity. Qed.

Lemma is_space_to_lower_char (c : ascii) :
  is_space (to_lower_char c) = is_space c.
Proof. destruct c as [[] [] [] [] [] [] [] []]; reflexivity. Qed.

Lemma toLowerCase_idem (s : string) : toLowerCase (toLowerCase s) = toLowerCase s.
Proof.
  induction s as [|c s IH]; cbn; [reflexivity|].
  now rewrite to_lower_char_idem, IH.
Qed.

Lemma toLowerCase_trimStart (s : string) :
  toLowerCase (trimStart s) = trimStart (toLowerCase s).
Proof.
  induction s as [|c s IH]; cbn; [reflexivity|].
  rewrite is_space_to_lower_char. now destruct (is_space c).
Qed.

Lemma toLowerCase_trimEnd (s : string) :
  toLowerCase (trimEnd s) = trimEnd (toLowerCase s).
Proof.
  induction s as [|c s IH]; cbn; [reflexivity|].
  fold (toLowerCase s). rewrite <- IH, is_space_to_lower_char.
  destruct (trimEnd s); cbn; [now destruct (is_space c) | reflexivity].
Qed.

Lemma trimEnd_idem (s : string) : trimEnd (trimEnd s) = trimEnd s.
Proof.
  induction s as [|c s IH]; cbn; [reflexivity|].
  destruct (trimEnd s) as [|c' r] eqn:E.
  - destruct (is_space c) eqn:Hc; cbn; [reflexivity | now rewrite Hc].
  - cbn [trimEnd] in IH |- *. now rewrite IH.
Qed.

Lemma trimStart_trimEnd (s : string) :
  trimStart s = s -> trimStart (trimEnd s) = trimEnd s.
Proof.
  destruct s as [|c s]; [reflexivity|]. cbn.
  destruct (is_space c) eqn:Hc.
  - intros E. exfalso. clear Hc. revert c E.
    induction s as [|c' s IH]; intros c; cbn; [discriminate|].
    destruct (is_space c'); [|intros [= _ E]].
    + intros E. apply (f_equal String.length) in E. cbn in E.
      assert (L : forall t, (String.length (trimStart t) <= String.length t)%nat).
      { clear. induction t as [|a t IHt]; cbn; [lia|].
        destruct (is_space a); cbn; lia. }
      specialize (L s). lia.
    + apply (f_equal String.length) in E. cbn in E. lia.
  - intros _. destruct (trimEnd s); cbn; now rewrite Hc.
Qed.

Lemma trimStart_idem (s : string) : trimStart (trimStart s) = trimStart s.
Proof.
  induction s as [|c s IH]; cbn; [reflexivity|].
  destruct (is_space c) eqn:Hc; [exact IH | cbn; now rewrite Hc].
Qed.

Lemma trim_idem (s : string) : trim (trim s) = trim s.
Proof.
  unfold trim. rewrite (trimStart_trimEnd (trimStart s)) by apply trimStart_idem.
  apply trimEnd_idem.
Qed.

(** Normalising an address twice is normalising it once. *)
Lemma normalize_idem (e : string) :
  trim (toLowerCase (trim (toLowerCase e))) = trim (toLowerCase e).
Proof.
  unfold trim at 2. rewrite toLowerCase_trimEnd, toLowerCase_trimStart.
  rewrite toLowerCase_idem. apply trim_idem.
Qed.

(** ** Queries *)

Lemma find_all_false {A} (p : A -> bool) (l : list A) :
  (forall x, In x l -> p x = false) -> find p l = None.
Proof.
  induction l as [|a l IH]; intros Hp; cbn; [reflexivity|].
  rewrite (Hp a) by now left. apply IH. intros x Hx. apply Hp. now right.
Qed.

Lemma findOne_familyCode_unused (db : Db) (c : string) :
  code_unused db c <-> findOne_familyCode c db = None.
Proof.
  unfold code_unused, findOne_familyCode. split.
  - intros Hu. rewrite find_all_false; [reflexivity|].
    intros u Hin. specialize (Hu u Hin).
    destruct (User.familyCode u) as [x|]; cbn; [|reflexivity].
    apply String.eqb_neq. congruence.
  - intros Hf u Hin Hc.
    destruct (find _ (users db)) eqn:E; [discriminate Hf|].
    apply (find_none _ _ E) in Hin. rewrite Hc in Hin. cbn in Hin.
    now rewrite String.eqb_refl in Hin.
Qed.

(** ** The retry loop of the parent branch *)

Lemma unique_code_loop_sound (fuel : nat) (rnd : nat -> bytes3) (i : nat)
    (db : Db) (c : string) :
  unique_code_loop fuel rnd i db = Some c ->
  code_unused db c
  /\ exists k, (k < fuel)%nat /\ c = generateFamilyCode (rnd (i + k)%nat)
       /\ forall j, (j < k)%nat ->
            ~ code_unused db (generateFamilyCode (rnd (i + j)%nat)).
Proof.
  revert i. induction fuel as [|fuel IH]; intros i; cbn; [discriminate|].
  destruct (findOne_familyCode (generateFamilyCode (rnd i)) db) eqn:E.
  - intros Hl. destruct (IH _ Hl) as (Hu & k & Hk & Hc & Hbusy).
    split; [exact Hu|]. exists (S k). repeat split.
    + lia.
    + now rewrite Nat.add_succ_r.
    + intros [|j] Hj.
      * rewrite Nat.add_0_r. intros Hf.
        apply findOne_familyCode_unused in Hf. congruence.
      * rewrite Nat.add_succ_r. apply Hbusy. lia.
  - intros [= <-]. split; [now apply findOne_familyCode_unused|].
    exists 0%nat. repeat split; [lia | now rewrite Nat.add_0_r | lia].
Qed.

Lemma unique_code_loop_more_fuel (fuel fuel' : nat) (rnd : nat -> bytes3)
    (i : nat) (db : Db) (c : string) :
  unique_code_loop fuel rnd i db = Some c -> (fuel <= fuel')%nat ->
  unique_code_loop fuel' rnd i db = Some c.
Proof.
  revert fuel' i. induction fuel as [|fuel IH]; intros fuel' i; cbn;
    [discriminate|].
  intros Hl Hle. destruct fuel' as [|fuel']; [lia|]. cbn.
  destruct (findOne_familyCode (generateFamilyCode (rnd i)) db);
    [|exact Hl].
  apply IH; [exact Hl | lia].
Qed.

Lemma unique_code_loop_complete (rnd : nat -> bytes3) (db : Db) (n i : nat) :
  code_unused db (generateFamilyCode (rnd (i + n)%nat)) ->
  exists c, unique_code_loop (S n) rnd i db = Some c.
Proof.
  revert i. induction n as [|n IH]; intros i Hu.
  - rewrite Nat.add_0_r in Hu. apply findOne_familyCode_unused in Hu.
    cbn. rewrite Hu. eauto.
  - cbn [unique_code_loop].
    destruct (findOne_familyCode (generateFamilyCode (rnd i)) db);
      [|eauto].
    apply IH. now rewrite Nat.add_succ_r in Hu.
Qed.

(** Entropy that is late by [cap] draws keeps the loop busy for [cap]
    iterations and lets it return at the next one. *)
Lemma unique_code_loop_late (cap k i : nat) :
  (i + k = cap)%nat ->
  unique_code_loop k (Sample.late cap) i Sample.family = None
  /\ unique_code_loop (S k) (Sample.late cap) i Sample.family = Some "000000".
Proof.
  revert i. induction k as [|k IH]; intros i Hi.
  - split; [reflexivity|]. cbn [unique_code_loop]. unfold Sample.late.
    assert (E : (i <? cap)%nat = false) by (apply Nat.ltb_ge; lia).
    rewrite E. replace (i - cap)%nat with 0%nat by lia. reflexivity.
  - assert (E : (i <? cap)%nat = true) by (apply Nat.ltb_lt; lia).
    destruct (IH (S i)) as [IH1 IH2]; [lia|].
    split.
    + cbn [unique_code_loop]. unfold Sample.late at 1. rewrite E.
      exact IH1.
    + change (unique_code_loop (S (S k)) (Sample.late cap) i Sample.family)
        with (match findOne_familyCode
                      (generateFamilyCode (Sample.late cap i)) Sample.family with
              | None => Some (generateFamilyCode (Sample.late cap i))
              | Some _ =>
                  unique_code_loop (S k) (Sample.late cap) (S i) Sample.family
              end).
      unfold Sample.late at 1. rewrite E. exact IH2.
Qed.

(** The outcomes in turn are all the outcomes. *)
Lemma byte_of_N_to_N (b : byte) (q : N) :
  byte_of_N (256 * q + Byte.to_N b) = b.
Proof.
  unfold byte_of_N.
  assert (Hb : (Byte.to_N b < 256)%N).
  { pose proof (Byte.to_N_bounded b). lia. }
  rewrite <- (N.mod_unique (256 * q + Byte.to_N b) 256 q (Byte.to_N b) Hb eq_refl).
  now rewrite Byte.of_to_N.
Qed.

Lemma nth_bytes3_complete (r : bytes3) : exists n, nth_bytes3 n = r.
Proof.
  destruct r as [a [b c]].
  exists (N.to_nat (65536 * Byte.to_N a + 256 * Byte.to_N b + Byte.to_N c)).
  unfold nth_bytes3. rewrite N2Nat.id.
  pose proof (Byte.to_N_bounded a) as Ha.
  pose proof (Byte.to_N_bounded b) as Hb.
  pose proof (Byte.to_N_bounded c) as Hc.
  set (x := Byte.to_N a) in *. set (y := Byte.to_N b) in *.
  set (z := Byte.to_N c) in *.
  assert (E1 : ((65536 * x + 256 * y + z) / 65536 = 256 * 0 + x)%N).
  { symmetry. apply (N.div_unique _ 65536 _ (256 * y + z)); lia. }
  assert (E2 : ((65536 * x + 256 * y + z) / 256 = 256 * x + y)%N).
  { symmetry. apply (N.div_unique _ 256 _ z); lia. }
  assert (E3 : (65536 * x + 256 * y + z = 256 * (256 * x + y) + z)%N) by lia.
  rewrite E1, E2, E3. subst x y z.
  now rewrite !byte_of_N_to_N.
Qed.

Lemma late_draws_every_outcome (cap : nat) :
  draws_every_outcome (Sample.late cap).
Proof.
  intros r. destruct (nth_bytes3_complete r) as [n Hn].
  exists (cap + n)%nat. unfold Sample.late.
  assert (E : (cap + n <? cap)%nat = false) by (apply Nat.ltb_ge; lia).
  rewrite E. now replace (cap + n - cap)%nat with n by lia.
Qed.

(** If the entropy ever draws a code that no stored user carries, the loop
    returns: from some number of iterations on it gives a producible code
    carried by no stored user. *)
Lemma unique_code_loop_returns_when_entropy_hits (db : Db)
    (rnd : nat -> bytes3) :
  (exists n, code_unused db (generateFamilyCode (rnd n))) ->
  exists fuel c,
    code_unused db c /\ producible c
    /\ forall fuel', (fuel <= fuel')%nat ->
         unique_code_loop fuel' rnd 0 db = Some c.
Proof.
  intros [n Hn].
  destruct (unique_code_loop_complete rnd db n 0 Hn) as [c Hc].
  destruct (unique_code_loop_sound _ _ _ _ _ Hc) as (Hu & k & _ & -> & _).
  exists (S n), (generateFamilyCode (rnd (0 + k)%nat)).
  split; [exact Hu|]. split; [now eexists|].
  intros fuel' Hle. exact (unique_code_loop_more_fuel _ fuel' _ _ _ _ Hc Hle).
Qed.

(** ** String facts used by the guard *)

Lemma substring_all (s : string) : substring 0 (String.length s) s = s.
Proof. induction s as [|c s IH]; cbn; [reflexivity | now rewrite IH]. Qed.

Lemma bearer_startsWith (t : string) : startsWith "Bearer " ("Bearer " ++ t) = true.
Proof. unfold startsWith. cbn. now destruct t. Qed.

Lemma bearer_prefix_inv (s : string) :
  startsWith "Bearer " s = true -> exists t, s = ("Bearer " ++ t)%string.
Proof.
  unfold startsWith. intros Hp.
  do 7 (destruct s as [|c s]; [discriminate Hp|]; cbn [prefix] in Hp;
        match type of Hp with
        | (if ascii_dec ?a c then _ else _) = _ =>
            destruct (ascii_dec a c) as [<- | _]; [|discriminate Hp]
        end).
  now exists s.
Qed.

Lemma bearer_substring (t : string) : substringFrom 7 ("Bearer " ++ t) = t.
Proof. unfold substringFrom. cbn. rewrite Nat.sub_0_r. apply substring_all. Qed.

Lemma truthy_true (s : string) : truthy s = true <-> s <> "".
Proof.
  unfold truthy. rewrite negb_true_iff. apply String.eqb_neq.
Qed.

(** ** The pre-save hook *)

Section Hook.
Context `{BcryptLib}.

Lemma write_path_password (src dst : User.t) (path : string) :
  ("password" =? path) = false ->
  User.password (write_path src dst path) = User.password dst.
Proof.
  intros Hp. rewrite String.eqb_sym in Hp. unfold write_path. rewrite Hp.
  repeat match goal with
  | |- context [if ?b then _ else _] => destruct b
  end; reflexivity.
Qed.

Lemma write_paths_password (src : User.t) (paths : list string) (dst : User.t) :
  existsb (String.eqb "password") paths = false ->
  User.password (fold_left (write_path src) paths dst) = User.password dst.
Proof.
  revert dst. induction paths as [|p paths IH]; intros dst; cbn; [reflexivity|].
  intros Hp. apply orb_false_iff in Hp as [Hp Hps].
  rewrite IH by exact Hps. now apply write_path_password.
Qed.

Lemma update_first_map {A B} (g : A -> B) (p : A -> bool) (f : A -> A)
    (l : list A) :
  (forall x, g (f x) = g x) -> map g (update_first p f l) = map g l.
Proof.
  intros Hg. induction l as [|x l IH]; cbn; [reflexivity|].
  destruct (p x); cbn; [now rewrite Hg | now rewrite IH].
Qed.

Lemma write_paths_password_set (src : User.t) (paths : list string)
    (dst : User.t) :
  existsb (String.eqb "password") paths = true ->
  User.password (fold_left (write_path src) paths dst) = User.password src.
Proof.
  revert dst. induction paths as [|p paths IH]; intros dst;
    cbn [existsb fold_left]; [discriminate|].
  destruct (existsb (String.eqb "password") paths) eqn:Hps.
  - intros _. now apply IH.
  - rewrite orb_false_r. intros Hp. apply String.eqb_eq in Hp. subst p.
    now rewrite write_paths_password.
Qed.

Lemma update_first_split {A} (p : A -> bool) (f : A -> A) (l : list A) :
  existsb p l = true ->
  exists before v after,
    l = before ++ v :: after
    /\ (forall y, In y before -> p y = false) /\ p v = true
    /\ update_first p f l = before ++ f v :: after.
Proof.
  induction l as [|x l IH]; cbn; [discriminate|].
  destruct (p x) eqn:Hx.
  - intros _. exists [], x, l. repeat split; [intros y []|exact Hx].
  - cbn [orb]. intros Hl.
    destruct (IH Hl) as (b & v & r & -> & Hb & Hv & Hu).
    exists (x :: b), v, r. rewrite Hu. repeat split; [|exact Hv].
    intros y [<- | Hy]; auto.
Qed.

(** C9.  The hook hashes the password exactly when the path is marked as
    modified: an unmarked document passes through unchanged with no call
    into bcrypt; a marked one gets the salted hash of its plaintext, by one
    [hash] call.  A new document built with a password is marked.
    So for [save()]: when the password is not marked, no call into bcrypt is
    made, and saving a stored document leaves every stored digest as it
    was.  When the password is marked and holds the plaintext [p], either
    validation refuses the document, nothing is written and bcrypt is not
    called, or validation passes, the only calls are [genSalt(10)] and
    [hash(p, salt)], and
    when the write succeeds the document returned and the document stored
    hold that hash for password: the inserted one for a new document; for a
    stored one the first document of its id, every other one being left as
    it was. *)
Theorem C9_password_hashed_exactly_when_modified
    (salt : string) (db : Db) (d : Document) :
  (isModified d "password" = false -> pre_save salt d = (Ok d, []))
  /\ (forall p, isModified d "password" = true ->
        User.password (fields d) = Some p ->
        pre_save salt d
        = (Ok (mkDoc (with_password (Some (bcrypt_hash p salt)) (fields d))
                 (isNew d) (modifiedPaths d)),
           [GenSalt 10; Hash p salt]))
  /\ (forall id now email password role familyCode parent name,
        isModified
          (new_User id now email password role familyCode parent name)
          "password" = true)
  /\ (forall r db' calls,
        User_save salt db d = (r, db', calls) ->
        (isModified d "password" = false ->
         calls = []
         /\ (isNew d = false ->
             map User.password (users db') = map User.password (users db)))
        /\ (forall p, isModified d "password" = true ->
              User.password (fields d) = Some p ->
              (validate d <> [] /\ r = Thrown (ValidationError (validate d))
               /\ db' = db /\ calls = [])
              \/ (validate d = [] /\ calls = [GenSalt 10; Hash p salt]
                  /\ ((exists e, r = Thrown e /\ db' = db
                                 /\ (e = DocumentNotFoundError
                                     \/ error_name e = "MongoServerError"))
                      \/ (exists u,
                            r = Ok u
                            /\ u = with_password (Some (bcrypt_hash p salt))
                                     (fields d)
                            /\ kids db' = kids db
                            /\ (isNew d = true -> users db' = users db ++ [u])
                            /\ (isNew d = false ->
                                exists before v v' after,
                                  users db = before ++ v :: after
                                  /\ (forall y, In y before ->
                                        User._id y <> User._id u)
                                  /\ User._id v = User._id u
                                  /\ users db' = before ++ v' :: after
                                  /\ User.password v'
                                     = Some (bcrypt_hash p salt))))))).
Proof.
  split; [|split; [|split]].
  - intros Hm. unfold pre_save. now rewrite Hm.
  - intros p Hm Hp. unfold pre_save. now rewrite Hm, Hp.
  - reflexivity.
  - intros r db' calls Hs. split.
    + intros Hm. revert Hs. unfold User_save, pre_save.
      rewrite Hm. cbn [negb].
      destruct (validate d); [|intros [= <- <- <-]; now split].
      destruct (isNew d) eqn:Hnew.
      * destruct (existsb _ (users db)); intros [= <- <- <-];
          (split; [reflexivity | discriminate]).
      * destruct (negb (existsb _ (users db))); intros [= <- <- <-];
          (split; [reflexivity | intros _]); [reflexivity|].
        cbn [users]. apply update_first_map. intros v.
        now apply write_paths_password.
    + intros p Hm Hp. revert Hs. unfold User_save, pre_save.
      rewrite Hm, Hp. cbn [negb].
      destruct (validate d) as [|m ms].
      2:{ intros [= <- <- <-]. left. repeat split. discriminate. }
      cbn [isNew fields modifiedPaths].
      destruct (isNew d) eqn:Hnew.
      * destruct (existsb _ (users db)); intros [= <- <- <-]; right;
          (split; [reflexivity|]); (split; [reflexivity|]).
        -- left. eexists. repeat split. right. reflexivity.
        -- right. eexists. repeat split. discriminate.
      * destruct (existsb (fun v => (User._id v =? _)%N) (users db)) eqn:Hex;
          cbn [negb]; intros [= <- <- <-]; right;
          (split; [reflexivity|]); (split; [reflexivity|]).
        2:{ left. eexists. repeat split. now left. }
        right. eexists. split; [reflexivity|]. split; [reflexivity|].
        split; [reflexivity|]. split; [discriminate|]. intros _.
        destruct (update_first_split _
                    (fun v => fold_left
                       (write_path (with_password (Some (bcrypt_hash p salt))
                                      (fields d)))
                       (modifiedPaths d) v) _ Hex)
          as (b & v & a & Hl & Hb & Hv & Hu).
        exists b, v,
          (fold_left
             (write_path (with_password (Some (bcrypt_hash p salt)) (fields d)))
             (modifiedPaths d) v), a.
        cbn [users User._id with_password] in Hu, Hb, Hv |- *. rewrite Hu.
        repeat split; try assumption.
        -- intros y Hy. specialize (Hb y Hy). now apply N.eqb_neq in Hb.
        -- now apply N.eqb_eq in Hv.
        -- rewrite write_paths_password_set; [reflexivity|]. exact Hm.
Qed.

End Hook.

(** ** The access guard and the token service *)

Section Guard.
Context `{JwtLib}.

(** The guard on a well-shaped header hands the token to [jwt.verify]. *)
Lemma auth_bearer (env : Env) (now : Z) (db : Db) (t : string) :
  truthy t = true ->
  auth env now db (Some ("Bearer " ++ t)%string) =
  match jwt_verify t (JWT_SECRET env) now with
  | Ok decoded =>
      match findById (claim_id decoded) db with
      | None =>
          (Rejected (fail 401 "User not found"),
           [JwtVerify t; UserFindById (claim_id decoded)])
      | Some user => (Next user, [JwtVerify t; UserFindById (claim_id decoded)])
      end
  | Thrown error =>
      if error_name error =? "JsonWebTokenError" then
        (Rejected (fail 401 "Invalid token"), [JwtVerify t])
      else if error_name error =? "TokenExpiredError" then
        (Rejected (fail 401 "Token has expired"), [JwtVerify t])
      else (Rejected (fail 500 "Authentication failed"), [JwtVerify t])
  end.
Proof.
  intros Ht. unfold auth.
  assert (Hh : truthy_opt (Some ("Bearer " ++ t)%string) = true) by reflexivity.
  rewrite Hh. cbn [negb val]. rewrite bearer_startsWith. cbn [negb].
  rewrite bearer_substring, Ht. reflexivity.
Qed.

(** C10.  A header that is exactly the prefix [Bearer ] with nothing after
    it is answered 401 [No token found], and neither [jwt.verify] nor
    [User.findById] has been called; no other header gets that answer. *)
Theorem C10_bearer_without_token (env : Env) (now : Z) (db : Db) :
  auth env now db (Some "Bearer ") = (Rejected (fail 401 "No token found"), [])
  /\ forall h,
       fst (auth env now db h) = Rejected (fail 401 "No token found") ->
       h = Some "Bearer ".
Proof.
  split; [reflexivity|].
  intros [s|]; [|discriminate]. unfold auth.
  destruct (truthy_opt (Some s)); [|discriminate]. cbn [negb val].
  destruct (startsWith "Bearer " s) eqn:Hp; [|discriminate]. cbn [negb].
  apply bearer_prefix_inv in Hp as [t ->]. rewrite bearer_substring.
  destruct (truthy t) eqn:Ht; cbn [negb].
  - destruct (jwt_verify t (JWT_SECRET env) now) as [c|e].
    + destruct (findById (claim_id c) db); discriminate.
    + destruct (error_name e =? "JsonWebTokenError"); [discriminate|].
      destruct (error_name e =? "TokenExpiredError"); discriminate.
  - intros _. unfold truthy in Ht. apply negb_false_iff, String.eqb_eq in Ht.
    now subst.
Qed.

Lemma jwt_verify_expired (t input tag secret : string) (c : Claims) (now e : Z) :
  truthy t = true -> truthy secret = true ->
  jws_decode t = Some (input, c, tag) ->
  tag = hmac secret input ->
  exp c = Some e -> (e <= seconds now)%Z ->
  jwt_verify t (Some secret) now = Thrown TokenExpiredError.
Proof.
  intros Ht Hs Hd -> He Hle. unfold jwt_verify.
  rewrite Ht, Hd. cbn [negb truthy_opt val]. rewrite Hs, String.eqb_refl, He.
  cbn [negb]. now apply Z.leb_le in Hle as ->.
Qed.

Lemma jwt_verify_forged (t input tag secret : string) (c : Claims) (now : Z) :
  truthy t = true -> truthy secret = true ->
  jws_decode t = Some (input, c, tag) ->
  tag <> hmac secret input ->
  jwt_verify t (Some secret) now = Thrown (JsonWebTokenError "invalid signature").
Proof.
  intros Ht Hs Hd Hne. unfold jwt_verify.
  rewrite Ht, Hd. cbn [negb truthy_opt val]. rewrite Hs. cbn [negb].
  assert (E : (hmac secret input =? tag) = false)
    by (apply String.eqb_neq; congruence).
  now rewrite E.
Qed.

(** C6.  The service holds a non-empty [secret]; [t] is a token that reads
    as claims [c] over signing input [input] with tag [tag].
    - If the tag is the service's own and the expiry [e] is not after the
      present second, [jwt.verify] throws [TokenExpiredError] and the guard
      answers 401 [Token has expired].
    - If the tag was made with another key and differs from the service's
      tag, then whatever the claimed expiry, [jwt.verify] throws
      [JsonWebTokenError] and the guard answers 401 [Invalid token].
    The two answers are different. *)
Theorem C6_expired_and_forged_tokens_rejected
    (env : Env) (now : Z) (db : Db) (secret t input tag : string) (c : Claims) :
  JWT_SECRET env = Some secret -> truthy secret = true ->
  truthy t = true ->
  jws_decode t = Some (input, c, tag) ->
  (forall e, tag = hmac secret input -> exp c = Some e -> (e <= seconds now)%Z ->
     jwt_verify t (JWT_SECRET env) now = Thrown TokenExpiredError
     /\ auth env now db (Some ("Bearer " ++ t)%string)
        = (Rejected (fail 401 "Token has expired"), [JwtVerify t]))
  /\ (forall key, tag = hmac key input -> hmac key input <> hmac secret input ->
        jwt_verify t (JWT_SECRET env) now
        = Thrown (JsonWebTokenError "invalid signature")
        /\ auth env now db (Some ("Bearer " ++ t)%string)
           = (Rejected (fail 401 "Invalid token"), [JwtVerify t]))
  /\ fail 401 "Token has expired" <> fail 401 "Invalid token".
Proof.
  intros Henv Hs Ht Hd. split; [|split].
  - intros e Htag He Hle.
    assert (V := jwt_verify_expired t input tag secret c now e Ht Hs Hd Htag He Hle).
    rewrite Henv. split; [exact V|].
    rewrite auth_bearer by exact Ht. rewrite Henv, V. reflexivity.
  - intros key Htag Hne.
    assert (V : jwt_verify t (Some secret) now
                = Thrown (JsonWebTokenError "invalid signature")).
    { apply (jwt_verify_forged t input tag secret c now Ht Hs Hd). congruence. }
    rewrite Henv. split; [exact V|].
    rewrite auth_bearer by exact Ht. rewrite Henv, V. reflexivity.
  - discriminate.
Qed.

(** Issue, then verify: a token of [generateToken] verifies to the claims
    it was issued for, as long as it has not expired. *)
Lemma generateToken_verify (env : Env) (now now' : Z) (id : oid)
    (role tok : string) :
  generateToken env now id role = Ok tok ->
  (forall ttl, JWT_EXPIRE env = Some ttl -> (seconds now' < seconds now + ttl)%Z) ->
  exists c, jwt_verify tok (JWT_SECRET env) now' = Ok c
            /\ claim_id c = id /\ claim_role c = role.
Proof.
  unfold generateToken, jwt_sign. intros Hg Hlive.
  destruct (truthy_opt (JWT_SECRET env)) eqn:Hs; [|discriminate Hg].
  destruct (JWT_EXPIRE env) as [ttl|]; [|discriminate Hg].
  cbn [negb] in Hg. injection Hg as <-.
  set (c := mkClaims id role (seconds now) (Some (seconds now + ttl)%Z)).
  exists c. split; [|now split].
  unfold jwt_verify.
  assert (Hd := jws_decode_compact c (hmac (val (JWT_SECRET env)) (jws_encode c))).
  destruct (truthy _) eqn:Ht.
  - cbn [negb]. rewrite Hd, Hs. cbn [negb]. rewrite String.eqb_refl.
    cbn [negb exp c]. specialize (Hlive ttl eq_refl).
    destruct (Z.leb_spec (seconds now + ttl) (seconds now')); [lia | reflexivity].
  - unfold truthy in Ht. apply negb_false_iff, String.eqb_eq in Ht.
    rewrite Ht, jws_decode_empty in Hd. discriminate Hd.
Qed.

End Guard.


(** ** The controller: login *)

Section Controller.
Context `{BcryptLib} `{JwtLib}.

(** A refused login with a string for the password is answered 401. *)
Lemma login_refused (env : Env) (now : Z) (db : Db) (body : Body.t) :
  LoginRefused db body ->
  is_str (Body.password body) = true ->
  login env now db body = fail 401 "Invalid email or password".
Proof.
  intros [Hs He Hp Hf | user digest Hs He Hp Hf Hd Hc] Hstr;
    unfold login, login_try; rewrite Hs, He, Hp, Hf; cbn [negb orb].
  - reflexivity.
  - unfold comparePassword. rewrite Hd.
    destruct (Body.password body) as [| | | |c| |]; try discriminate Hstr.
    cbn [verifies] in Hc. rewrite Hc. reflexivity.
Qed.

(** Two refused logins with strings for their passwords, whatever the cause
    of each (unknown address or wrong password), whatever the store, the
    configuration and the time, get the same response: status 401 with the
    message [Invalid email or password]. *)
Lemma login_refusals_uniform_for_strings
    (env1 env2 : Env) (now1 now2 : Z) (db1 db2 : Db) (body1 body2 : Body.t) :
  LoginRefused db1 body1 -> LoginRefused db2 body2 ->
  is_str (Body.password body1) = true -> is_str (Body.password body2) = true ->
  login env1 now1 db1 body1 = login env2 now2 db2 body2
  /\ login env1 now1 db1 body1 = fail 401 "Invalid email or password"
  /\ status (login env1 now1 db1 body1) = 401%Z.
Proof.
  intros R1 R2 S1 S2.
  rewrite (login_refused env1 now1 db1 body1 R1 S1).
  rewrite (login_refused env2 now2 db2 body2 R2 S2).
  repeat split.
Qed.

(** A login with a password that is truthy and no string: an unknown
    address is answered 401, a registered one 500. *)
Lemma login_password_no_string (env : Env) (now : Z) (db : Db) (body : Body.t) :
  is_str (Body.email body) = true ->
  truthy_js (Body.email body) = true ->
  truthy_js (Body.password body) = true ->
  is_str (Body.password body) = false ->
  login env now db body
  = match
      findOne_email_with_password
        (trim (toLowerCase (str_of (Body.email body)))) db
    with
    | None => fail 401 "Invalid email or password"
    | Some _ => fail 500 "Error logging in"
    end.
Proof.
  intros Hs He Hp Hn. unfold login, login_try. rewrite Hs, He, Hp.
  cbn [negb orb].
  destruct (findOne_email_with_password _ db) as [user|]; [|reflexivity].
  unfold comparePassword.
  destruct (Body.password body); try discriminate Hn; reflexivity.
Qed.

(** C7.  The claim fails on the code.  On the store that holds [p1@x.com],
    a login with the number 12345 for the password is refused for either
    cause: under an address that is not stored, and under [p1@x.com], whose
    digest does not verify a number.  The first is answered 401
    [Invalid email or password], the second 500 [Error logging in]: the
    response tells which addresses are registered.  So it is on every store,
    for every password that is truthy and no string.  Two refused logins
    whose passwords are strings are answered alike, with that 401. *)
Theorem C7_login_tells_registered_addresses_apart (env : Env) (now : Z) :
  LoginRefused Sample.family (Sample.numericBody "nobody@x.com")
  /\ LoginRefused Sample.family (Sample.numericBody "p1@x.com")
  /\ login env now Sample.family (Sample.numericBody "nobody@x.com")
     = fail 401 "Invalid email or password"
  /\ login env now Sample.family (Sample.numericBody "p1@x.com")
     = fail 500 "Error logging in"
  /\ (forall (db : Db) (body : Body.t) (user : User.t) (digest : string),
        is_str (Body.email body) = true ->
        truthy_js (Body.email body) = true ->
        truthy_js (Body.password body) = true ->
        is_str (Body.password body) = false ->
        findOne_email_with_password
          (trim (toLowerCase (str_of (Body.email body)))) db = Some user ->
        User.password user = Some digest ->
        LoginRefused db body
        /\ login env now db body = fail 500 "Error logging in"
        /\ login env now db body <> fail 401 "Invalid email or password")
  /\ (forall (env1 env2 : Env) (now1 now2 : Z) (db1 db2 : Db)
             (body1 body2 : Body.t),
        LoginRefused db1 body1 -> LoginRefused db2 body2 ->
        is_str (Body.password body1) = true ->
        is_str (Body.password body2) = true ->
        login env1 now1 db1 body1 = login env2 now2 db2 body2
        /\ login env1 now1 db1 body1 = fail 401 "Invalid email or password").
Proof.
  split; [|split; [|split; [|split; [|split]]]].
  6:{ intros env1 env2 now1 now2 db1 db2 body1 body2 R1 R2 S1 S2.
      rewrite (login_refused env1 now1 db1 body1 R1 S1).
      rewrite (login_refused env2 now2 db2 body2 R2 S2). now split. }
  - now apply NoSuchUser.
  - now apply (WrongPassword _ _ Sample.parent1 "salt$secret1").
  - reflexivity.
  - reflexivity.
  - intros db body user digest Hs He Hp Hn Hf Hd.
    rewrite (login_password_no_string env now db body Hs He Hp Hn), Hf.
    split; [|split; [reflexivity | discriminate]].
    apply (WrongPassword _ _ user digest); try assumption.
    destruct (Body.password body); try discriminate Hn; reflexivity.
Qed.

(** ** The controller: the input checks of signup *)

Lemma requested_role_kid (b : Body.t) :
  is_kid (Body.role b) = (SignupSpec.requested_role b =? "kid").
Proof.
  unfold is_kid, SignupSpec.requested_role, strict_eq.
  destruct (Body.role b) as [| |t|n|r|len|short]; cbn;
    try reflexivity; try (now destruct t); try (now destruct (n =? 0)%Z).
  unfold truthy. destruct (String.eqb_spec r ""); [now subst | reflexivity].
Qed.

Lemma check_present (b : Body.t) (db : Db) :
  negb (truthy_js (Body.email b)) || negb (truthy_js (Body.password b))
  = negb (SignupSpec.passes db b SignupSpec.EmailAndPasswordPresent).
Proof. cbn. now rewrite negb_andb. Qed.

(** On a string the test of the code is the check of the specification. *)
Lemma check_length (b : Body.t) (db : Db) :
  is_str (Body.password b) = true ->
  length_below_6 (Body.password b)
  = negb (SignupSpec.passes db b SignupSpec.PasswordLongEnough).
Proof.
  cbn [SignupSpec.passes]. destruct (Body.password b); try discriminate.
  intros _. cbn [SignupSpec.long_enough length_below_6].
  rewrite Nat.leb_antisym. now rewrite negb_involutive.
Qed.

Lemma check_role (b : Body.t) (db : Db) :
  truthy_js (Body.role b) && negb (includes ["parent"; "kid"] (Body.role b))
  = negb (SignupSpec.passes db b SignupSpec.RoleKnown).
Proof.
  cbn [SignupSpec.passes]. unfold SignupSpec.requested_role.
  destruct (Body.role b) as [| |t|n|r|len|short]; cbn [truthy_js includes str_of];
    try reflexivity; try (now destruct t); try (now destruct (n =? 0)%Z).
  cbn [existsb]. rewrite orb_false_r. now destruct (truthy r).
Qed.

Lemma check_kid_field (b : Body.t) (given : bool) :
  is_kid (Body.role b) && negb given
  = negb (negb (SignupSpec.requested_role b =? "kid") || given).
Proof.
  rewrite requested_role_kid.
  now destruct (SignupSpec.requested_role b =? "kid"), given.
Qed.

Lemma check_registered (db : Db) (e : string) :
  emails_normalized db ->
  SignupSpec.registered db e
  = match findOne_email (trim (toLowerCase e)) db with
    | Some _ => true
    | None => false
    end.
Proof.
  unfold emails_normalized, SignupSpec.registered, findOne_email.
  induction (users db) as [|u l IH]; intros Hn; cbn; [reflexivity|].
  unfold SignupSpec.eq_ci_trim at 1. rewrite (Hn u) by now left.
  destruct (User.email u =? trim (toLowerCase e)); cbn; [reflexivity|].
  apply IH. intros v Hv. apply Hn. now right.
Qed.

Lemma signup_first_failure (env : Env) (now : Z) (salt : string)
    (rnd : nat -> bytes3) (fuel : nat) (db : Db) (body : Body.t)
    (c : SignupSpec.Check) :
  emails_normalized db ->
  text_or_missing (Body.password body) = true ->
  SignupSpec.first_failure db body = Some c ->
  signup env now salt rnd fuel db body = Some (SignupSpec.rejection c, db).
Proof.
  intros Hn Hpw Hc. unfold SignupSpec.first_failure, SignupSpec.order in Hc.
  unfold signup, signup_try.
  rewrite (check_present body db). cbn [find] in Hc.
  destruct (SignupSpec.passes db body SignupSpec.EmailAndPasswordPresent) eqn:P1;
    cbn [negb] in Hc |- *; [|injection Hc as <-; reflexivity].
  assert (Hs : is_str (Body.password body) = true).
  { cbn [SignupSpec.passes] in P1. apply andb_true_iff in P1 as [_ P1].
    unfold text_or_missing in Hpw. rewrite P1, orb_false_r in Hpw. exact Hpw. }
  rewrite (check_length body db Hs), (check_role body db).
  rewrite !check_kid_field.
  change (negb (SignupSpec.requested_role body =? "kid")
          || truthy_js (Body.familyCode body))
    with (SignupSpec.passes db body SignupSpec.KidHasFamilyCode).
  change (negb (SignupSpec.requested_role body =? "kid")
          || truthy_js (Body.name body))
    with (SignupSpec.passes db body SignupSpec.KidHasName).
  change (negb (SignupSpec.requested_role body =? "kid")
          || truthy_js (Body.age body))
    with (SignupSpec.passes db body SignupSpec.KidHasAge).
  repeat match type of Hc with
  | (if negb (SignupSpec.passes db body ?k) then _ else _) = _ =>
      destruct (SignupSpec.passes db body k) eqn:?; cbn [negb] in Hc |- *;
      [| injection Hc as <-; reflexivity]
  end.
  cbn [SignupSpec.passes] in Hc.
  destruct (Body.email body) as [| | | |e| |]; try discriminate Hc.
  cbn [is_str negb str_of]. rewrite (check_registered db _ Hn) in Hc.
  destruct (findOne_email _ db); cbn [negb] in Hc; [|discriminate Hc].
  now injection Hc as <-.
Qed.

(** When no check fails, every test of the validation phase is negative. *)
Lemma checks_passed (db : Db) (body : Body.t) :
  emails_normalized db ->
  SignupSpec.first_failure db body = None ->
  negb (truthy_js (Body.email body)) || negb (truthy_js (Body.password body))
    = false
  /\ length_below_6 (Body.password body) = false
  /\ truthy_js (Body.role body)
       && negb (includes ["parent"; "kid"] (Body.role body))
     = false
  /\ is_kid (Body.role body) && negb (truthy_js (Body.familyCode body)) = false
  /\ is_kid (Body.role body) && negb (truthy_js (Body.name body)) = false
  /\ is_kid (Body.role body) && negb (truthy_js (Body.age body)) = false
  /\ (is_str (Body.email body) = true ->
      findOne_email (trim (toLowerCase (str_of (Body.email body)))) db = None)
  /\ is_str (Body.password body) = true.
Proof.
  intros Hn Hc. unfold SignupSpec.first_failure, SignupSpec.order in Hc.
  rewrite (check_present body db). cbn [find] in Hc.
  destruct (SignupSpec.passes db body SignupSpec.EmailAndPasswordPresent) eqn:P1;
    cbn [negb] in Hc |- *; [|discriminate Hc].
  destruct (SignupSpec.passes db body SignupSpec.PasswordLongEnough) eqn:P2;
    cbn [negb] in Hc |- *; [|discriminate Hc].
  assert (Hs : is_str (Body.password body) = true).
  { cbn [SignupSpec.passes] in P2. now destruct (Body.password body). }
  rewrite (check_length body db Hs), P2, (check_role body db).
  rewrite !check_kid_field.
  change (negb (SignupSpec.requested_role body =? "kid")
          || truthy_js (Body.familyCode body))
    with (SignupSpec.passes db body SignupSpec.KidHasFamilyCode).
  change (negb (SignupSpec.requested_role body =? "kid")
          || truthy_js (Body.name body))
    with (SignupSpec.passes db body SignupSpec.KidHasName).
  change (negb (SignupSpec.requested_role body =? "kid")
          || truthy_js (Body.age body))
    with (SignupSpec.passes db body SignupSpec.KidHasAge).
  repeat match type of Hc with
  | (if negb (SignupSpec.passes db body ?k) then _ else _) = _ =>
      destruct (SignupSpec.passes db body k) eqn:?; cbn [negb] in Hc |- *;
      [| discriminate Hc]
  end.
  repeat split; try reflexivity; try exact Hs.
  match goal with
  | E : SignupSpec.passes _ _ SignupSpec.EmailNotRegistered = true |- _ =>
      cbn [SignupSpec.passes] in E; revert E
  end.
  destruct (Body.email body) as [| | | |e| |]; try discriminate.
  cbn [str_of]. rewrite (check_registered db _ Hn).
  now destruct (findOne_email _ db).
Qed.



(** ** The controller: what a successful signup has done *)

(** The setters of the schema leave an address that is in normal form. *)
Lemma User_create_normalized (salt : string) (now : Z) (db : Db)
    (email password role : string) (familyCode : option string)
    (parent : option oid) (name : option string) :
  User_create salt now db (trim (toLowerCase email)) password role familyCode
    parent name
  = User_create salt now db email password role familyCode parent name.
Proof. unfold User_create, new_User. now rewrite normalize_idem. Qed.

Lemma User_create_ok (salt : string) (now : Z) (db : Db)
    (email password role : string) (familyCode : option string)
    (parent : option oid) (name : option string) (user : User.t) (db1 : Db) :
  User_create salt now db email password role familyCode parent name
  = (Ok user, db1) ->
  users db1 = users db ++ [user]
  /\ User._id user = next_oid db /\ User.role user = role
  /\ User.email user = trim (toLowerCase email).
Proof.
  unfold User_create, User_save.
  destruct (validate _); [|intros [= ]].
  cbn [pre_save new_User isModified modifiedPaths existsb app String.eqb
       Ascii.eqb Bool.eqb orb negb fields User.password isNew with_password].
  destruct (existsb _ (users db)); intros [= <- <-]. now cbn.
Qed.

Lemma Kid_create_users (now : Z) (db : Db) (name : option string)
    (age : option Z) (parent : option oid) (r : Result Kid.t) (db2 : Db) :
  Kid_create now db name age parent = (r, db2) -> users db2 = users db.
Proof.
  unfold Kid_create.
  destruct (validate_Kid _ age parent), (option_map trim name), age, parent;
    now intros [= <- <-].
Qed.

Lemma update_first_length {A} (p : A -> bool) (f : A -> A) (l : list A) :
  List.length (update_first p f l) = List.length l.
Proof.
  induction l as [|x l IH]; cbn; [reflexivity|].
  destruct (p x); cbn; now rewrite ?IH.
Qed.

Lemma update_first_app_last {A} (p : A -> bool) (f : A -> A) (l : list A)
    (x : A) :
  (exists y, In y l /\ p y = true) ->
  update_first p f (l ++ [x]) = update_first p f l ++ [x].
Proof.
  induction l as [|a l IH]; intros (y & Hin & Hy); [destruct Hin|].
  cbn. destruct (p a) eqn:Ha; [reflexivity|].
  rewrite IH; [reflexivity|]. destruct Hin as [-> | Hin]; [congruence|].
  now exists y.
Qed.

Lemma findOne_familyCode_stored (c : string) (db : Db) (pu : User.t) :
  findOne_familyCode c db = Some pu ->
  exists y, In y (users db) /\ User._id y = User._id pu
            /\ User.role y = User.role pu
            /\ User.familyCode y = Some c.
Proof.
  unfold findOne_familyCode.
  destruct (find _ (users db)) as [y|] eqn:E; [|discriminate].
  intros [= <-]. apply find_some in E as [Hin Hc]. exists y.
  repeat split; try assumption.
  destruct (User.familyCode y) as [x|]; [|discriminate Hc].
  cbn in Hc. apply String.eqb_eq in Hc. now subst.
Qed.

Lemma findOne_familyCode_upper_stored (code : string) (db : Db) (pu : User.t) :
  findOne_familyCode_upper code db = Some pu ->
  exists y, In y (users db) /\ User._id y = User._id pu
            /\ User.role y = User.role pu
            /\ User.familyCode y = Some (toUpperCase code).
Proof.
  unfold findOne_familyCode_upper.
  destruct (upper_in_range code); [|discriminate].
  apply findOne_familyCode_stored.
Qed.

Lemma signup_catch_status (e : JsError) :
  status (signup_catch e) = 400%Z \/ status (signup_catch e) = 500%Z.
Proof. destruct e; cbn; auto. Qed.

Lemma signup_created (env : Env) (now : Z) (salt : string)
    (rnd : nat -> bytes3) (fuel : nat) (db : Db) (body : Body.t)
    (resp : Response) (db' : Db) :
  signup env now salt rnd fuel db body = Some (resp, db') ->
  status resp = 201%Z ->
  exists user tok stored d,
    users db' = stored ++ [user]
    /\ List.length stored = List.length (users db)
    /\ generateToken env now (User._id user) (User.role user) = Ok tok
    /\ token resp = Some tok
    /\ data resp = Some d
    /\ Data.id d = User._id user /\ Data.role d = User.role user.
Proof.
  unfold signup. intros Hs Hst.
  destruct (signup_try env now salt rnd fuel db body) as [[[r|e] d0]|] eqn:Ht;
    [injection Hs as <- <- | injection Hs as <- <- | discriminate Hs].
  2:{ destruct (signup_catch_status e); congruence. }
  unfold signup_try in Ht.
  repeat match type of Ht with
  | (if ?b then _ else _) = _ =>
      destruct b eqn:?;
      [first [discriminate Ht | injection Ht as <- <-; discriminate Hst]|]
  end.
  destruct (is_kid (Body.role body)).
  - destruct (findOne_familyCode_upper _ db) as [p0|] eqn:Hp;
      [|injection Ht as <- <-; discriminate Hst].
    destruct (negb (schema_typed body)); [discriminate Ht|].
    rewrite User_create_normalized in Ht.
    destruct (User_create _ _ _ _ _ _ _ _ _) as [[user|e] db1] eqn:HU;
      [|discriminate Ht].
    destruct (Kid_create _ _ _ _ _) as [[k|e] db2] eqn:HK; [|discriminate Ht].
    destruct (generateToken _ _ _ _) as [tok|e] eqn:HG; [|discriminate Ht].
    injection Ht as <- <-.
    apply User_create_ok in HU as (HU & _). apply Kid_create_users in HK.
    apply findOne_familyCode_upper_stored in Hp as (y & Hin & Hid & _).
    exists user, tok,
      (update_first (fun u => (User._id u =? User._id p0)%N)
         (push_kid (User._id p0) (Kid._id k)) (users db)).
    eexists. repeat split.
    + cbn [findByIdAndUpdate_push_kids users]. rewrite HK, HU.
      apply update_first_app_last. exists y. split; [exact Hin|].
      now apply N.eqb_eq.
    + apply update_first_length.
    + exact HG.
  - destruct (unique_code_loop fuel rnd 0 db); [|discriminate Ht].
    destruct (negb (schema_typed body)); [discriminate Ht|].
    rewrite User_create_normalized in Ht.
    destruct (User_create _ _ _ _ _ _ _ _ _) as [[user|e] db1] eqn:HU;
      [|discriminate Ht].
    destruct (generateToken _ _ _ _) as [tok|e] eqn:HG; [|discriminate Ht].
    injection Ht as <- <-.
    apply User_create_ok in HU as (HU & _).
    exists user, tok, (users db). eexists. repeat split; assumption.
Qed.

(** C5.  After a successful signup (status 201), the record appended to the
    user collection is the created user; the response carries its id and
    role, and the token of the response, verified with the same secret at
    any time before its expiry, yields claims with that id and that role. *)
Theorem C5_signup_token_verifies_to_created_user
    (env : Env) (now now' : Z) (salt : string) (rnd : nat -> bytes3)
    (fuel : nat) (db : Db) (body : Body.t) (resp : Response) (db' : Db) :
  signup env now salt rnd fuel db body = Some (resp, db') ->
  status resp = 201%Z ->
  (forall ttl, JWT_EXPIRE env = Some ttl -> (seconds now' < seconds now + ttl)%Z) ->
  exists user stored tok d c,
    users db' = stored ++ [user]
    /\ List.length stored = List.length (users db)
    /\ token resp = Some tok
    /\ data resp = Some d
    /\ Data.id d = User._id user /\ Data.role d = User.role user
    /\ jwt_verify tok (JWT_SECRET env) now' = Ok c
    /\ claim_id c = User._id user
    /\ claim_role c = User.role user.
Proof.
  intros Hs Hst Hlive.
  destruct (signup_created _ _ _ _ _ _ _ _ _ Hs Hst)
    as (user & tok & stored & d & Hu & Hl & Hg & Ht & Hd & Hid & Hr).
  destruct (generateToken_verify _ _ now' _ _ _ Hg Hlive) as (c & Hv & Hc1 & Hc2).
  exists user, stored, tok, d, c. repeat split; assumption.
Qed.

(** ** The controller: errors after the checks are not check rejections *)

Lemma validate_new_User (id : oid) (now : Z) (email password role : string)
    (familyCode : option string) (parent : option oid) (name : option string) :
  truthy password = true ->
  (String.length password <? 6)%nat = false ->
  (role =? "parent") || (role =? "kid") = true ->
  In (validate (new_User id now email password role familyCode parent name))
     user_validation_outcomes.
Proof.
  intros Hp Hlen Hrole. unfold truthy in Hp. apply negb_true_iff in Hp.
  unfold validate, new_User, schema_paths.
  cbn [isNew orb flat_map fields]. unfold validate_path.
  cbn [String.eqb Ascii.eqb Bool.eqb User.email User.password User.role
       User.name].
  rewrite Hp, Hlen, Hrole.
  assert (Hr : (role =? "") = false).
  { destruct role; [discriminate Hrole | reflexivity]. }
  rewrite Hr.
  destruct (trim (toLowerCase email) =? "");
    [|destruct (Regex.test emailPattern _)];
    (destruct (option_map trim name) as [n|];
       [destruct (50 <? String.length n)%nat|]);
    cbn; auto 10.
Qed.

Lemma validate_Kid_messages (name : option string) (age : option Z) (p : oid) :
  In (validate_Kid name age (Some p)) kid_validation_outcomes.
Proof.
  unfold validate_Kid.
  destruct name as [n|];
    [destruct (n =? ""); [|destruct (String.length n <? 2)%nat;
                            [|destruct (50 <? String.length n)%nat]]|];
    (destruct age as [a|];
       [destruct (a <? 1)%Z; [|destruct (18 <? a)%Z]|]);
    cbn; auto 20.
Qed.

Lemma User_create_thrown (salt : string) (now : Z) (db : Db)
    (email password role : string) (familyCode : option string)
    (parent : option oid) (name : option string) (e : JsError) (db1 : Db) :
  User_create salt now db email password role familyCode parent name
  = (Thrown e, db1) ->
  db1 = db
  /\ (e = ValidationError
            (validate
               (new_User (next_oid db) now email password role familyCode
                  parent name))
      \/ error_name e = "MongoServerError").
Proof.
  unfold User_create, User_save.
  destruct (validate _) eqn:Hv; [|intros [= <- <-]; auto].
  cbn [pre_save new_User isModified modifiedPaths existsb app String.eqb
       Ascii.eqb Bool.eqb orb negb fields User.password isNew with_password].
  destruct (existsb _ (users db)); intros [= <- <-].
  split; [reflexivity | right; reflexivity].
Qed.

Lemma Kid_create_thrown (now : Z) (db : Db) (name : option string)
    (age : option Z) (p : oid) (e : JsError) (db2 : Db) :
  Kid_create now db name age (Some p) = (Thrown e, db2) ->
  e = ValidationError (validate_Kid (option_map trim name) age (Some p)).
Proof.
  unfold Kid_create.
  destruct (validate_Kid _ age (Some p)), (option_map trim name), age;
    now intros [= <- <-].
Qed.

Lemma generateToken_thrown (env : Env) (now : Z) (id : oid) (role : string)
    (e : JsError) :
  generateToken env now id role = Thrown e -> error_name e = "Error".
Proof.
  unfold generateToken, jwt_sign.
  destruct (negb _); [now intros [= <-]|].
  destruct (JWT_EXPIRE env); [discriminate | now intros [= <-]].
Qed.

Lemma signup_catch_not_rejection (e : JsError) (c : SignupSpec.Check) :
  (exists msgs, e = ValidationError msgs
                /\ In msgs (user_validation_outcomes ++ kid_validation_outcomes))
  \/ error_name e = "MongoServerError" \/ error_name e = "Error"
  \/ error_name e = "TypeError" ->
  signup_catch e <> SignupSpec.rejection c.
Proof.
  intros [(msgs & -> & Hin) | [Hn | [Hn | Hn]]].
  - cbn in Hin.
    repeat (destruct Hin as [<- | Hin]; [destruct c; vm_compute; discriminate|]).
    destruct Hin.
  - unfold signup_catch. rewrite Hn. destruct c; vm_compute; discriminate.
  - unfold signup_catch. rewrite Hn. destruct c; vm_compute; discriminate.
  - unfold signup_catch. rewrite Hn. destruct c; vm_compute; discriminate.
Qed.

Lemma signup_passed_not_rejection (env : Env) (now : Z) (salt : string)
    (rnd : nat -> bytes3) (fuel : nat) (db : Db) (body : Body.t)
    (resp : Response) (db' : Db) (c : SignupSpec.Check) :
  emails_normalized db ->
  SignupSpec.first_failure db body = None ->
  signup env now salt rnd fuel db body = Some (resp, db') ->
  resp <> SignupSpec.rejection c.
Proof.
  intros Hn Hc.
  destruct (checks_passed db body Hn Hc)
    as (C1 & C2 & C3 & C4 & C5 & C6 & C7 & Hs).
  assert (Hrole : (SignupSpec.requested_role body =? "parent")
                  || (SignupSpec.requested_role body =? "kid") = true).
  { rewrite (check_role body db) in C3. apply negb_false_iff in C3. exact C3. }
  assert (Hpw : truthy (str_of (Body.password body)) = true
                /\ (String.length (str_of (Body.password body)) <? 6)%nat = false).
  { apply orb_false_iff in C1 as [_ C1]. apply negb_false_iff in C1.
    destruct (Body.password body); try discriminate Hs. now split. }
  destruct Hpw as [Hpw Hlen].
  unfold signup, signup_try. rewrite C1, C2, C3, C4, C5, C6.
  destruct (is_str (Body.email body)) eqn:Hse; cbn [negb].
  2:{ intros [= <- <-]. apply signup_catch_not_rejection. auto. }
  rewrite (C7 eq_refl).
  fold (SignupSpec.requested_role body).
  assert (Hval : forall fc par n,
             In (validate (new_User (next_oid db) now (str_of (Body.email body))
                             (str_of (Body.password body))
                             (SignupSpec.requested_role body) fc par n))
                (user_validation_outcomes ++ kid_validation_outcomes)).
  { intros. apply in_or_app. left. now apply validate_new_User. }
  assert (Hkid : forall n a p,
             In (validate_Kid n a (Some p))
                (user_validation_outcomes ++ kid_validation_outcomes)).
  { intros. apply in_or_app. right. apply validate_Kid_messages. }
  destruct (is_kid (Body.role body)); cbn [andb].
  - destruct (negb (is_str (Body.familyCode body))).
    { intros [= <- <-]. apply signup_catch_not_rejection. auto. }
    destruct (findOne_familyCode_upper _ db) as [p0|].
    2:{ intros [= <- <-]. destruct c; vm_compute; discriminate. }
    destruct (negb (schema_typed body)); [discriminate|].
    rewrite User_create_normalized.
    destruct (User_create _ _ _ _ _ _ _ _ _) as [[user|e] db1] eqn:HU.
    2:{ intros [= <- <-]. apply signup_catch_not_rejection.
        apply User_create_thrown in HU as (_ & [-> | Hm]); eauto. }
    destruct (Kid_create _ _ _ _ _) as [[k|e] db2] eqn:HK.
    2:{ intros [= <- <-]. apply signup_catch_not_rejection.
        apply Kid_create_thrown in HK as ->. eauto. }
    destruct (generateToken _ _ _ _) as [tok|e] eqn:HG.
    2:{ intros [= <- <-]. apply signup_catch_not_rejection.
        apply generateToken_thrown in HG. auto. }
    intros [= <- <-]. destruct c; discriminate.
  - destruct (unique_code_loop fuel rnd 0 db); [|discriminate].
    destruct (negb (schema_typed body)); [discriminate|].
    rewrite User_create_normalized.
    destruct (User_create _ _ _ _ _ _ _ _ _) as [[user|e] db1] eqn:HU.
    2:{ intros [= <- <-]. apply signup_catch_not_rejection.
        apply User_create_thrown in HU as (_ & [-> | Hm]); eauto. }
    destruct (generateToken _ _ _ _) as [tok|e] eqn:HG.
    2:{ intros [= <- <-]. apply signup_catch_not_rejection.
        apply generateToken_thrown in HG. auto. }
    intros [= <- <-]. destruct c; discriminate.
Qed.

Lemma rejection_inj (c c' : SignupSpec.Check) :
  SignupSpec.rejection c = SignupSpec.rejection c' -> c = c'.
Proof. destruct c, c'; intros E; try reflexivity; vm_compute in E; discriminate E. Qed.

Lemma find_first {A} (p : A -> bool) (l : list A) (x : A) :
  find p l = Some x <->
  exists before after,
    l = before ++ x :: after
    /\ (forall y, In y before -> p y = false) /\ p x = true.
Proof.
  induction l as [|a l IH]; cbn.
  - split; [discriminate|]. intros (b & r & E & _). now destruct b.
  - destruct (p a) eqn:Ha.
    + split.
      * intros [= ->]. exists [], l. repeat split; [intros y []|exact Ha].
      * intros ([|b0 b] & r & E & Hb & Hx); injection E as <- E.
        -- reflexivity.
        -- rewrite (Hb a) in Ha by now left. discriminate Ha.
    + rewrite IH. split.
      * intros (b & r & -> & Hb & Hx). exists (a :: b), r.
        repeat split; [|exact Hx]. intros y [<- | Hy]; auto.
      * intros ([|b0 b] & r & E & Hb & Hx); injection E as <- E.
        -- congruence.
        -- exists b, r. repeat split; [exact E | | exact Hx].
           intros y Hy. apply Hb. now right.
Qed.

(** X30.  On a store whose addresses are in normal form, and for a password
    that is a string or is missing, signup answers with the rejection of a check
    exactly when that check fails and every check before it in the order
    (credentials present; password of six characters or more; role parent
    or kid when given; for a kid the family code, the name and the age;
    address not registered) passes, and then the store is untouched.  The
    last check compares addresses without regard to case and surrounding
    blanks and answers 409: signing up as [A@x.com] when [a@x.com] is stored
    is a conflict. *)
Theorem signup_checks_first_failure_wins
    (env : Env) (now : Z) (salt : string) (rnd : nat -> bytes3) (fuel : nat)
    (db : Db) (body : Body.t) :
  emails_normalized db ->
  text_or_missing (Body.password body) = true ->
  (forall c db',
      signup env now salt rnd fuel db body = Some (SignupSpec.rejection c, db')
      <-> db' = db
          /\ exists before after,
               SignupSpec.order = before ++ c :: after
               /\ (forall c', In c' before -> SignupSpec.passes db body c' = true)
               /\ SignupSpec.passes db body c = false)
  /\ (SignupSpec.passes db body SignupSpec.EmailNotRegistered = false <->
      exists e u, Body.email body = JStr e /\ In u (users db)
                  /\ trim (toLowerCase (User.email u)) = trim (toLowerCase e))
  /\ status (SignupSpec.rejection SignupSpec.EmailNotRegistered) = 409%Z
  /\ ((exists u, In u (users db) /\ User.email u = "a@x.com") ->
      forall password,
        (6 <= String.length password)%nat ->
        signup env now salt rnd fuel db
          (Body.mk (JStr "A@x.com") (JStr password) JUndefined JUndefined
             JUndefined JUndefined)
        = Some (fail 409 "User with this email already exists", db)).
Proof.
  intros Hn Hpw.
  assert (Hff : forall c,
             SignupSpec.first_failure db body = Some c <->
             exists before after,
               SignupSpec.order = before ++ c :: after
               /\ (forall c', In c' before -> SignupSpec.passes db body c' = true)
               /\ SignupSpec.passes db body c = false).
  { intros c. unfold SignupSpec.first_failure. rewrite find_first.
    split; intros (b & r & E & Hb & Hx); exists b, r; repeat split;
      try exact E.
    - intros c' Hc'. apply negb_false_iff. now apply Hb.
    - now apply negb_true_iff.
    - intros c' Hc'. apply negb_false_iff. now apply Hb.
    - now apply negb_true_iff. }
  split; [|split; [|split]].
  - intros c db'. rewrite <- Hff. split.
    + intros Hs. destruct (SignupSpec.first_failure db body) as [c0|] eqn:Hc.
      * rewrite (signup_first_failure env now salt rnd fuel db body c0 Hn Hpw Hc)
          in Hs.
        injection Hs as Hr <-. apply rejection_inj in Hr. now subst.
      * now destruct (signup_passed_not_rejection _ _ _ _ _ _ _ _ _ c Hn Hc Hs).
    + intros [-> Hc]. now apply signup_first_failure.
  - cbn [SignupSpec.passes]. split.
    + destruct (Body.email body) as [| | | |e| |]; try discriminate.
      rewrite negb_false_iff. unfold SignupSpec.registered.
      rewrite existsb_exists. intros (u & Hin & Hu). exists e, u.
      repeat split; [exact Hin | now apply String.eqb_eq].
    + intros (e & u & -> & Hin & Hu). rewrite negb_false_iff.
      unfold SignupSpec.registered. rewrite existsb_exists. exists u.
      split; [exact Hin | now apply String.eqb_eq].
  - reflexivity.
  - intros (u & Hin & Hu) password Hlen.
    apply (signup_first_failure _ _ _ _ _ _ _ SignupSpec.EmailNotRegistered Hn);
      [reflexivity|].
    unfold SignupSpec.first_failure, SignupSpec.order.
    assert (Hp : truthy password = true).
    { apply truthy_true. intros ->. cbn in Hlen. lia. }
    assert (Hl : (6 <=? String.length password)%nat = true)
      by now apply Nat.leb_le.
    assert (Hr : SignupSpec.registered db "A@x.com" = true).
    { unfold SignupSpec.registered. apply existsb_exists. exists u.
      split; [exact Hin|]. unfold SignupSpec.eq_ci_trim. now rewrite Hu. }
    cbn [find SignupSpec.passes SignupSpec.long_enough Body.email Body.password
         Body.role Body.familyCode Body.name Body.age truthy_js str_of andb negb].
    unfold SignupSpec.requested_role.
    cbn [Body.role truthy_js String.eqb Ascii.eqb Bool.eqb orb negb].
    rewrite Hp, Hl, Hr. reflexivity.
Qed.

(** A password that is truthy, no string, and of no length below six gets
    past the length test of the code; when the later checks pass and the
    address is registered, the answer is the conflict. *)
Lemma signup_password_no_string (env : Env) (now : Z) (salt : string)
    (rnd : nat -> bytes3) (fuel : nat) (db : Db) (body : Body.t) (u : User.t) :
  is_str (Body.email body) = true ->
  truthy_js (Body.email body) = true ->
  truthy_js (Body.password body) = true ->
  is_str (Body.password body) = false ->
  length_below_6 (Body.password body) = false ->
  (forall c, In c [SignupSpec.RoleKnown; SignupSpec.KidHasFamilyCode;
                   SignupSpec.KidHasName; SignupSpec.KidHasAge] ->
             SignupSpec.passes db body c = true) ->
  findOne_email (trim (toLowerCase (str_of (Body.email body)))) db = Some u ->
  SignupSpec.first_failure db body = Some SignupSpec.PasswordLongEnough
  /\ signup env now salt rnd fuel db body
     = Some (fail 409 "User with this email already exists", db).
Proof.
  intros Hse He Hp Hn Hl Hc Hf. split.
  - unfold SignupSpec.first_failure, SignupSpec.order.
    cbn [find SignupSpec.passes]. rewrite He, Hp. cbn [andb negb].
    destruct (Body.password body); try discriminate Hn; reflexivity.
  - unfold signup, signup_try. rewrite He, Hp, Hl, Hse. cbn [negb orb].
    rewrite (check_role body db), !check_kid_field.
    change (negb (SignupSpec.requested_role body =? "kid")
            || truthy_js (Body.familyCode body))
      with (SignupSpec.passes db body SignupSpec.KidHasFamilyCode).
    change (negb (SignupSpec.requested_role body =? "kid")
            || truthy_js (Body.name body))
      with (SignupSpec.passes db body SignupSpec.KidHasName).
    change (negb (SignupSpec.requested_role body =? "kid")
            || truthy_js (Body.age body))
      with (SignupSpec.passes db body SignupSpec.KidHasAge).
    rewrite !Hc by (cbn; auto). cbn [negb]. now rewrite Hf.
Qed.

(** C3.  The claim fails on the code for a password that is no string.  On
    the store that holds [p1@x.com], a signup under that address with the
    number 12345 for the password fails the second check of the list (the
    password is no text of six characters or more) before the fifth; the
    handler tests [password.length < 6], which is false of a number, and
    answers with the conflict of the fifth check, status 409, instead of the
    400 of the second.  So it is on every store, for every password that is
    truthy, no string and of no length below six, when the later checks pass
    and the address is registered. *)
Theorem C3_password_length_check_skipped
    (env : Env) (now : Z) (salt : string) (rnd : nat -> bytes3) (fuel : nat) :
  SignupSpec.first_failure Sample.family (Sample.numericBody "p1@x.com")
  = Some SignupSpec.PasswordLongEnough
  /\ SignupSpec.rejection SignupSpec.PasswordLongEnough
     = fail 400 "Password must be at least 6 characters long"
  /\ signup env now salt rnd fuel Sample.family (Sample.numericBody "p1@x.com")
     = Some (fail 409 "User with this email already exists", Sample.family)
  /\ (forall (db : Db) (body : Body.t) (u : User.t),
        is_str (Body.email body) = true ->
        truthy_js (Body.email body) = true ->
        truthy_js (Body.password body) = true ->
        is_str (Body.password body) = false ->
        length_below_6 (Body.password body) = false ->
        (forall c, In c [SignupSpec.RoleKnown; SignupSpec.KidHasFamilyCode;
                         SignupSpec.KidHasName; SignupSpec.KidHasAge] ->
                   SignupSpec.passes db body c = true) ->
        findOne_email (trim (toLowerCase (str_of (Body.email body)))) db
        = Some u ->
        SignupSpec.first_failure db body = Some SignupSpec.PasswordLongEnough
        /\ signup env now salt rnd fuel db body
           = Some (SignupSpec.rejection SignupSpec.EmailNotRegistered, db)).
Proof.
  split; [reflexivity|]. split; [reflexivity|]. split; [reflexivity|].
  intros db body u. apply signup_password_no_string.
Qed.

(** ** The controller: signup keeps addresses in normal form *)





(** ** The controller: the parent branch returns when its loop does *)

Lemma signup_returns (env : Env) (now : Z) (salt : string)
    (rnd : nat -> bytes3) (fuel : nat) (db : Db) (body : Body.t) (c : string) :
  unique_code_loop fuel rnd 0 db = Some c ->
  schema_typed body = true ->
  exists r db', signup env now salt rnd fuel db body = Some (r, db').
Proof.
  intros Hc Hty. unfold signup, signup_try. rewrite Hc, Hty. cbn [negb].
  destruct (is_kid (Body.role body));
    destruct (findOne_familyCode_upper (str_of (Body.familyCode body)) db);
    repeat match goal with
    | |- context [if ?b then _ else _] => destruct b
    end; eauto;
    repeat match goal with
    | |- context [User_create ?a ?b ?c ?d ?e ?f ?g ?h ?i] =>
        destruct (User_create a b c d e f g h i) as [[?|?] ?]
    | |- context [Kid_create ?a ?b ?c ?d ?e] =>
        destruct (Kid_create a b c d e) as [[?|?] ?]
    | |- context [generateToken ?a ?b ?c ?d] =>
        destruct (generateToken a b c d)
    end; eauto.
Qed.

(** C8.  When the generator draws every outcome at some call, and some
    code of its range is carried by no stored user, the loop returns: from
    some number of iterations on it gives a code of the range that no stored
    user carries, and a signup whose body has the types of the schemas is
    answered.  There is no cap on the retries: for every bound there are a
    store with an unused code and such a generator for which the loop is
    still running after that many iterations, and returns at the next. *)
Theorem C8_unique_code_loop_terminates (db : Db) (rnd : nat -> bytes3) :
  draws_every_outcome rnd ->
  (exists c, producible c /\ code_unused db c) ->
  (exists fuel c,
      code_unused db c /\ producible c
      /\ forall fuel', (fuel <= fuel')%nat ->
           unique_code_loop fuel' rnd 0 db = Some c
           /\ forall env now salt body,
                schema_typed body = true ->
                exists r db',
                  signup env now salt rnd fuel' db body = Some (r, db'))
  /\ (forall cap : nat, exists db0 rnd0 c0,
        draws_every_outcome rnd0
        /\ (exists c, producible c /\ code_unused db0 c)
        /\ unique_code_loop cap rnd0 0 db0 = None
        /\ unique_code_loop (S cap) rnd0 0 db0 = Some c0
        /\ code_unused db0 c0).
Proof.
  intros Hfair (c & [r Hr] & Hc). split.
  - destruct (Hfair r) as [n Hn].
    destruct (unique_code_loop_returns_when_entropy_hits db rnd)
      as (fuel & c' & Hu & Hp & Hl).
    { exists n. now rewrite Hn, Hr. }
    exists fuel, c'. split; [exact Hu|]. split; [exact Hp|].
    intros fuel' Hle. split; [now apply Hl|].
    intros env now salt body Hty.
    now apply (signup_returns env now salt rnd fuel' db body c'); [apply Hl|].
  - intros cap. exists Sample.family, (Sample.late cap), "000000".
    destruct (unique_code_loop_late cap cap 0 eq_refl) as [L1 L2].
    assert (Hfree : code_unused Sample.family "000000").
    { intros u [<- | []]. discriminate. }
    repeat split; try assumption.
    + apply late_draws_every_outcome.
    + exists "000000". split; [|exact Hfree].
      now exists (x00, (x00, x00)).
Qed.

End Controller.

(** * Further properties of the code *)

(** ** What signup has done, case by case *)

Section SignupMore.
Context `{BcryptLib} `{JwtLib}.

Lemma is_kid_requested_role (b : Body.t) :
  is_kid (Body.role b) = true -> SignupSpec.requested_role b = "kid".
Proof.
  rewrite requested_role_kid. apply String.eqb_eq.
Qed.

Lemma not_kid_requested_role (b : Body.t) :
  truthy_js (Body.role b) && negb (includes ["parent"; "kid"] (Body.role b))
  = false ->
  is_kid (Body.role b) = false -> SignupSpec.requested_role b = "parent".
Proof.
  rewrite (check_role b (mkDb [] [] 0%N)), requested_role_kid.
  cbn [SignupSpec.passes]. intros E Hk. rewrite Hk, orb_false_r in E.
  now apply negb_false_iff, String.eqb_eq in E.
Qed.

Lemma findOne_familyCode_upper_some (code : string) (db : Db) (p : User.t) :
  findOne_familyCode_upper code db = Some p ->
  findOne_familyCode (toUpperCase code) db = Some p.
Proof.
  unfold findOne_familyCode_upper. now destruct (upper_in_range code).
Qed.

Lemma schema_typed_kid (body : Body.t) :
  schema_typed body = true -> is_kid (Body.role body) = true ->
  exists pw n a,
    Body.password body = JStr pw /\ Body.name body = JStr n
    /\ Body.age body = JNum a.
Proof.
  unfold schema_typed. intros Ht Hk. rewrite Hk in Ht. cbn [negb orb] in Ht.
  destruct (Body.password body) as [| | | |pw| |]; try discriminate Ht.
  destruct (Body.name body) as [| | | |n| |]; try discriminate Ht.
  destruct (Body.age body) as [| | |a| | |]; try discriminate Ht.
  now exists pw, n, a.
Qed.

Lemma signup_inv (env : Env) (now : Z) (salt : string) (rnd : nat -> bytes3)
    (fuel : nat) (db : Db) (body : Body.t) (resp : Response) (db' : Db) :
  signup env now salt rnd fuel db body = Some (resp, db') ->
  (db' = db /\ status resp <> 201%Z)
  \/ (findOne_email (trim (toLowerCase (str_of (Body.email body)))) db = None
      /\ negb (truthy_js (Body.email body))
         || negb (truthy_js (Body.password body)) = false
      /\ is_str (Body.email body) = true
      /\ schema_typed body = true
      /\ exists user db1 fc par nm,
           User_create salt now db (str_of (Body.email body))
             (str_of (Body.password body)) (SignupSpec.requested_role body)
             fc par nm = (Ok user, db1)
           /\ ((is_kid (Body.role body) = false
                /\ SignupSpec.requested_role body = "parent"
                /\ (exists code,
                       unique_code_loop fuel rnd 0 db = Some code
                       /\ fc = Some code)
                /\ par = None /\ nm = None /\ db' = db1
                /\ token_step env now user None (num_of (Body.age body)) resp)
               \/ (is_kid (Body.role body) = true
                   /\ SignupSpec.requested_role body = "kid"
                   /\ exists p,
                        findOne_familyCode
                          (toUpperCase (str_of (Body.familyCode body))) db = Some p
                        /\ fc = User.familyCode p /\ par = Some (User._id p)
                        /\ nm = text_of (Body.name body)
                        /\ ((exists e,
                                Kid_create now db1 (text_of (Body.name body))
                                  (num_of (Body.age body)) (Some (User._id p))
                                = (Thrown e, db')
                                /\ resp = signup_catch e)
                            \/ (exists k db2,
                                  Kid_create now db1 (text_of (Body.name body))
                                    (num_of (Body.age body)) (Some (User._id p))
                                  = (Ok k, db2)
                                  /\ db' = findByIdAndUpdate_push_kids
                                             (User._id p) (Kid._id k) db2
                                  /\ token_step env now user (Some k)
                                       (num_of (Body.age body)) resp))))).
Proof.
  unfold signup.
  destruct (signup_try env now salt rnd fuel db body) as [[r d0]|] eqn:Ht;
    [|discriminate].
  intros Hs.
  assert (Hr : resp = match r with Ok x => x | Thrown e => signup_catch e end
               /\ d0 = db') by (destruct r; now injection Hs).
  destruct Hr as [-> <-]. clear Hs. unfold signup_try in Ht.
  repeat match type of Ht with
  | (if ?b then _ else _) = _ =>
      destruct b eqn:?;
      [injection Ht as <- <-; left; split; [reflexivity | discriminate]|]
  end.
  fold (SignupSpec.requested_role body) in Ht.
  match goal with
  | E : negb (is_str (Body.email body)) = false |- _ =>
      apply negb_false_iff in E; rename E into Hse
  end.
  destruct (is_kid (Body.role body)) eqn:Hk.
  - destruct (findOne_familyCode_upper _ db) as [p0|] eqn:Hp;
      [|injection Ht as <- <-; left; split; [reflexivity | discriminate]].
    apply findOne_familyCode_upper_some in Hp.
    destruct (schema_typed body) eqn:Hty; [|discriminate Ht]. cbn [negb] in Ht.
    rewrite User_create_normalized in Ht.
    destruct (User_create _ _ _ _ _ _ _ _ _) as [[user|e] db1] eqn:HU.
    2:{ apply User_create_thrown in HU as [-> _]. injection Ht as <- <-.
        left. split; [reflexivity|].
        destruct (signup_catch_status e) as [E | E]; rewrite E; discriminate. }
    right. split; [reflexivity|]. split; [reflexivity|].
    split; [exact Hse|]. split; [reflexivity|].
    exists user, db1, (User.familyCode p0), (Some (User._id p0)),
      (text_of (Body.name body)).
    split; [exact HU|]. right.
    split; [reflexivity|]. split; [now apply is_kid_requested_role|].
    exists p0. repeat split; [exact Hp|].
    destruct (Kid_create _ _ _ _ _) as [[k|e] db2] eqn:HK.
    + right. exists k, db2. split; [reflexivity|].
      destruct (generateToken _ _ _ _) as [tok|e] eqn:HG;
        injection Ht as <- <-; (split; [reflexivity|]).
      * left. exists tok. now split.
      * right. exists e. now split.
    + left. exists e. injection Ht as <- <-. now split.
  - destruct (unique_code_loop fuel rnd 0 db) as [code|] eqn:Hl;
      [|discriminate Ht].
    destruct (schema_typed body) eqn:Hty; [|discriminate Ht]. cbn [negb] in Ht.
    rewrite User_create_normalized in Ht.
    destruct (User_create _ _ _ _ _ _ _ _ _) as [[user|e] db1] eqn:HU.
    2:{ apply User_create_thrown in HU as [-> _]. injection Ht as <- <-.
        left. split; [reflexivity|].
        destruct (signup_catch_status e) as [E | E]; rewrite E; discriminate. }
    right. split; [reflexivity|]. split; [reflexivity|].
    split; [exact Hse|]. split; [reflexivity|].
    exists user, db1, (Some code), None, None.
    split; [exact HU|]. left.
    split; [reflexivity|]. split; [now apply not_kid_requested_role|].
    split; [now exists code|].
    destruct (generateToken _ _ _ _) as [tok|e] eqn:HG;
      injection Ht as <- <-; repeat split.
    + left. exists tok. now split.
    + right. exists e. now split.
Qed.

(** What a successful [User.create] has built and stored. *)
Lemma User_create_fields (salt : string) (now : Z) (db : Db)
    (email password role : string) (familyCode : option string)
    (parent : option oid) (name : option string) (user : User.t) (db1 : Db) :
  User_create salt now db email password role familyCode parent name
  = (Ok user, db1) ->
  user = User.mk (next_oid db) (trim (toLowerCase email))
           (Some (bcrypt_hash password salt)) role familyCode parent
           (option_map trim name) [] now
  /\ db1 = mkDb (users db ++ [user]) (kids db) (next_oid db + 1)%N
  /\ Regex.test emailPattern (trim (toLowerCase email)) = true.
Proof.
  unfold User_create, User_save.
  destruct (validate _) eqn:Hv; [|intros [= ]].
  cbn [pre_save new_User isModified modifiedPaths existsb app String.eqb
       Ascii.eqb Bool.eqb orb negb fields User.password isNew with_password].
  destruct (existsb _ (users db)); intros [= <- <-].
  repeat split.
  unfold validate, new_User, schema_paths in Hv.
  cbn [isNew orb flat_map fields] in Hv. apply app_eq_nil in Hv as [Hv _].
  unfold validate_path in Hv.
  cbn [String.eqb Ascii.eqb Bool.eqb User.email] in Hv.
  destruct (trim (toLowerCase email) =? ""); [discriminate Hv|].
  now destruct (Regex.test emailPattern _).
Qed.

(** What a successful [Kid.create] of signup has built and stored. *)
Lemma Kid_create_fields (now : Z) (db : Db) (name : option string)
    (age : option Z) (p : oid) (k : Kid.t) (db2 : Db) :
  Kid_create now db name age (Some p) = (Ok k, db2) ->
  exists n a,
    name = Some n /\ age = Some a
    /\ k = Kid.mk (next_oid db) (trim n) a "from-blue-400 to-purple-500" [] p now
    /\ db2 = mkDb (users db) (kids db ++ [k]) (next_oid db + 1)%N
    /\ validate_Kid (Some (trim n)) (Some a) (Some p) = [].
Proof.
  unfold Kid_create.
  destruct name as [n|], age as [a|]; cbn [option_map].
  - destruct (validate_Kid _ _ _) eqn:Hv; [|discriminate].
    intros [= <- <-]. exists n, a. repeat split. exact Hv.
  - destruct (validate_Kid _ _ _); discriminate.
  - destruct (validate_Kid _ _ _); discriminate.
  - destruct (validate_Kid _ _ _); discriminate.
Qed.

Lemma Kid_create_thrown_db (now : Z) (db : Db) (name : option string)
    (age : option Z) (p : option oid) (e : JsError) (db2 : Db) :
  Kid_create now db name age p = (Thrown e, db2) -> db2 = db.
Proof.
  unfold Kid_create.
  destruct (validate_Kid _ age p), (option_map trim name), age, p;
    now intros [= _ <-].
Qed.

Lemma validate_Kid_bounds (n : string) (a : Z) (p : oid) :
  validate_Kid (Some n) (Some a) (Some p) = [] ->
  (2 <= String.length n <= 50)%nat /\ (1 <= a <= 18)%Z.
Proof.
  unfold validate_Kid. intros Hv.
  apply app_eq_nil in Hv as [Hn Hv]. apply app_eq_nil in Hv as [Ha _].
  destruct (n =? ""); [discriminate Hn|].
  destruct (Nat.ltb_spec (String.length n) 2); [discriminate Hn|].
  destruct (Nat.ltb_spec 50 (String.length n)); [discriminate Hn|].
  destruct (Z.ltb_spec a 1); [discriminate Ha|].
  destruct (Z.ltb_spec 18 a); [discriminate Ha|].
  lia.
Qed.

Lemma update_first_accounts (id k : oid) (l : list User.t) :
  map account (update_first (fun u => (User._id u =? id)%N) (push_kid id k) l)
  = map account l.
Proof.
  apply update_first_map. intros u. unfold push_kid.
  now destruct (User._id u =? id)%N.
Qed.

Lemma parent_codes_accounts (l l' : list User.t) :
  map account l = map account l' -> parent_codes l = parent_codes l'.
Proof.
  revert l'. induction l as [|u l IH]; intros [|u' l']; cbn;
    try discriminate; [reflexivity|].
  intros [= Hi He Hp Hr Hf Hpa Hn Hc Hm]. unfold parent_codes in *. cbn.
  rewrite Hr, Hf. f_equal. now apply IH.
Qed.

Lemma parent_codes_unused (db : Db) (c : string) :
  code_unused db c -> ~ In c (parent_codes (users db)).
Proof.
  unfold code_unused, parent_codes. intros Hu Hin.
  apply in_flat_map in Hin as (u & Hu' & Hc).
  destruct (User.role u =? "parent"); [|destruct Hc].
  destruct (User.familyCode u) as [x|] eqn:E; [|destruct Hc].
  destruct Hc as [-> | []]. now apply (Hu u Hu').
Qed.

Lemma token_step_created (env : Env) (now : Z) (user : User.t)
    (kidDoc : option Kid.t) (age : option Z) (resp : Response) :
  token_step env now user kidDoc age resp -> status resp = 201%Z ->
  exists tok,
    generateToken env now (User._id user) (User.role user) = Ok tok
    /\ resp = created_response user kidDoc age tok.
Proof.
  intros [(tok & Hg & ->) | (e & _ & ->)] Hst; [now exists tok|].
  destruct (signup_catch_status e) as [E | E]; rewrite E in Hst; discriminate.
Qed.

(** X1.  A successful parent signup appends exactly one user: role parent, the
    address in normal form, the password as its salted hash, no parent, no
    kids, and a family code from the generator that no stored user carried;
    the kid collection is untouched and the response shows that code. *)
Theorem parent_signup_postcondition
    (env : Env) (now : Z) (salt : string) (rnd : nat -> bytes3) (fuel : nat)
    (db : Db) (body : Body.t) (resp : Response) (db' : Db) :
  signup env now salt rnd fuel db body = Some (resp, db') ->
  status resp = 201%Z ->
  is_kid (Body.role body) = false ->
  exists code user tok,
    code_unused db code /\ producible code
    /\ user = User.mk (next_oid db)
                (trim (toLowerCase (str_of (Body.email body))))
                (Some (bcrypt_hash (str_of (Body.password body)) salt))
                "parent" (Some code) None None [] now
    /\ db' = mkDb (users db ++ [user]) (kids db) (next_oid db + 1)%N
    /\ token resp = Some tok
    /\ data resp
       = Some (Data.mk (next_oid db)
                 (trim (toLowerCase (str_of (Body.email body)))) "parent" now
                 (Some code) None None None None).
Proof.
  intros Hs Hst Hk.
  destruct (signup_inv _ _ _ _ _ _ _ _ _ Hs)
    as [[_ Hn] | (_ & _ & _ & Hty & user & db1 & fc & par & nm & HU & Hcase)];
    [contradiction|].
  destruct Hcase as [(_ & Hrole & (code & Hl & ->) & -> & -> & -> & Htok)
                    | (Hk' & _)]; [|congruence].
  rewrite Hrole in HU. apply User_create_fields in HU as (Hu & Hdb & _).
  destruct (token_step_created _ _ _ _ _ _ Htok Hst) as (tok & _ & ->).
  destruct (unique_code_loop_sound _ _ _ _ _ Hl) as (Hun & k & _ & Hc & _).
  exists code, user, tok. repeat split; try assumption.
  - exists (rnd (0 + k)%nat). now symmetry.
  - subst user. reflexivity.
Qed.

(** X2.  A successful kid signup resolves a stored user by the upper-cased code
    and appends one user of role kid that points to it and inherits its
    family code, with the trimmed name and the hashed password; it appends
    one kid profile owned by the resolved user, with the trimmed name and
    the age of the request, and pushes the profile's id on that user's
    [kids]; the response names the parent and the profile. *)
Theorem kid_signup_postcondition
    (env : Env) (now : Z) (salt : string) (rnd : nat -> bytes3) (fuel : nat)
    (db : Db) (body : Body.t) (resp : Response) (db' : Db) :
  signup env now salt rnd fuel db body = Some (resp, db') ->
  status resp = 201%Z ->
  is_kid (Body.role body) = true ->
  exists p n a user k tok,
    findOne_familyCode (toUpperCase (str_of (Body.familyCode body))) db = Some p
    /\ Body.name body = JStr n /\ Body.age body = JNum a
    /\ user = User.mk (next_oid db)
                (trim (toLowerCase (str_of (Body.email body))))
                (Some (bcrypt_hash (str_of (Body.password body)) salt))
                "kid" (User.familyCode p) (Some (User._id p)) (Some (trim n))
                [] now
    /\ k = Kid.mk (next_oid db + 1)%N (trim n) a "from-blue-400 to-purple-500"
             [] (User._id p) now
    /\ db' = mkDb
               (update_first (fun u => (User._id u =? User._id p)%N)
                  (push_kid (User._id p) (Kid._id k)) (users db ++ [user]))
               (kids db ++ [k]) (next_oid db + 2)%N
    /\ token resp = Some tok
    /\ data resp
       = Some (Data.mk (next_oid db)
                 (trim (toLowerCase (str_of (Body.email body)))) "kid" now None
                 (Some (trim n)) (Some (User._id p)) (Some (next_oid db + 1)%N)
                 (Some a)).
Proof.
  intros Hs Hst Hk.
  destruct (signup_inv _ _ _ _ _ _ _ _ _ Hs)
    as [[_ Hn] | (_ & _ & _ & Hty & user & db1 & fc & par & nm & HU & Hcase)];
    [contradiction|].
  destruct Hcase as [(Hk' & _)
                    | (_ & Hrole & p & Hp & -> & -> & -> & Hkid)]; [congruence|].
  rewrite Hrole in HU. apply User_create_fields in HU as (Hu & -> & _).
  destruct Hkid as [(e & HK & ->) | (k & db2 & HK & -> & Htok)].
  { apply Kid_create_thrown in HK as ->. cbn in Hst. discriminate Hst. }
  apply Kid_create_fields in HK as (n & a & Hname & Hage & Hkd & -> & _).
  destruct (token_step_created _ _ _ _ _ _ Htok Hst) as (tok & _ & ->).
  cbn [next_oid users kids] in Hkd |- *.
  exists p, n, a, user, k, tok. rewrite Hname in Hu. cbn [option_map] in Hu.
  repeat split; try assumption.
  - destruct (Body.name body); try discriminate Hname. now injection Hname as ->.
  - destruct (Body.age body); try discriminate Hage. now injection Hage as ->.
  - replace (next_oid db + 2)%N with (next_oid db + 1 + 1)%N by lia.
    reflexivity.
  - subst user k. rewrite Hage. reflexivity.
Qed.

(** X3.  The gap in kid signup.  When signup answers 400 and the store is not what
    it was, the account has been stored and the profile has not: one user of
    role kid was appended, the kid collection is as before, and the message
    lists what the kid schema objected to.  The address is taken from then
    on: any later signup with the same address that gets through its first
    six checks is answered 409. *)
Theorem kid_signup_can_leave_an_account_behind
    (env : Env) (now : Z) (salt : string) (rnd : nat -> bytes3) (fuel : nat)
    (db : Db) (body : Body.t) (resp : Response) (db' : Db) :
  signup env now salt rnd fuel db body = Some (resp, db') ->
  status resp = 400%Z ->
  db' <> db ->
  (exists user p,
      findOne_familyCode (toUpperCase (str_of (Body.familyCode body))) db = Some p
      /\ User.role user = "kid"
      /\ User.email user = trim (toLowerCase (str_of (Body.email body)))
      /\ users db' = users db ++ [user]
      /\ kids db' = kids db
      /\ resp = fail 400
                  (join ", "
                     (validate_Kid (option_map trim (text_of (Body.name body)))
                        (num_of (Body.age body)) (Some (User._id p)))))
  /\ (forall env2 now2 salt2 rnd2 fuel2 body2,
        is_str (Body.email body2) = true ->
        trim (toLowerCase (str_of (Body.email body2)))
        = trim (toLowerCase (str_of (Body.email body))) ->
        (forall c, c <> SignupSpec.EmailNotRegistered ->
                   SignupSpec.passes db' body2 c = true) ->
        signup env2 now2 salt2 rnd2 fuel2 db' body2
        = Some (fail 409 "User with this email already exists", db')).
Proof.
  intros Hs Hst Hne.
  destruct (signup_inv _ _ _ _ _ _ _ _ _ Hs)
    as [[E _] | (Hfree & _ & _ & Hty & user & db1 & fc & par & nm & HU & Hcase)];
    [contradiction|].
  apply User_create_fields in HU as (Hu & Hdb1 & _).
  assert (Hkidcase :
            exists p e,
              findOne_familyCode (toUpperCase (str_of (Body.familyCode body))) db
              = Some p
              /\ SignupSpec.requested_role body = "kid"
              /\ Kid_create now db1 (text_of (Body.name body))
                   (num_of (Body.age body)) (Some (User._id p))
                 = (Thrown e, db')
              /\ resp = signup_catch e).
  { destruct Hcase as [(_ & _ & _ & _ & _ & _ & Htok)
                      | (_ & Hrole & p & Hp & _ & _ & _ & Hkid)].
    - exfalso. destruct Htok as [(tok & _ & ->) | (e & Hg & ->)];
        [discriminate Hst|].
      apply generateToken_thrown in Hg. unfold signup_catch in Hst.
      rewrite Hg in Hst. discriminate Hst.
    - destruct Hkid as [(e & HK & ->) | (k & db2 & _ & _ & Htok)];
        [now exists p, e|].
      exfalso. destruct Htok as [(tok & _ & ->) | (e & Hg & ->)];
        [discriminate Hst|].
      apply generateToken_thrown in Hg. unfold signup_catch in Hst.
      rewrite Hg in Hst. discriminate Hst. }
  destruct Hkidcase as (p & e & Hp & Hrole & HK & ->).
  assert (Hd := Kid_create_thrown_db _ _ _ _ _ _ _ HK). subst db'.
  apply Kid_create_thrown in HK as ->.
  assert (Husers : users db1 = users db ++ [user]) by now rewrite Hdb1.
  split.
  - exists user, p. repeat split; try assumption.
    + rewrite Hu, Hrole. reflexivity.
    + now rewrite Hu.
    + now rewrite Hdb1.
  - intros env2 now2 salt2 rnd2 fuel2 body2 Hse2 Hmail Hpass.
    unfold signup, signup_try.
    assert (Hs2 : is_str (Body.password body2) = true).
    { specialize (Hpass SignupSpec.PasswordLongEnough).
      cbn [SignupSpec.passes] in Hpass.
      destruct (Body.password body2); try (discriminate Hpass; discriminate);
        reflexivity. }
    rewrite (check_present body2 db1), (check_length body2 db1 Hs2),
      (check_role body2 db1), !check_kid_field.
    change (negb (SignupSpec.requested_role body2 =? "kid")
            || truthy_js (Body.familyCode body2))
      with (SignupSpec.passes db1 body2 SignupSpec.KidHasFamilyCode).
    change (negb (SignupSpec.requested_role body2 =? "kid")
            || truthy_js (Body.name body2))
      with (SignupSpec.passes db1 body2 SignupSpec.KidHasName).
    change (negb (SignupSpec.requested_role body2 =? "kid")
            || truthy_js (Body.age body2))
      with (SignupSpec.passes db1 body2 SignupSpec.KidHasAge).
    rewrite !Hpass by discriminate. cbn [negb]. rewrite Hse2. cbn [negb].
    assert (Hfound : exists u,
               findOne_email (trim (toLowerCase (str_of (Body.email body2)))) db1
               = Some u).
    { unfold findOne_email. rewrite Hmail, Husers.
      destruct (find _ (users db ++ [user])) eqn:Ef;
        [eexists; reflexivity|].
      exfalso.
      assert (Hin : In user (users db ++ [user]))
        by (apply in_or_app; right; now left).
      assert (Hf := find_none _ _ Ef user Hin).
      rewrite Hu in Hf. cbn [User.email] in Hf.
      rewrite String.eqb_refl in Hf. discriminate Hf. }
    destruct Hfound as [u ->]. reflexivity.
Qed.

(** What signup adds to the store. *)
Lemma signup_frame (env : Env) (now : Z) (salt : string) (rnd : nat -> bytes3)
    (fuel : nat) (db : Db) (body : Body.t) (resp : Response) (db' : Db) :
  signup env now salt rnd fuel db body = Some (resp, db') ->
  exists new_users new_kids,
    map account (users db') = map account (users db ++ new_users)
    /\ kids db' = kids db ++ new_kids
    /\ (new_users = []
        \/ exists user,
             new_users = [user]
             /\ User.email user = trim (toLowerCase (str_of (Body.email body)))
             /\ Regex.test emailPattern (User.email user) = true
             /\ ((User.role user = "parent"
                  /\ exists code, User.familyCode user = Some code
                                  /\ code_unused db code)
                 \/ User.role user = "kid"))
    /\ (new_kids = [] \/ exists k, new_kids = [k] /\ kid_valid k).
Proof.
  intros Hs.
  destruct (signup_inv _ _ _ _ _ _ _ _ _ Hs)
    as [[-> _] | (_ & _ & _ & Hty & user & db1 & fc & par & nm & HU & Hcase)].
  { exists [], []. rewrite !app_nil_r. auto. }
  apply User_create_fields in HU as (Hu & Hdb1 & Hre).
  assert (Hmail : User.email user = trim (toLowerCase (str_of (Body.email body))))
    by now rewrite Hu.
  destruct Hcase as [(_ & Hrole & (code & Hl & ->) & -> & -> & -> & _)
                    | (_ & Hrole & p & Hp & -> & -> & -> & Hkid)].
  - exists [user], []. rewrite Hdb1, app_nil_r. cbn [users kids].
    split; [reflexivity|]. split; [reflexivity|]. split; [|now left].
    right. exists user. rewrite Hmail.
    split; [reflexivity|]. split; [reflexivity|]. split; [exact Hre|].
    left. rewrite Hu, Hrole. split; [reflexivity|].
    exists code. split; [reflexivity|].
    now destruct (unique_code_loop_sound _ _ _ _ _ Hl).
  - assert (Hnew : exists u,
               [user] = [u]
               /\ User.email u = trim (toLowerCase (str_of (Body.email body)))
               /\ Regex.test emailPattern (User.email u) = true
               /\ ((User.role u = "parent"
                    /\ exists code, User.familyCode u = Some code
                                    /\ code_unused db code)
                   \/ User.role u = "kid")).
    { exists user. rewrite Hmail.
      split; [reflexivity|]. split; [reflexivity|]. split; [exact Hre|].
      right. now rewrite Hu, Hrole. }
    destruct Hkid as [(e & HK & _) | (k & db2 & HK & -> & _)].
    + apply Kid_create_thrown_db in HK as ->.
      exists [user], []. rewrite Hdb1, app_nil_r. cbn [users kids].
      split; [reflexivity|]. split; [reflexivity|]. split; [now right | now left].
    + apply Kid_create_fields in HK as (n & a & _ & _ & Hk & -> & Hv).
      exists [user], [k]. rewrite Hdb1.
      cbn [findByIdAndUpdate_push_kids users kids].
      rewrite update_first_accounts.
      split; [reflexivity|]. split; [reflexivity|]. split; [now right|].
      right. exists k. split; [reflexivity|].
      apply validate_Kid_bounds in Hv as [Hlen Hage].
      rewrite Hk. unfold kid_valid. cbn.
      repeat split; try lia; try apply trim_idem. discriminate.
Qed.

(** X4.  Signup touches nothing that was stored, except that it may push on a
    [kids] array: the accounts (every field but [kids]) of the users stored
    before are as they were and in place, at most one user and at most one
    kid profile are appended, and the kid profiles stored before are
    untouched. *)
Theorem signup_only_appends
    (env : Env) (now : Z) (salt : string) (rnd : nat -> bytes3) (fuel : nat)
    (db : Db) (body : Body.t) (resp : Response) (db' : Db) :
  signup env now salt rnd fuel db body = Some (resp, db') ->
  exists new_users new_kids,
    map account (users db') = map account (users db) ++ map account new_users
    /\ kids db' = kids db ++ new_kids
    /\ (List.length new_users <= 1)%nat /\ (List.length new_kids <= 1)%nat.
Proof.
  intros Hs.
  destruct (signup_frame _ _ _ _ _ _ _ _ _ Hs)
    as (nu & nk & Hu & Hk & Hnu & Hnk).
  exists nu, nk. rewrite <- map_app. repeat split; try assumption.
  - destruct Hnu as [-> | (u & -> & _)]; cbn; lia.
  - destruct Hnk as [-> | (k & -> & _)]; cbn; lia.
Qed.

(** X5.  No two users of role parent carry the same family code: signup keeps
    that, whatever it answers. *)
Theorem signup_keeps_parent_codes_distinct
    (env : Env) (now : Z) (salt : string) (rnd : nat -> bytes3) (fuel : nat)
    (db : Db) (body : Body.t) (resp : Response) (db' : Db) :
  NoDup (parent_codes (users db)) ->
  signup env now salt rnd fuel db body = Some (resp, db') ->
  NoDup (parent_codes (users db')).
Proof.
  intros Hnd Hs.
  destruct (signup_frame _ _ _ _ _ _ _ _ _ Hs)
    as (nu & nk & Hu & _ & Hnu & _).
  rewrite (parent_codes_accounts _ _ Hu).
  unfold parent_codes. rewrite flat_map_app. fold (parent_codes (users db)).
  destruct Hnu as [-> | (u & -> & _ & _ & Hrole)]; cbn [flat_map].
  - now rewrite app_nil_r.
  - destruct Hrole as [(Hr & code & Hc & Hun) | Hr]; rewrite Hr; cbn.
    + rewrite Hc. cbn. apply NoDup_app; [exact Hnd | repeat constructor; auto |].
      intros c Hin [<- | []]. now apply (parent_codes_unused db code).
    + now rewrite app_nil_r.
Qed.

(** X6.  Every stored address is in normal form and matches the schema's
    pattern: signup keeps that, whatever it answers. *)
Theorem signup_keeps_addresses_valid
    (env : Env) (now : Z) (salt : string) (rnd : nat -> bytes3) (fuel : nat)
    (db : Db) (body : Body.t) (resp : Response) (db' : Db) :
  addresses_valid db ->
  signup env now salt rnd fuel db body = Some (resp, db') ->
  addresses_valid db'.
Proof.
  intros Hv Hs u Hin.
  destruct (signup_frame _ _ _ _ _ _ _ _ _ Hs)
    as (nu & nk & Hu & _ & Hnu & _).
  apply (in_map account) in Hin. rewrite Hu in Hin.
  apply in_map_iff in Hin as (v & Hacc & Hv').
  assert (Hmail : User.email u = User.email v)
    by (apply (f_equal User.email) in Hacc; symmetry; exact Hacc).
  rewrite Hmail. apply in_app_or in Hv' as [Hold | Hnew]; [now apply Hv|].
  destruct Hnu as [-> | (w & -> & Hw & Hre & _)]; [destruct Hnew|].
  destruct Hnew as [<- | []]. split; [|exact Hre].
  rewrite Hw. apply normalize_idem.
Qed.

(** X7.  The bounds of the kid schema hold of every stored profile: signup keeps
    that, whatever it answers. *)
Theorem signup_keeps_kids_valid
    (env : Env) (now : Z) (salt : string) (rnd : nat -> bytes3) (fuel : nat)
    (db : Db) (body : Body.t) (resp : Response) (db' : Db) :
  (forall k, In k (kids db) -> kid_valid k) ->
  signup env now salt rnd fuel db body = Some (resp, db') ->
  forall k, In k (kids db') -> kid_valid k.
Proof.
  intros Hv Hs k Hin.
  destruct (signup_frame _ _ _ _ _ _ _ _ _ Hs)
    as (nu & nk & _ & Hk & _ & Hnk).
  rewrite Hk in Hin. apply in_app_or in Hin as [Hold | Hnew]; [now apply Hv|].
  destruct Hnk as [-> | (k0 & -> & Hk0)]; [destruct Hnew|].
  now destruct Hnew as [<- | []].
Qed.

End SignupMore.

(** ** The guard, the role check and the routes *)

Section GuardMore.
Context `{BcryptLib} `{JwtLib}.

Lemma jwt_verify_ok_truthy (t : string) (secret : option string) (now : Z)
    (c : Claims) :
  jwt_verify t secret now = Ok c -> truthy t = true.
Proof.
  unfold jwt_verify. destruct (truthy t); [reflexivity | discriminate].
Qed.

Lemma findById_stored (id : oid) (db : Db) (user : User.t) :
  findById id db = Some user ->
  exists stored,
    In stored (users db) /\ User._id stored = id
    /\ user = without_password stored.
Proof.
  unfold findById. destruct (find _ (users db)) as [s|] eqn:E; [|discriminate].
  intros [= <-]. apply find_some in E as [Hin Hid]. exists s.
  repeat split; [exact Hin | now apply N.eqb_eq].
Qed.

(** X9.  What the guard has established when it calls [next()]: the header is
    [Bearer ] followed by a non-empty token, the token verifies under the
    service's secret at that time, and the attached user is the stored user
    with the id of the token's claims, without its password digest. *)
Theorem auth_next_sound (env : Env) (now : Z) (db : Db)
    (h : option string) (user : User.t) (trace : list AuthEffect) :
  auth env now db h = (Next user, trace) ->
  exists t c stored,
    h = Some ("Bearer " ++ t)%string /\ t <> ""
    /\ jwt_verify t (JWT_SECRET env) now = Ok c
    /\ In stored (users db) /\ User._id stored = claim_id c
    /\ user = without_password stored /\ User.password user = None
    /\ trace = [JwtVerify t; UserFindById (claim_id c)].
Proof.
  destruct h as [s|]; [|discriminate]. unfold auth.
  destruct (truthy_opt (Some s)); [|discriminate]. cbn [negb val].
  destruct (startsWith "Bearer " s) eqn:Hp; [|discriminate]. cbn [negb].
  apply bearer_prefix_inv in Hp as [t ->]. rewrite bearer_substring.
  destruct (truthy t) eqn:Ht; [|discriminate]. cbn [negb].
  destruct (jwt_verify t (JWT_SECRET env) now) as [c|e] eqn:Hv.
  - destruct (findById (claim_id c) db) as [u|] eqn:Hf; [|discriminate].
    intros [= <- <-]. apply findById_stored in Hf as (stored & Hin & Hid & ->).
    exists t, c, stored. repeat split; try assumption.
    now apply truthy_true.
  - destruct (error_name e =? "JsonWebTokenError"); [discriminate|].
    destruct (error_name e =? "TokenExpiredError"); discriminate.
Qed.

(** X10.  What the guard never does: it hands to [jwt.verify] nothing but the
    non-empty rest of a [Bearer ] header, and it loads a user only by the id
    of claims that [jwt.verify] has returned for that token. *)
Theorem auth_effects_disciplined (env : Env) (now : Z) (db : Db)
    (h : option string) :
  (forall t, In (JwtVerify t) (snd (auth env now db h)) ->
             h = Some ("Bearer " ++ t)%string /\ t <> "")
  /\ (forall id, In (UserFindById id) (snd (auth env now db h)) ->
                 exists t c, h = Some ("Bearer " ++ t)%string
                             /\ jwt_verify t (JWT_SECRET env) now = Ok c
                             /\ claim_id c = id).
Proof.
  destruct h as [s|]; [|split; intros ? []]. unfold auth.
  destruct (truthy_opt (Some s)); [|split; intros ? []]. cbn [negb val].
  destruct (startsWith "Bearer " s) eqn:Hp; [|split; intros ? []]. cbn [negb].
  apply bearer_prefix_inv in Hp as [t ->]. rewrite bearer_substring.
  destruct (truthy t) eqn:Ht; [|split; intros ? []]. cbn [negb].
  apply truthy_true in Ht.
  destruct (jwt_verify t (JWT_SECRET env) now) as [c|e] eqn:Hv.
  - destruct (findById (claim_id c) db); cbn [snd]; split.
    + intros t' [[= <-] | [[=] | []]]. now split.
    + intros id [[=] | [[= <-] | []]]. now exists t, c.
    + intros t' [[= <-] | [[=] | []]]. now split.
    + intros id [[=] | [[= <-] | []]]. now exists t, c.
  - destruct (error_name e =? "JsonWebTokenError");
      [|destruct (error_name e =? "TokenExpiredError")]; cbn [snd]; split;
      try (intros t' [[= <-] | []]; now split);
      intros id [[=] | []].
Qed.

(** X11.  A token that still verifies but names no stored user is refused with
    401 [User not found]. *)
Theorem auth_unknown_user (env : Env) (now : Z) (db : Db) (t : string)
    (c : Claims) :
  jwt_verify t (JWT_SECRET env) now = Ok c ->
  (forall u, In u (users db) -> User._id u <> claim_id c) ->
  auth env now db (Some ("Bearer " ++ t)%string)
  = (Rejected (fail 401 "User not found"),
     [JwtVerify t; UserFindById (claim_id c)]).
Proof.
  intros Hv Hnone. rewrite auth_bearer by exact (jwt_verify_ok_truthy _ _ _ _ Hv).
  rewrite Hv. unfold findById. rewrite find_all_false; [reflexivity|].
  intros u Hu. apply N.eqb_neq. now apply Hnone.
Qed.

(** ** Login, and what follows a signup *)


(** X12.  A login answered 200 found a stored user under the normalised address
    whose digest verifies the password; the response carries that user's id,
    address, role and creation time, and its token verifies, until it
    expires, to that id and role. *)
Theorem login_success (env : Env) (now now' : Z) (db : Db) (body : Body.t) :
  status (login env now db body) = 200%Z ->
  (forall ttl, JWT_EXPIRE env = Some ttl -> (seconds now' < seconds now + ttl)%Z) ->
  exists user digest tok c,
    findOne_email_with_password
      (trim (toLowerCase (str_of (Body.email body)))) db = Some user
    /\ User.password user = Some digest
    /\ bcrypt_compare (str_of (Body.password body)) digest = true
    /\ token (login env now db body) = Some tok
    /\ data (login env now db body)
       = Some (Data.mk (User._id user) (User.email user) (User.role user)
                 (User.createdAt user) None None None None None)
    /\ jwt_verify tok (JWT_SECRET env) now' = Ok c
    /\ claim_id c = User._id user /\ claim_role c = User.role user.
Proof.
  unfold login, login_try. intros Hst Hlive.
  destruct (negb (truthy_js (Body.email body))
            || negb (truthy_js (Body.password body))); [discriminate Hst|].
  destruct (negb (is_str (Body.email body))); [discriminate Hst|].
  destruct (findOne_email_with_password _ db) as [user|] eqn:Hf;
    [|discriminate Hst].
  unfold comparePassword in *.
  destruct (Body.password body) as [| | | |pw| |]; try discriminate Hst.
  destruct (User.password user) as [digest|] eqn:Hpw; [|discriminate Hst].
  cbn [str_of].
  destruct (bcrypt_compare _ digest) eqn:Hc; [|discriminate Hst].
  cbn [negb] in *.
  destruct (generateToken _ _ _ _) as [tok|e] eqn:Hg; [|discriminate Hst].
  destruct (generateToken_verify _ _ now' _ _ _ Hg Hlive) as (c & Hv & Hi & Hr).
  exists user, digest, tok, c. repeat split; try assumption; reflexivity.
Qed.

Lemma find_app_none {A} (p : A -> bool) (l : list A) (x : A) :
  find p l = None -> p x = true -> find p (l ++ [x]) = Some x.
Proof.
  induction l as [|a l IH]; cbn; intros Hn Hx; [now rewrite Hx|].
  destruct (p a); [discriminate Hn | now apply IH].
Qed.

Lemma find_update_first_account (p q : User.t -> bool) (f : User.t -> User.t)
    (l : list User.t) :
  (forall x, account (f x) = account x) ->
  (forall x y, account x = account y -> p x = p y) ->
  option_map account (find p (update_first q f l))
  = option_map account (find p l).
Proof.
  intros Hf Hp. induction l as [|a l IH]; cbn; [reflexivity|].
  destruct (q a); cbn.
  - rewrite (Hp (f a) a (Hf a)). destruct (p a); cbn; [now rewrite Hf|].
    reflexivity.
  - destruct (p a); cbn; [reflexivity | exact IH].
Qed.

Lemma find_accounts (p : User.t -> bool) (l l' : list User.t) :
  map account l = map account l' ->
  (forall x y, account x = account y -> p x = p y) ->
  option_map account (find p l) = option_map account (find p l').
Proof.
  intros Hm Hp. revert l' Hm.
  induction l as [|a l IH]; intros [|a' l']; cbn [map find];
    try discriminate; [reflexivity|].
  intros Hm.
  pose proof (f_equal (hd (account a)) Hm) as Ha'.
  pose proof (f_equal (@tl _) Hm) as Hl. cbn [hd tl] in Ha', Hl.
  rewrite (Hp a a' Ha').
  destruct (p a'); cbn [option_map]; [now rewrite Ha' | now apply IH].
Qed.

(** The facts about a signup answered 201 that what follows relies on. *)
Lemma signup_201_cases (env : Env) (now : Z) (salt : string)
    (rnd : nat -> bytes3) (fuel : nat) (db : Db) (body : Body.t)
    (resp : Response) (db' : Db) :
  signup env now salt rnd fuel db body = Some (resp, db') ->
  status resp = 201%Z ->
  truthy_js (Body.email body) = true
  /\ truthy_js (Body.password body) = true
  /\ is_str (Body.email body) = true
  /\ is_str (Body.password body) = true
  /\ findOne_email (trim (toLowerCase (str_of (Body.email body)))) db = None
  /\ exists user tok kd,
       generateToken env now (User._id user) (User.role user) = Ok tok
       /\ resp = created_response user kd (num_of (Body.age body)) tok
       /\ account user
          = User.mk (next_oid db) (trim (toLowerCase (str_of (Body.email body))))
              (Some (bcrypt_hash (str_of (Body.password body)) salt))
              (User.role user) (User.familyCode user) (User.parent user)
              (User.name user) [] now
       /\ map account (users db') = map account (users db ++ [user])
       /\ ((User.role user = "parent" /\ users db' = users db ++ [user]
            /\ User.kids user = [])
           \/ User.role user = "kid").
Proof.
  intros Hs Hst.
  destruct (signup_inv _ _ _ _ _ _ _ _ _ Hs)
    as [[_ Hn]
       | (Hfree & Hcred & Hse & Hty & user & db1 & fc & par & nm & HU & Hcase)];
    [contradiction|].
  apply orb_false_iff in Hcred as [He Hp].
  apply negb_false_iff in He, Hp.
  split; [exact He|]. split; [exact Hp|]. split; [exact Hse|].
  split; [now apply andb_true_iff in Hty as [Hty _]|].
  split; [exact Hfree|].
  apply User_create_fields in HU as (Hu & Hdb1 & _).
  destruct Hcase as [(_ & Hrole & _ & _ & _ & -> & Htok)
                    | (_ & Hrole & p & _ & _ & _ & _ & Hkid)].
  - destruct (token_step_created _ _ _ _ _ _ Htok Hst) as (tok & Hg & ->).
    exists user, tok, None. rewrite Hdb1. cbn [users].
    split; [exact Hg|]. split; [reflexivity|].
    split; [now rewrite Hu|]. split; [reflexivity|].
    left. rewrite Hu, Hrole. now cbn.
  - destruct Hkid as [(e & HK & ->) | (k & db2 & HK & -> & Htok)].
    { apply Kid_create_thrown in HK as ->. cbn in Hst. discriminate Hst. }
    destruct (token_step_created _ _ _ _ _ _ Htok Hst) as (tok & Hg & ->).
    apply Kid_create_users in HK.
    exists user, tok, (Some k).
    split; [exact Hg|]. split; [reflexivity|].
    split; [now rewrite Hu|].
    split; [|right; now rewrite Hu, Hrole].
    cbn [findByIdAndUpdate_push_kids users].
    now rewrite update_first_accounts, HK, Hdb1.
Qed.


(** X14.  After a signup answered 201 on a store where the next id is free, the
    token of the response, presented to [GET /api/auth/me] before it expires,
    is answered 200 with the id, address, role and creation time of the
    signup response, and with the role's own fields: a parent sees its family
    code and an empty list of kids, a kid its name and its parent. *)
Theorem signup_then_me
    (env : Env) (now now' : Z) (salt : string) (rnd : nat -> bytes3)
    (fuel : nat) (db : Db) (body : Body.t) (resp : Response) (db' : Db) :
  signup env now salt rnd fuel db body = Some (resp, db') ->
  status resp = 201%Z ->
  (forall u, In u (users db) -> User._id u <> next_oid db) ->
  (forall ttl, JWT_EXPIRE env = Some ttl -> (seconds now' < seconds now + ttl)%Z) ->
  exists d tok,
    data resp = Some d /\ token resp = Some tok
    /\ me_route env now' db' (Some ("Bearer " ++ tok)%string)
       = MeFound 200
           (Me.mk (Data.id d) (Data.email d) (Data.role d) (Data.createdAt d)
              (only_if (Data.role d =? "parent") (Data.familyCode d))
              (only_if (Data.role d =? "parent") [])
              (only_if (Data.role d =? "kid") (Data.name d))
              (only_if (Data.role d =? "kid") (Data.parentId d))).
Proof.
  intros Hs Hst Hfresh Hlive.
  destruct (signup_201_cases _ _ _ _ _ _ _ _ _ Hs Hst)
    as (_ & _ & _ & _ & _ & user & tok & kd & Hg & -> & Hacc & Hmap & Hrole).
  destruct (generateToken_verify _ _ now' _ _ _ Hg Hlive) as (c & Hv & Hci & _).
  assert (Hid : User._id user = next_oid db)
    by (apply (f_equal User._id) in Hacc; exact Hacc).
  assert (Hfind : option_map account
                    (find (fun u => (User._id u =? User._id user)%N) (users db'))
                  = Some (account user)).
  { rewrite (find_accounts _ _ _ Hmap).
    - rewrite (find_app_none _ _ user); [reflexivity | | apply N.eqb_refl].
      apply find_all_false. intros u Hu. apply N.eqb_neq. rewrite Hid.
      now apply Hfresh.
    - intros x y Hxy. apply (f_equal User._id) in Hxy. cbn in Hxy.
      now rewrite Hxy. }
  destruct (find _ (users db')) as [u|] eqn:Hf; [|discriminate Hfind].
  assert (Hu : account u = account user)
    by (cbn [option_map] in Hfind; congruence).
  assert (Hkids : User.role user = "parent" -> User.kids u = []).
  { intros Hr. destruct Hrole as [(_ & Husers & Hk) | Hkid]; [|congruence].
    rewrite Husers in Hf. rewrite find_app_none in Hf.
    - injection Hf as <-. exact Hk.
    - apply find_all_false. intros v Hv'. apply N.eqb_neq. rewrite Hid.
      now apply Hfresh.
    - apply N.eqb_refl. }
  eexists. exists tok. split; [reflexivity|]. split; [reflexivity|].
  unfold me_route.
  rewrite auth_bearer by exact (jwt_verify_ok_truthy _ _ _ _ Hv).
  rewrite Hv, Hci. unfold findById at 1. rewrite Hf. cbn [option_map fst].
  unfold getCurrentUser, findById. cbn [without_password User._id].
  assert (Hidu : User._id u = User._id user)
    by (apply (f_equal User._id) in Hu; exact Hu).
  rewrite Hidu, Hf. cbn [option_map without_password User._id User.email
    User.role User.createdAt User.familyCode User.kids User.name User.parent
    created_response data Data.id Data.email Data.role Data.createdAt
    Data.familyCode Data.name Data.parentId].
  assert (Hem : User.email u = User.email user)
    by (apply (f_equal User.email) in Hu; exact Hu).
  assert (Hro : User.role u = User.role user)
    by (apply (f_equal User.role) in Hu; exact Hu).
  assert (Hcr : User.createdAt u = User.createdAt user)
    by (apply (f_equal User.createdAt) in Hu; exact Hu).
  assert (Hfc : User.familyCode u = User.familyCode user)
    by (apply (f_equal User.familyCode) in Hu; exact Hu).
  assert (Hna : User.name u = User.name user)
    by (apply (f_equal User.name) in Hu; exact Hu).
  assert (Hpa : User.parent u = User.parent user)
    by (apply (f_equal User.parent) in Hu; exact Hu).
  rewrite ?Hidu, Hem, Hro, Hcr, Hfc, Hna, Hpa.
  destruct Hrole as [(Hr & _ & _) | Hr].
  - rewrite (Hkids Hr), Hr. reflexivity.
  - rewrite Hr. reflexivity.
Qed.

End GuardMore.

(** ** The kid controller *)

Lemma Kid_validation_unfold (k : Kid.t) :
  flat_map (fun p => validate_Kid_path p k) kid_schema_paths
  = (if Kid.name k =? "" then ["Kid name is required"]
     else if (String.length (Kid.name k) <? 2)%nat
          then ["Name must be at least 2 characters long"]
     else if (50 <? String.length (Kid.name k))%nat
          then ["Name cannot exceed 50 characters"]
     else [])
    ++ (if (Kid.age k <? 1)%Z then ["Age must be at least 1"]
        else if (18 <? Kid.age k)%Z then ["Age cannot exceed 18"]
        else [])
    ++ (if Kid.avatarColor k =? "" then ["Avatar color is required"] else [])
    ++ (if (List.length (Kid.interests k) <=? 10)%nat then []
        else ["Cannot have more than 10 interests"])
    ++ [].
Proof. reflexivity. Qed.

Lemma kid_validation_bounds (k : Kid.t) :
  flat_map (fun p => validate_Kid_path p k) kid_schema_paths = [] ->
  (2 <= String.length (Kid.name k) <= 50)%nat
  /\ (1 <= Kid.age k <= 18)%Z
  /\ Kid.avatarColor k <> ""
  /\ (List.length (Kid.interests k) <= 10)%nat.
Proof.
  rewrite Kid_validation_unfold.
  destruct (Kid.name k =? "") eqn:E1; [discriminate|].
  destruct (String.length (Kid.name k) <? 2)%nat eqn:E2; [discriminate|].
  destruct (50 <? String.length (Kid.name k))%nat eqn:E3; [discriminate|].
  destruct (Kid.age k <? 1)%Z eqn:E4; [discriminate|].
  destruct (18 <? Kid.age k)%Z eqn:E5; [discriminate|].
  destruct (Kid.avatarColor k =? "") eqn:E6; [discriminate|].
  destruct (List.length (Kid.interests k) <=? 10)%nat eqn:E7; [|discriminate].
  intros _.
  apply Nat.ltb_ge in E2, E3. apply Z.ltb_ge in E4, E5.
  apply Nat.leb_le in E7. apply String.eqb_neq in E6.
  repeat split; try lia; assumption.
Qed.

Lemma Kid_create_full_inv (now : Z) (db : Db) (n : string) (a : Z)
    (c : string) (i : list string) (p : oid) (r : Result Kid.t) (db1 : Db) :
  Kid_create_full now db n a c i p = (r, db1) ->
  let k := Kid.mk (next_oid db) (trim n) a (trim c) i p now in
  (exists msgs, r = Thrown (ValidationError msgs) /\ db1 = db)
  \/ (r = Ok k
      /\ db1 = mkDb (users db) (kids db ++ [k]) (next_oid db + 1)%N
      /\ kid_valid k).
Proof.
  intros Hc k. unfold Kid_create_full in Hc. fold k in Hc.
  destruct (flat_map _ kid_schema_paths) as [|m ms] eqn:Hv.
  - injection Hc as <- <-. right. split; [reflexivity|]. split; [reflexivity|].
    apply kid_validation_bounds in Hv as (Hn & Ha & Hc & Hi).
    unfold kid_valid. repeat split; try tauto. apply trim_idem.
  - injection Hc as <- <-. left. now exists (m :: ms).
Qed.

(** What [addKid] does, case by case. *)
Lemma addKid_inv (now : Z) (db : Db) (u : User.t)
    (body : KidBody.t) (r : KidResponse) (db' : Db) :
  addKid now db u body = (r, db') ->
  (kid_status r = 400%Z /\ kid_success r = false /\ kid_payload r = NoData
   /\ db' = db)
  \/ exists n a tags,
       KidBody.name body = Some n /\ KidBody.age body = Some a
       /\ KidBody.interests body = InterestsArray tags /\ tags <> []
       /\ let k :=
            Kid.mk (next_oid db) (trim n) a
              (trim (if truthy_opt (KidBody.avatarColor body)
                     then val (KidBody.avatarColor body)
                     else "from-blue-400 to-purple-500"))
              tags (User._id u) now in
          r = mkKidResponse 201 true (Some "Kid added successfully") (OneKid k)
          /\ kid_valid k
          /\ kids db' = kids db ++ [k]
          /\ users db'
             = update_first (fun v => (User._id v =? User._id u)%N)
                 (push_kid (User._id u) (next_oid db)) (users db)
          /\ next_oid db' = (next_oid db + 1)%N.
Proof.
  unfold addKid. intros Ha.
  destruct (negb (truthy_opt (KidBody.name body))
            || negb (truthy_num (KidBody.age body))
            || negb (truthy_interests (KidBody.interests body))) eqn:Hreq.
  { injection Ha as <- <-. left. now cbn. }
  destruct (not_a_filled_array (KidBody.interests body)) eqn:Harr.
  { injection Ha as <- <-. left. now cbn. }
  apply orb_false_iff in Hreq as [Hreq _].
  apply orb_false_iff in Hreq as [Hn Hage].
  apply negb_false_iff in Hn, Hage.
  destruct (KidBody.name body) as [n|] eqn:En; [|discriminate Hn].
  destruct (KidBody.age body) as [a|] eqn:Ea; [|discriminate Hage].
  destruct (KidBody.interests body) as [| t | tags] eqn:Ei;
    try discriminate Harr.
  cbn [val num tags_of] in Ha.
  destruct (Kid_create_full _ _ _ _ _ _ _) as [res db1] eqn:Hc.
  apply Kid_create_full_inv in Hc
    as [(msgs & -> & ->) | (-> & -> & Hvalid)].
  - injection Ha as <- <-. left. now cbn.
  - injection Ha as <- <-. right. exists n, a, tags.
    split; [reflexivity|]. split; [reflexivity|]. split; [reflexivity|].
    split; [intros ->; discriminate Harr|].
    cbn zeta. split; [reflexivity|]. split; [exact Hvalid|].
    now cbn.
Qed.

(** X18.  [addKid] answers 201 or 400, never 500.  On 201 the profile sent
    back holds the trimmed name, the age, the avatar colour (the default when
    none was sent) and the interests of the body, belongs to the caller,
    satisfies the bounds of the schema, and is the one profile appended to the
    store; its id is pushed on the caller's [kids] array.  On 400 the store is
    as it was. *)
Theorem addKid_postcondition (now : Z) (db : Db) (u : User.t)
    (body : KidBody.t) (r : KidResponse) (db' : Db) :
  addKid now db u body = (r, db') ->
  (kid_status r = 201%Z \/ kid_status r = 400%Z)
  /\ (kid_status r = 400%Z ->
      kid_success r = false /\ kid_payload r = NoData /\ db' = db)
  /\ (kid_status r = 201%Z ->
      exists n a tags,
        KidBody.name body = Some n /\ KidBody.age body = Some a
        /\ KidBody.interests body = InterestsArray tags /\ tags <> []
        /\ let k :=
             Kid.mk (next_oid db) (trim n) a
               (trim (if truthy_opt (KidBody.avatarColor body)
                      then val (KidBody.avatarColor body)
                      else "from-blue-400 to-purple-500"))
               tags (User._id u) now in
           r = mkKidResponse 201 true (Some "Kid added successfully")
                 (OneKid k)
           /\ kid_valid k
           /\ kids db' = kids db ++ [k]
           /\ users db'
              = update_first (fun v => (User._id v =? User._id u)%N)
                  (push_kid (User._id u) (next_oid db)) (users db)
           /\ next_oid db' = (next_oid db + 1)%N).
Proof.
  intros Ha.
  destruct (addKid_inv _ _ _ _ _ _ Ha)
    as [(H4 & Hs & Hp & Hd) | (n & a & tags & Hn & Hage & Hi & Ht & Hk)].
  - split; [now right|]. split; [now intros _|].
    intros H1. rewrite H4 in H1. discriminate H1.
  - cbn zeta in Hk. destruct Hk as (Hr & Hv & Hks & Hus & Hnx).
    split; [left; now rewrite Hr|].
    split; [intros H4; rewrite Hr in H4; discriminate H4|].
    intros _. exists n, a, tags. cbn zeta.
    repeat (split; [assumption|]). assumption.
Qed.

Lemma filter_app_last {A} (p : A -> bool) (l : list A) (x : A) :
  filter p (l ++ [x]) = filter p l ++ (if p x then [x] else []).
Proof. rewrite filter_app. reflexivity. Qed.

Lemma insert_newest_first_perm (k : Kid.t) (l : list Kid.t) :
  Permutation (k :: l) (insert_newest_first k l).
Proof.
  induction l as [|x r IH]; cbn; [reflexivity|].
  destruct (Kid.createdAt x <=? Kid.createdAt k)%Z; [reflexivity|].
  rewrite perm_swap. now constructor.
Qed.

Lemma sort_newest_first_perm (l : list Kid.t) :
  Permutation l (sort_newest_first l).
Proof.
  induction l as [|x r IH]; cbn; [constructor|].
  rewrite <- insert_newest_first_perm. now constructor.
Qed.

Lemma insert_newest_first_sorted (k : Kid.t) (l : list Kid.t) :
  newest_first l -> newest_first (insert_newest_first k l).
Proof.
  unfold newest_first. induction l as [|x r IH]; cbn; intros Hs.
  - repeat constructor.
  - apply StronglySorted_inv in Hs as [Hr Hx].
    destruct (Kid.createdAt x <=? Kid.createdAt k)%Z eqn:E.
    + apply Z.leb_le in E. constructor.
      * now constructor.
      * constructor; [exact E|].
        rewrite Forall_forall in *. intros y Hy. specialize (Hx y Hy). lia.
    + apply Z.leb_gt in E. constructor; [now apply IH|].
      rewrite Forall_forall in *. intros y Hy.
      apply (Permutation_in _ (Permutation_sym (insert_newest_first_perm k r)))
        in Hy as [<- | Hy]; [lia | now apply Hx].
Qed.

Lemma sort_newest_first_sorted (l : list Kid.t) :
  newest_first (sort_newest_first l).
Proof.
  induction l as [|x r IH]; cbn; [constructor|].
  now apply insert_newest_first_sorted.
Qed.

(** X20.  [getKids] answers 200 with exactly the stored profiles of the caller,
    each as often as it is stored, newest first, and [count] is their
    number. *)
Theorem getKids_own_newest_first (db : Db) (u : User.t) :
  exists ks,
    getKids db u = mkKidResponse 200 true None (KidList (List.length ks) ks)
    /\ Permutation ks
         (filter (fun k => (Kid.parent k =? User._id u)%N) (kids db))
    /\ newest_first ks
    /\ (forall k, In k ks <-> In k (kids db) /\ Kid.parent k = User._id u).
Proof.
  exists (Kid_find_sorted (User._id u) db). split; [reflexivity|].
  assert (Hp := sort_newest_first_perm
                  (filter (fun k => (Kid.parent k =? User._id u)%N) (kids db))).
  split; [symmetry; exact Hp|]. split; [apply sort_newest_first_sorted|].
  intros k. unfold Kid_find_sorted. split.
  - intros Hin. apply (Permutation_in _ (Permutation_sym Hp)) in Hin.
    apply filter_In in Hin as [Hin Hpar]. split; [exact Hin|].
    now apply N.eqb_eq.
  - intros [Hin Hpar]. apply (Permutation_in _ Hp).
    apply filter_In. split; [exact Hin | now apply N.eqb_eq].
Qed.

Lemma sort_newest_first_length (l : list Kid.t) :
  List.length (sort_newest_first l) = List.length l.
Proof. symmetry. apply Permutation_length, sort_newest_first_perm. Qed.

(** X19.  After [addKid] has answered 201 on a store where the next id is free,
    the caller reads the new profile back by its id, finds it in its list,
    and the list is one longer than before. *)
Theorem addKid_then_read (now : Z) (db : Db) (u : User.t) (body : KidBody.t)
    (r : KidResponse) (db' : Db) :
  addKid now db u body = (r, db') ->
  kid_status r = 201%Z ->
  (forall k, In k (kids db) -> Kid._id k <> next_oid db) ->
  exists k,
    kid_payload r = OneKid k
    /\ getKid db' u (WellFormed (Kid._id k))
       = mkKidResponse 200 true None (OneKid k)
    /\ In k (payload_kids (kid_payload (getKids db' u)))
    /\ List.length (payload_kids (kid_payload (getKids db' u)))
       = S (List.length (payload_kids (kid_payload (getKids db u)))).
Proof.
  intros Ha Hst Hfresh.
  destruct (addKid_inv _ _ _ _ _ _ Ha)
    as [(H4 & _) | (n & a & tags & _ & _ & _ & _ & Hk)];
    [rewrite H4 in Hst; discriminate Hst|].
  cbn zeta in Hk. destruct Hk as (-> & _ & Hkids & _ & _).
  eexists. split; [reflexivity|].
  unfold getKid, Kid_findOne, getKids, Kid_find_sorted.
  cbn [Kid._id kid_payload payload_kids]. rewrite Hkids.
  split; [|split].
  - rewrite find_app_none; [reflexivity | |].
    + apply find_all_false. intros k Hin. unfold owned_by.
      apply andb_false_iff. left. apply N.eqb_neq. now apply Hfresh.
    + unfold owned_by. cbn. now rewrite !N.eqb_refl.
  - apply (Permutation_in _ (sort_newest_first_perm _)).
    apply filter_In. split; [apply in_or_app; right; now left|].
    cbn. apply N.eqb_refl.
  - rewrite !sort_newest_first_length, filter_app_last. cbn [Kid.parent].
    rewrite N.eqb_refl, length_app. cbn. lia.
Qed.

(** *** Editing a stored profile *)

Lemma kid_mark_inv (path : string) (c : bool) (d : KidDocument) (k : Kid.t) :
  (c = false /\ kid_mark path c d k = d)
  \/ (c = true /\ kid_fields (kid_mark path c d k) = k
      /\ In path (kid_modified (kid_mark path c d k))
      /\ (forall q, In q (kid_modified d) ->
                    In q (kid_modified (kid_mark path c d k)))).
Proof.
  destruct c; [right | left; now split]. cbn.
  split; [reflexivity|]. split; [reflexivity|].
  destruct (existsb (String.eqb path) (kid_modified d)) eqn:E.
  - split; [|auto]. apply existsb_exists in E as (q & Hq & Heq).
    apply String.eqb_eq in Heq. now subst.
  - split; [apply in_or_app; right; now left|].
    intros q Hq. apply in_or_app. now left.
Qed.

Ltac kid_doc_path :=
  match goal with
  | Hin : In ?p ?m |- _ \/ In ?p ?m => right; exact Hin
  | H : ?a = ?b \/ _, Hmono : forall q, In q _ -> In q ?m |- ?a = ?b \/ In _ ?m =>
      destruct H as [H | H]; [left; exact H | right; apply Hmono; exact H]
  end.

Lemma kid_set_name_inv (found : Kid.t) (v : string) (d : KidDocument) :
  kid_doc_inv found d ->
  kid_doc_inv found (kid_set_name v d)
  /\ Kid.name (kid_fields (kid_set_name v d)) = trim v
  /\ Kid.age (kid_fields (kid_set_name v d)) = Kid.age (kid_fields d)
  /\ Kid.avatarColor (kid_fields (kid_set_name v d))
     = Kid.avatarColor (kid_fields d)
  /\ Kid.interests (kid_fields (kid_set_name v d))
     = Kid.interests (kid_fields d).
Proof.
  intros (Hf & Hn & Ha & Hc & Hi). unfold kid_set_name.
  destruct (kid_mark_inv "name" (negb (Kid.name (kid_fields d) =? trim v)) d
              (kid_with_name (trim v) (kid_fields d)))
    as [[Hc0 Hd] | (_ & Hk & Hin & Hmono)].
  - apply negb_false_iff, String.eqb_eq in Hc0.
    rewrite Hd. repeat split; try assumption; reflexivity.
  - unfold kid_doc_inv. rewrite !Hk. cbn.
    repeat split; try assumption; try reflexivity; kid_doc_path.
Qed.

Lemma kid_set_age_inv (found : Kid.t) (v : Z) (d : KidDocument) :
  kid_doc_inv found d ->
  kid_doc_inv found (kid_set_age v d)
  /\ Kid.name (kid_fields (kid_set_age v d)) = Kid.name (kid_fields d)
  /\ Kid.age (kid_fields (kid_set_age v d)) = v
  /\ Kid.avatarColor (kid_fields (kid_set_age v d))
     = Kid.avatarColor (kid_fields d)
  /\ Kid.interests (kid_fields (kid_set_age v d))
     = Kid.interests (kid_fields d).
Proof.
  intros (Hf & Hn & Ha & Hc & Hi). unfold kid_set_age.
  destruct (kid_mark_inv "age" (negb (Kid.age (kid_fields d) =? v)%Z) d
              (kid_with_age v (kid_fields d)))
    as [[Hc0 Hd] | (_ & Hk & Hin & Hmono)].
  - apply negb_false_iff, Z.eqb_eq in Hc0.
    rewrite Hd. repeat split; try assumption; reflexivity.
  - unfold kid_doc_inv. rewrite !Hk. cbn.
    repeat split; try assumption; try reflexivity; kid_doc_path.
Qed.

Lemma kid_set_avatarColor_inv (found : Kid.t) (v : string) (d : KidDocument) :
  kid_doc_inv found d ->
  kid_doc_inv found (kid_set_avatarColor v d)
  /\ Kid.name (kid_fields (kid_set_avatarColor v d)) = Kid.name (kid_fields d)
  /\ Kid.age (kid_fields (kid_set_avatarColor v d)) = Kid.age (kid_fields d)
  /\ Kid.avatarColor (kid_fields (kid_set_avatarColor v d)) = trim v
  /\ Kid.interests (kid_fields (kid_set_avatarColor v d))
     = Kid.interests (kid_fields d).
Proof.
  intros (Hf & Hn & Ha & Hc & Hi). unfold kid_set_avatarColor.
  destruct (kid_mark_inv "avatarColor"
              (negb (Kid.avatarColor (kid_fields d) =? trim v)) d
              (kid_with_avatarColor (trim v) (kid_fields d)))
    as [[Hc0 Hd] | (_ & Hk & Hin & Hmono)].
  - apply negb_false_iff, String.eqb_eq in Hc0.
    rewrite Hd. repeat split; try assumption; reflexivity.
  - unfold kid_doc_inv. rewrite !Hk. cbn.
    repeat split; try assumption; try reflexivity; kid_doc_path.
Qed.

Lemma kid_set_interests_inv (found : Kid.t) (v : list string)
    (d : KidDocument) :
  kid_doc_inv found d ->
  kid_doc_inv found (kid_set_interests v d)
  /\ Kid.name (kid_fields (kid_set_interests v d)) = Kid.name (kid_fields d)
  /\ Kid.age (kid_fields (kid_set_interests v d)) = Kid.age (kid_fields d)
  /\ Kid.avatarColor (kid_fields (kid_set_interests v d))
     = Kid.avatarColor (kid_fields d)
  /\ Kid.interests (kid_fields (kid_set_interests v d)) = v.
Proof.
  intros (Hf & Hn & Ha & Hc & Hi). unfold kid_set_interests.
  destruct (kid_mark_inv "interests"
              (negb (if list_eq_dec string_dec (Kid.interests (kid_fields d)) v
                     then true else false)) d
              (kid_with_interests v (kid_fields d)))
    as [[Hc0 Hd] | (_ & Hk & Hin & Hmono)].
  - apply negb_false_iff in Hc0.
    destruct (list_eq_dec string_dec _ v) as [E|]; [|discriminate Hc0].
    rewrite Hd. repeat split; try assumption; reflexivity.
  - unfold kid_doc_inv. rewrite !Hk. cbn.
    repeat split; try assumption; try reflexivity; kid_doc_path.
Qed.

Lemma kid_ext (k k' : Kid.t) :
  kid_frame k = kid_frame k' -> Kid.name k = Kid.name k' ->
  Kid.age k = Kid.age k' -> Kid.avatarColor k = Kid.avatarColor k' ->
  Kid.interests k = Kid.interests k' -> k = k'.
Proof.
  destruct k, k'. unfold kid_frame. cbn. intros [= -> -> ->] -> -> -> ->.
  reflexivity.
Qed.

(** The document handed to [kid.save()] holds the profile the body asks
    for. *)
Lemma kid_edit_spec (found : Kid.t) (body : KidBody.t) :
  kid_fields (kid_edit found body) = kid_edited found body
  /\ kid_doc_inv found (kid_edit found body).
Proof.
  unfold kid_edit, kid_edited.
  set (d0 := mkKidDoc found []).
  assert (H0 : kid_doc_inv found d0)
    by (unfold kid_doc_inv; cbn; repeat split; now left).
  set (d1 := set_if_defined (KidBody.name body) kid_set_name d0).
  assert (H1 : kid_doc_inv found d1
               /\ Kid.name (kid_fields d1)
                  = match KidBody.name body with
                    | Some n => trim n
                    | None => Kid.name found
                    end
               /\ Kid.age (kid_fields d1) = Kid.age found
               /\ Kid.avatarColor (kid_fields d1) = Kid.avatarColor found
               /\ Kid.interests (kid_fields d1) = Kid.interests found).
  { unfold d1, set_if_defined. destruct (KidBody.name body) as [n|].
    - destruct (kid_set_name_inv found n d0 H0) as (Hv & ? & ? & ? & ?).
      split; [exact Hv|]. repeat split; assumption.
    - split; [exact H0|]. repeat split; reflexivity. }
  destruct H1 as (H1 & N1 & A1 & C1 & I1).
  set (d2 := set_if_defined (KidBody.age body) kid_set_age d1).
  assert (H2 : kid_doc_inv found d2
               /\ Kid.name (kid_fields d2) = Kid.name (kid_fields d1)
               /\ Kid.age (kid_fields d2)
                  = match KidBody.age body with
                    | Some a => a
                    | None => Kid.age found
                    end
               /\ Kid.avatarColor (kid_fields d2) = Kid.avatarColor found
               /\ Kid.interests (kid_fields d2) = Kid.interests found).
  { unfold d2, set_if_defined. destruct (KidBody.age body) as [a|].
    - destruct (kid_set_age_inv found a d1 H1) as (Hv & ? & ? & ? & ?).
      split; [exact Hv|]. repeat split; congruence.
    - split; [exact H1|]. repeat split; try assumption; reflexivity. }
  destruct H2 as (H2 & N2 & A2 & C2 & I2).
  set (d3 := set_if_defined (KidBody.avatarColor body) kid_set_avatarColor d2).
  assert (H3 : kid_doc_inv found d3
               /\ Kid.name (kid_fields d3) = Kid.name (kid_fields d1)
               /\ Kid.age (kid_fields d3) = Kid.age (kid_fields d2)
               /\ Kid.avatarColor (kid_fields d3)
                  = match KidBody.avatarColor body with
                    | Some c => trim c
                    | None => Kid.avatarColor found
                    end
               /\ Kid.interests (kid_fields d3) = Kid.interests found).
  { unfold d3, set_if_defined. destruct (KidBody.avatarColor body) as [c|].
    - destruct (kid_set_avatarColor_inv found c d2 H2) as (Hv & ? & ? & ? & ?).
      split; [exact Hv|]. repeat split; congruence.
    - split; [exact H2|]. repeat split; try assumption; reflexivity. }
  destruct H3 as (H3 & N3 & A3 & C3 & I3).
  destruct (defined_interests (KidBody.interests body)).
  - destruct (kid_set_interests_inv found (tags_of (KidBody.interests body))
                d3 H3) as (H4 & N4 & A4 & C4 & I4).
    split; [|exact H4]. destruct H4 as (F4 & _).
    apply kid_ext; cbn; try congruence. exact F4.
  - split; [|exact H3]. destruct H3 as (F3 & _).
    apply kid_ext; cbn; try congruence. exact F3.
Qed.

Lemma kid_write_path_fields (src dst : Kid.t) (p : string) :
  kid_frame (kid_write_path src dst p) = kid_frame dst
  /\ Kid.name (kid_write_path src dst p)
     = (if "name" =? p then Kid.name src else Kid.name dst)
  /\ Kid.age (kid_write_path src dst p)
     = (if "age" =? p then Kid.age src else Kid.age dst)
  /\ Kid.avatarColor (kid_write_path src dst p)
     = (if "avatarColor" =? p then Kid.avatarColor src
        else Kid.avatarColor dst)
  /\ Kid.interests (kid_write_path src dst p)
     = (if "interests" =? p then Kid.interests src else Kid.interests dst).
Proof.
  unfold kid_write_path.
  rewrite (String.eqb_sym p "name"), (String.eqb_sym p "age"),
    (String.eqb_sym p "avatarColor"), (String.eqb_sym p "interests").
  destruct ("name" =? p) eqn:E1;
    [apply String.eqb_eq in E1; subst p; now cbn|].
  destruct ("age" =? p) eqn:E2;
    [apply String.eqb_eq in E2; subst p; now cbn|].
  destruct ("avatarColor" =? p) eqn:E3;
    [apply String.eqb_eq in E3; subst p; now cbn|].
  destruct ("interests" =? p) eqn:E4;
    [apply String.eqb_eq in E4; subst p; now cbn|].
  repeat split.
Qed.

Lemma fold_write_fields (src : Kid.t) (paths : list string) (dst : Kid.t) :
  kid_frame (fold_left (kid_write_path src) paths dst) = kid_frame dst
  /\ Kid.name (fold_left (kid_write_path src) paths dst)
     = (if existsb (String.eqb "name") paths
        then Kid.name src else Kid.name dst)
  /\ Kid.age (fold_left (kid_write_path src) paths dst)
     = (if existsb (String.eqb "age") paths then Kid.age src else Kid.age dst)
  /\ Kid.avatarColor (fold_left (kid_write_path src) paths dst)
     = (if existsb (String.eqb "avatarColor") paths
        then Kid.avatarColor src else Kid.avatarColor dst)
  /\ Kid.interests (fold_left (kid_write_path src) paths dst)
     = (if existsb (String.eqb "interests") paths
        then Kid.interests src else Kid.interests dst).
Proof.
  revert dst. induction paths as [|p ps IH]; intros dst; cbn [fold_left existsb].
  - repeat split.
  - destruct (IH (kid_write_path src dst p)) as (Hf & Hn & Ha & Hc & Hi).
    destruct (kid_write_path_fields src dst p) as (Wf & Wn & Wa & Wc & Wi).
    rewrite Hf, Hn, Ha, Hc, Hi, Wf, Wn, Wa, Wc, Wi.
    split; [reflexivity|].
    destruct ("name" =? p), ("age" =? p), ("avatarColor" =? p),
      ("interests" =? p); cbn [orb];
      repeat split;
      repeat match goal with
             | |- context [if ?b then _ else _] => destruct b
             end; reflexivity.
Qed.

Lemma not_existsb_In (p : string) (l : list string) :
  existsb (String.eqb p) l = false -> ~ In p l.
Proof.
  intros E Hin. assert (existsb (String.eqb p) l = true); [|congruence].
  apply existsb_exists. exists p. split; [exact Hin | apply String.eqb_refl].
Qed.

(** Writing the changed paths of a document over the profile it was loaded
    from gives the document. *)
Lemma write_back (found : Kid.t) (d : KidDocument) :
  kid_doc_inv found d ->
  fold_left (kid_write_path (kid_fields d)) (kid_modified d) found
  = kid_fields d.
Proof.
  intros (Hf & Hn & Ha & Hc & Hi).
  destruct (fold_write_fields (kid_fields d) (kid_modified d) found)
    as (Ff & Fn & Fa & Fc & Fi).
  apply kid_ext.
  - now rewrite Ff.
  - rewrite Fn. destruct (existsb (String.eqb "name") _) eqn:E; [reflexivity|].
    apply not_existsb_In in E. symmetry. tauto.
  - rewrite Fa. destruct (existsb (String.eqb "age") _) eqn:E; [reflexivity|].
    apply not_existsb_In in E. symmetry. tauto.
  - rewrite Fc. destruct (existsb (String.eqb "avatarColor") _) eqn:E; [reflexivity|].
    apply not_existsb_In in E. symmetry. tauto.
  - rewrite Fi. destruct (existsb (String.eqb "interests") _) eqn:E; [reflexivity|].
    apply not_existsb_In in E. symmetry. tauto.
Qed.

(** What [updateKid] does, case by case. *)
Lemma updateKid_inv (db : Db) (u : User.t) (kidId : oid) (body : KidBody.t)
    (r : KidResponse) (db' : Db) :
  updateKid db u (WellFormed kidId) body = (r, db') ->
  (Kid_findOne kidId (User._id u) db = None
   /\ r = kid_fail 404 "Kid not found" /\ db' = db)
  \/ exists found,
       Kid_findOne kidId (User._id u) db = Some found
       /\ ((defined_interests (KidBody.interests body)
            && not_a_filled_array (KidBody.interests body) = true
            /\ r = kid_fail 400 "Interests must be a non-empty array"
            /\ db' = db)
           \/ (exists m ms,
                 flat_map (fun p => validate_Kid_path p (kid_edited found body))
                   kid_schema_paths = m :: ms
                 /\ r = kid_fail 400 (join ", " (m :: ms)) /\ db' = db)
           \/ (flat_map (fun p => validate_Kid_path p (kid_edited found body))
                 kid_schema_paths = []
               /\ r = mkKidResponse 200 true (Some "Kid updated successfully")
                        (OneKid (kid_edited found body))
               /\ db' = mkDb (users db)
                          (update_first
                             (fun k => (Kid._id k =? Kid._id found)%N)
                             (fun k =>
                                fold_left
                                  (kid_write_path (kid_edited found body))
                                  (kid_modified (kid_edit found body)) k)
                             (kids db))
                          (next_oid db))).
Proof.
  unfold updateKid. intros Hu.
  destruct (Kid_findOne kidId (User._id u) db) as [found|] eqn:Hfound;
    [|injection Hu as <- <-; now left].
  right. exists found. split; [reflexivity|].
  assert (Hstored : existsb (fun k => (Kid._id k =? Kid._id found)%N) (kids db)
                    = true).
  { apply find_some in Hfound as [Hin _]. apply existsb_exists.
    exists found. split; [exact Hin | apply N.eqb_refl]. }
  destruct (defined_interests (KidBody.interests body)
            && not_a_filled_array (KidBody.interests body)) eqn:Hi.
  { injection Hu as <- <-. now left. }
  right.
  change (match Kid_save db (kid_edit found body) with
          | (Thrown e, db1) => (kid_catch "Failed to update kid" e, db1)
          | (Ok saved, db1) =>
              (mkKidResponse 200 true (Some "Kid updated successfully")
                 (OneKid saved), db1)
          end = (r, db')) in Hu.
  unfold Kid_save in Hu.
  destruct (kid_edit_spec found body) as [Hfields _].
  rewrite Hfields in Hu.
  change (Kid._id (kid_edited found body)) with (Kid._id found) in Hu.
  rewrite Hstored in Hu. cbn [negb] in Hu.
  destruct (flat_map _ kid_schema_paths) as [|m ms] eqn:Hv.
  - injection Hu as <- <-. right. split; [reflexivity|].
    split; [reflexivity|]. reflexivity.
  - injection Hu as <- <-. left. exists m, ms. split; [reflexivity|].
    split; reflexivity.
Qed.

Lemma Kid_findOne_some (kidId parentId : oid) (db : Db) (k : Kid.t) :
  Kid_findOne kidId parentId db = Some k ->
  In k (kids db) /\ Kid._id k = kidId /\ Kid.parent k = parentId.
Proof.
  unfold Kid_findOne, owned_by. intros Hf.
  apply find_some in Hf as [Hin Ho]. apply andb_true_iff in Ho as [Hi Hp].
  apply N.eqb_eq in Hi, Hp. now repeat split.
Qed.

Lemma NoDup_map_eq {A B} (f : A -> B) (l : list A) (x y : A) :
  NoDup (map f l) -> In x l -> In y l -> f x = f y -> x = y.
Proof.
  induction l as [|a l IH]; cbn; [intros _ []|].
  intros Hnd [-> | Hx] [-> | Hy] Hxy; inversion_clear Hnd as [|? ? Hn Hnd'].
  - reflexivity.
  - exfalso. apply Hn. rewrite Hxy. now apply in_map.
  - exfalso. apply Hn. rewrite <- Hxy. now apply in_map.
  - now apply IH.
Qed.

Lemma find_update_first_hit {A} (p q : A -> bool) (f : A -> A) (l : list A) :
  (forall x, In x l -> p x = q x) ->
  (forall x, In x l -> q x = true -> p (f x) = true) ->
  find p (update_first q f l) = option_map f (find p l).
Proof.
  intros Hpq Hf. induction l as [|a l IH]; cbn; [reflexivity|].
  rewrite (Hpq a) by now left.
  destruct (q a) eqn:Ea; cbn.
  - now rewrite (Hf a (or_introl eq_refl) Ea).
  - rewrite (Hpq a) by now left. rewrite Ea. apply IH.
    + intros x Hx. apply Hpq. now right.
    + intros x Hx. apply Hf. now right.
Qed.

Lemma kid_edited_frame (found : Kid.t) (body : KidBody.t) :
  kid_frame (kid_edited found body) = kid_frame found.
Proof. reflexivity. Qed.

(** X21.  [updateKid] answers 500 [Failed to update kid] exactly when the id
    of the request is malformed, and 200, 400 or 404 otherwise.  Whatever it
    answers, users, ids, owners and creation times of the stored profiles
    are as they were; unless it answers 200 the whole store is.  On 200 the
    profile sent back is the caller's stored profile with the sent fields,
    through the setters, over the stored ones, and it satisfies the bounds
    of the schema. *)
Theorem updateKid_postcondition (db : Db) (u : User.t) (kidId : IdParam)
    (body : KidBody.t) (r : KidResponse) (db' : Db) :
  updateKid db u kidId body = (r, db') ->
  users db' = users db /\ next_oid db' = next_oid db
  /\ map kid_frame (kids db') = map kid_frame (kids db)
  /\ (kid_status r = 500%Z <-> kidId = Malformed)
  /\ (kidId = Malformed -> r = kid_fail 500 "Failed to update kid")
  /\ (((kid_status r = 404%Z \/ kid_status r = 400%Z \/ kid_status r = 500%Z)
       /\ kid_payload r = NoData /\ db' = db)
      \/ exists id found,
           kidId = WellFormed id
           /\ Kid_findOne id (User._id u) db = Some found
           /\ r = mkKidResponse 200 true (Some "Kid updated successfully")
                    (OneKid (kid_edited found body))
           /\ (2 <= String.length (Kid.name (kid_edited found body)) <= 50)%nat
           /\ (1 <= Kid.age (kid_edited found body) <= 18)%Z
           /\ Kid.avatarColor (kid_edited found body) <> ""
           /\ (List.length (Kid.interests (kid_edited found body)) <= 10)%nat).
Proof.
  intros Hu. destruct kidId as [id|].
  2:{ injection Hu as <- <-. repeat split; try reflexivity.
      left. cbn. auto. }
  destruct (updateKid_inv _ _ _ _ _ _ Hu)
    as [(_ & -> & ->)
       | (found & Hf & [(_ & -> & ->)
                       | [(m & ms & _ & -> & ->) | (Hv & -> & ->)]])].
  - repeat split; try reflexivity; try discriminate. left. cbn. auto.
  - repeat split; try reflexivity; try discriminate. left. cbn. auto.
  - repeat split; try reflexivity; try discriminate. left. cbn. auto.
  - cbn [users kids next_oid].
    split; [reflexivity|]. split; [reflexivity|]. split.
    + apply update_first_map. intros k.
      now destruct (fold_write_fields (kid_edited found body)
                      (kid_modified (kid_edit found body)) k) as [-> _].
    + split; [split; discriminate|]. split; [discriminate|].
      right. exists id, found. split; [reflexivity|].
      split; [exact Hf|]. split; [reflexivity|].
      now apply kid_validation_bounds.
Qed.

Lemma update_first_ids {A B} (g : A -> B) (q : A -> bool) (f : A -> A)
    (l : list A) :
  (forall x, g (f x) = g x) ->
  NoDup (map g l) -> NoDup (map g (update_first q f l)).
Proof. intros Hg Hnd. now rewrite update_first_map. Qed.

(** X22.  After [updateKid] has answered 200 on a store where ids identify
    profiles, the caller reads back by that id the profile it was sent, and
    ids still identify profiles. *)
Theorem updateKid_then_getKid (db : Db) (u : User.t) (kidId : IdParam)
    (body : KidBody.t) (r : KidResponse) (db' : Db) :
  kid_ids_distinct db ->
  updateKid db u kidId body = (r, db') ->
  kid_status r = 200%Z ->
  getKid db' u kidId = mkKidResponse 200 true None (kid_payload r)
  /\ kid_ids_distinct db'.
Proof.
  intros Hnd Hu Hst. destruct kidId as [kidId|].
  2:{ injection Hu as <- <-. discriminate Hst. }
  destruct (updateKid_inv _ _ _ _ _ _ Hu)
    as [(_ & -> & ->)
       | (found & Hf & [(_ & -> & ->)
                       | [(m & ms & _ & -> & ->) | (Hv & -> & ->)]])];
    try discriminate Hst.
  destruct (Kid_findOne_some _ _ _ _ Hf) as (Hin & Hid & Hpar).
  destruct (kid_edit_spec found body) as [Hfields Hinv].
  assert (Hsame : forall x, In x (kids db) -> Kid._id x = kidId -> x = found).
  { intros x Hx E.
    apply (NoDup_map_eq Kid._id (kids db));
      [exact Hnd | exact Hx | exact Hin | congruence]. }
  split.
  - unfold getKid, Kid_findOne. cbn [kids kid_payload].
    rewrite find_update_first_hit.
    + fold (Kid_findOne kidId (User._id u) db). rewrite Hf. cbn [option_map].
      rewrite <- Hfields, write_back by exact Hinv. reflexivity.
    + intros x Hx. unfold owned_by. rewrite Hid.
      destruct (Kid._id x =? kidId)%N eqn:E; [|reflexivity].
      apply N.eqb_eq in E. cbn [andb]. rewrite (Hsame x Hx E).
      now apply N.eqb_eq.
    + intros x Hx E. apply N.eqb_eq in E. rewrite Hid in E.
      rewrite (Hsame x Hx E). rewrite <- Hfields, write_back by exact Hinv.
      rewrite Hfields. unfold owned_by. cbn [kid_edited Kid._id Kid.parent].
      rewrite Hid, Hpar, !N.eqb_refl. reflexivity.
  - unfold kid_ids_distinct. cbn [kids]. apply update_first_ids; [|exact Hnd].
    intros k.
    destruct (fold_write_fields (kid_edited found body)
                (kid_modified (kid_edit found body)) k) as [Hfr _].
    unfold kid_frame in Hfr. congruence.
Qed.

(** *** Deleting, and what belongs to whom *)

Lemma remove_first_split {A} (p : A -> bool) (l : list A) (x : A) :
  find p l = Some x ->
  exists before after,
    l = before ++ x :: after /\ remove_first p l = before ++ after.
Proof.
  induction l as [|a l IH]; cbn; [discriminate|].
  destruct (p a) eqn:Ea.
  - intros [= ->]. now exists [], l.
  - intros Hf. destruct (IH Hf) as (b & c & -> & Hr).
    exists (a :: b), c. cbn. now rewrite Hr.
Qed.

Lemma remove_first_In {A} (p : A -> bool) (l : list A) (x : A) :
  In x (remove_first p l) -> In x l.
Proof.
  induction l as [|a l IH]; cbn; [auto|].
  destruct (p a); cbn; intuition.
Qed.

Lemma update_first_In {A} (q : A -> bool) (f : A -> A) (l : list A) (x : A) :
  In x (update_first q f l) ->
  In x l \/ exists y, In y l /\ q y = true /\ x = f y.
Proof.
  induction l as [|a l IH]; cbn; [auto|].
  destruct (q a) eqn:Ea; cbn.
  - intros [<- | Hx]; [right; exists a; auto | auto].
  - intros [<- | Hx]; [auto|].
    destruct (IH Hx) as [? | (y & ? & ? & ?)]; [auto|].
    right. exists y. auto.
Qed.

Lemma filter_remove_first {A} (p q : A -> bool) (l : list A) :
  (forall x, In x l -> q x = true -> p x = false) ->
  filter p (remove_first q l) = filter p l.
Proof.
  induction l as [|a l IH]; cbn; intros H; [reflexivity|].
  destruct (q a) eqn:Ea.
  - now rewrite (H a (or_introl eq_refl) Ea).
  - cbn. rewrite IH; [reflexivity|]. intros x Hx. apply H. now right.
Qed.

Lemma filter_update_first {A} (p q : A -> bool) (f : A -> A) (l : list A) :
  (forall x, In x l -> q x = true -> p x = false /\ p (f x) = false) ->
  filter p (update_first q f l) = filter p l.
Proof.
  induction l as [|a l IH]; cbn; intros H; [reflexivity|].
  destruct (q a) eqn:Ea.
  - cbn. destruct (H a (or_introl eq_refl) Ea) as [-> ->]. reflexivity.
  - cbn. rewrite IH; [reflexivity|]. intros x Hx. apply H. now right.
Qed.

Lemma pull_kid_outside (id k : oid) (l : list User.t) :
  map (outside id) (update_first (fun v => (User._id v =? id)%N) (pull_kid k) l)
  = map (outside id) l.
Proof.
  induction l as [|a l IH]; cbn [update_first map]; [reflexivity|].
  destruct (User._id a =? id)%N eqn:Ea; cbn [map].
  - f_equal. unfold outside. cbn [pull_kid User._id]. now rewrite Ea.
  - now rewrite IH.
Qed.

Lemma push_kid_outside (id k : oid) (l : list User.t) :
  map (outside id) (update_first (fun v => (User._id v =? id)%N) (push_kid id k) l)
  = map (outside id) l.
Proof.
  induction l as [|a l IH]; cbn [update_first map]; [reflexivity|].
  destruct (User._id a =? id)%N eqn:Ea; cbn [map].
  - f_equal. unfold outside, push_kid. rewrite Ea. cbn [User._id].
    now rewrite Ea.
  - now rewrite IH.
Qed.

(** What [deleteKid] does, case by case. *)
Lemma deleteKid_inv (db : Db) (u : User.t) (kidId : oid) (r : KidResponse)
    (db' : Db) :
  deleteKid db u (WellFormed kidId) = (r, db') ->
  (Kid_findOne kidId (User._id u) db = None
   /\ r = kid_fail 404 "Kid not found" /\ db' = db)
  \/ exists gone before after,
       Kid_findOne kidId (User._id u) db = Some gone
       /\ r = mkKidResponse 200 true (Some "Kid deleted successfully") NoData
       /\ kids db = before ++ gone :: after
       /\ db' = mkDb (update_first (fun v => (User._id v =? User._id u)%N)
                        (pull_kid kidId) (users db))
                  (before ++ after) (next_oid db).
Proof.
  unfold deleteKid. intros Hd.
  destruct (Kid_findOne kidId (User._id u) db) as [gone|] eqn:Hf;
    [|injection Hd as <- <-; now left].
  injection Hd as <- <-. right.
  destruct (remove_first_split _ _ _ Hf) as (b & c & Hk & Hr).
  exists gone, b, c. rewrite Hr. now repeat split.
Qed.

(** X23.  [deleteKid] answers 500 [Failed to delete kid] exactly when the id
    of the request is malformed, and 200 or 404 otherwise.  On 404 and on
    500 the store is as it was.  On 200, on a store where ids identify
    profiles, exactly the caller's profile of that id is gone and the others
    stay in order, no stored profile carries the id any more, the id is off
    the caller's [kids] array, and nothing else of any user has changed. *)
Theorem deleteKid_postcondition (db : Db) (u : User.t) (kidId : IdParam)
    (r : KidResponse) (db' : Db) :
  kid_ids_distinct db ->
  deleteKid db u kidId = (r, db') ->
  (kid_status r = 500%Z <-> kidId = Malformed)
  /\ ((kidId = Malformed /\ r = kid_fail 500 "Failed to delete kid"
       /\ db' = db)
      \/ (kidId <> Malformed /\ r = kid_fail 404 "Kid not found" /\ db' = db)
      \/ exists id gone before after,
           kidId = WellFormed id
           /\ r = mkKidResponse 200 true (Some "Kid deleted successfully")
                    NoData
           /\ Kid._id gone = id /\ Kid.parent gone = User._id u
           /\ kids db = before ++ gone :: after
           /\ kids db' = before ++ after
           /\ (forall k, In k (kids db') -> Kid._id k <> id)
           /\ getKid db' u kidId = kid_fail 404 "Kid not found"
           /\ map (outside (User._id u)) (users db')
              = map (outside (User._id u)) (users db)
           /\ (forall v, findById (User._id u) db' = Some v ->
                         ~ In id (User.kids v))
           /\ next_oid db' = next_oid db).
Proof.
  intros Hnd Hd. destruct kidId as [kidId|].
  2:{ injection Hd as <- <-. split; [now split|]. left. now repeat split. }
  destruct (deleteKid_inv _ _ _ _ _ Hd)
    as [(_ & -> & ->) | (gone & b & c & Hf & -> & Hk & ->)].
  { split; [split; discriminate|]. right. left. now repeat split. }
  split; [split; discriminate|]. right. right.
  destruct (Kid_findOne_some _ _ _ _ Hf) as (_ & Hid & Hpar).
  exists kidId, gone, b, c. cbn [kids users next_oid].
  assert (Hnone : forall k, In k (b ++ c) -> Kid._id k <> kidId).
  { intros k Hin E. unfold kid_ids_distinct in Hnd. rewrite Hk in Hnd.
    rewrite map_app in Hnd. cbn [map] in Hnd.
    apply NoDup_remove_2 in Hnd. apply Hnd. rewrite Hid, <- E, <- map_app.
    now apply in_map. }
  split; [reflexivity|].
  split; [reflexivity|]. split; [exact Hid|]. split; [exact Hpar|].
  split; [exact Hk|]. split; [reflexivity|]. split; [exact Hnone|].
  split; [|split; [|split; [|reflexivity]]].
  - unfold getKid, Kid_findOne. cbn [kids]. rewrite find_all_false; [reflexivity|].
    intros k Hin. unfold owned_by. apply andb_false_iff. left.
    apply N.eqb_neq. now apply Hnone.
  - apply pull_kid_outside.
  - intros v Hv. unfold findById in Hv. cbn [users] in Hv.
    rewrite (find_update_first_hit _ (fun w => (User._id w =? User._id u)%N))
      in Hv; [| reflexivity | intros x _ Hx; exact Hx].
    destruct (find _ (users db)) as [w|]; [|discriminate Hv].
    injection Hv as <-. cbn. intros Hin. apply filter_In in Hin as [_ Hne].
    now rewrite N.eqb_refl in Hne.
Qed.

(** X24.  A profile of another parent is out of reach: on a store where ids
    identify profiles, reading, updating or deleting it by its id is answered
    404 and leaves the store as it was, and it is not in the caller's
    list. *)
Theorem foreign_kid_is_not_found (db : Db) (u : User.t) (k : Kid.t)
    (body : KidBody.t) :
  kid_ids_distinct db ->
  In k (kids db) ->
  Kid.parent k <> User._id u ->
  getKid db u (WellFormed (Kid._id k)) = kid_fail 404 "Kid not found"
  /\ updateKid db u (WellFormed (Kid._id k)) body
     = (kid_fail 404 "Kid not found", db)
  /\ deleteKid db u (WellFormed (Kid._id k))
     = (kid_fail 404 "Kid not found", db)
  /\ ~ In k (payload_kids (kid_payload (getKids db u))).
Proof.
  intros Hnd Hin Hpar.
  assert (Hnone : Kid_findOne (Kid._id k) (User._id u) db = None).
  { unfold Kid_findOne. apply find_all_false. intros x Hx. unfold owned_by.
    destruct (Kid._id x =? Kid._id k)%N eqn:E; [|reflexivity].
    apply N.eqb_eq in E.
    assert (x = k) as ->
        by (apply (NoDup_map_eq Kid._id (kids db)); assumption).
    cbn [andb]. now apply N.eqb_neq. }
  unfold getKid, updateKid, deleteKid. rewrite Hnone.
  repeat split. unfold getKids, Kid_find_sorted. cbn [kid_payload payload_kids].
  intros Hk. apply (Permutation_in _ (Permutation_sym (sort_newest_first_perm _)))
    in Hk. apply filter_In in Hk as [_ Hk]. now apply N.eqb_eq in Hk.
Qed.

(** *** The five handlers together *)

Lemma Kid_find_sorted_In (parentId : oid) (db : Db) (k : Kid.t) :
  In k (Kid_find_sorted parentId db) ->
  In k (kids db) /\ Kid.parent k = parentId.
Proof.
  unfold Kid_find_sorted. intros Hin.
  apply (Permutation_in _ (Permutation_sym (sort_newest_first_perm _))) in Hin.
  apply filter_In in Hin as [Hin Hp]. now apply N.eqb_eq in Hp.
Qed.

(** X25.  A kid route acts on the caller's family only.  On a store where ids
    identify profiles, whatever the request and the answer: the profiles of
    other parents are as they were and in place, every profile in the answer
    belongs to the caller, and of the users nothing has changed but the
    [kids] array of the caller. *)
Theorem kid_handler_own_family_only (now : Z) (db : Db) (u : User.t)
    (req : KidRequest) (r : KidResponse) (db' : Db) :
  kid_ids_distinct db ->
  kid_handler now db u req = (r, db') ->
  filter (fun k => negb (Kid.parent k =? User._id u)%N) (kids db')
  = filter (fun k => negb (Kid.parent k =? User._id u)%N) (kids db)
  /\ (forall k, In k (payload_kids (kid_payload r)) ->
                Kid.parent k = User._id u)
  /\ map (outside (User._id u)) (users db')
     = map (outside (User._id u)) (users db).
Proof.
  intros Hnd Hh.
  destruct req as [body | | [kidId|] | [kidId|] body | [kidId|]];
    cbn [kid_handler] in Hh;
    try (match type of Hh with context [Malformed] => idtac end;
         injection Hh as <- <-; repeat split; intros k []).
  - destruct (addKid_inv _ _ _ _ _ _ Hh)
      as [(_ & _ & -> & ->) | (n & a & tags & _ & _ & _ & _ & Hk)].
    { repeat split. intros k []. }
    cbn zeta in Hk. destruct Hk as (-> & _ & -> & -> & _).
    rewrite filter_app_last. cbn [Kid.parent]. rewrite N.eqb_refl.
    cbn [negb]. rewrite app_nil_r. split; [reflexivity|]. split.
    + intros k [<- | []]. reflexivity.
    + apply push_kid_outside.
  - injection Hh as <- <-. split; [reflexivity|]. split; [|reflexivity].
    intros k Hk. now apply Kid_find_sorted_In in Hk.
  - injection Hh as <- <-. split; [reflexivity|]. split; [|reflexivity].
    unfold getKid. destruct (Kid_findOne kidId (User._id u) db) as [k0|] eqn:Hf;
      cbn; [|intros k []].
    intros k [<- | []]. now apply Kid_findOne_some in Hf.
  - destruct (updateKid_inv _ _ _ _ _ _ Hh)
      as [(_ & -> & ->)
         | (found & Hf & [(_ & -> & ->)
                         | [(m & ms & _ & -> & ->) | (Hv & -> & ->)]])];
      try (repeat split; intros k []).
    destruct (Kid_findOne_some _ _ _ _ Hf) as (Hin & Hid & Hpar).
    cbn [kids users kid_payload payload_kids].
    split; [|split; [|reflexivity]].
    + apply filter_update_first. intros x Hx E. apply N.eqb_eq in E.
      assert (x = found) as ->.
      { apply (NoDup_map_eq Kid._id (kids db)); assumption. }
      destruct (fold_write_fields (kid_edited found body)
                  (kid_modified (kid_edit found body)) found) as [Hfr _].
      unfold kid_frame in Hfr. injection Hfr as _ Hp _.
      rewrite Hp, Hpar, N.eqb_refl. now split.
    + intros k [<- | []]. exact Hpar.
  - destruct (deleteKid_inv _ _ _ _ _ Hh)
      as [(_ & -> & ->) | (gone & b & c & Hf & -> & Hk & ->)];
      [repeat split; intros k []|].
    destruct (Kid_findOne_some _ _ _ _ Hf) as (_ & _ & Hpar).
    cbn [kids users kid_payload payload_kids]. rewrite Hk.
    split; [|split; [intros k [] | apply pull_kid_outside]].
    rewrite !filter_app. cbn [filter]. rewrite Hpar, N.eqb_refl. reflexivity.
Qed.

Lemma fold_write_valid (src : Kid.t) (paths : list string) (dst : Kid.t) :
  kid_valid src -> kid_valid dst ->
  kid_valid (fold_left (kid_write_path src) paths dst).
Proof.
  intros (Sn & St & Sa & Sc & Si) (Dn & Dt & Da & Dc & Di).
  destruct (fold_write_fields src paths dst) as (_ & Fn & Fa & Fc & Fi).
  unfold kid_valid. rewrite Fn, Fa, Fc, Fi.
  destruct (existsb (String.eqb "name") paths),
    (existsb (String.eqb "age") paths),
    (existsb (String.eqb "avatarColor") paths),
    (existsb (String.eqb "interests") paths); tauto.
Qed.

(** X26.  The bounds of the kid schema are an invariant of the kid routes: if
    every stored profile satisfies them (name of 2 to 50 characters and
    trimmed, age 1 to 18, an avatar colour, at most 10 interests), so does
    every stored profile afterwards and every profile in the answer. *)
Theorem kid_handler_keeps_kids_valid (now : Z) (db : Db) (u : User.t)
    (req : KidRequest) (r : KidResponse) (db' : Db) :
  (forall k, In k (kids db) -> kid_valid k) ->
  kid_handler now db u req = (r, db') ->
  (forall k, In k (kids db') -> kid_valid k)
  /\ (forall k, In k (payload_kids (kid_payload r)) -> kid_valid k).
Proof.
  intros Hval Hh.
  destruct req as [body | | [kidId|] | [kidId|] body | [kidId|]];
    cbn [kid_handler] in Hh;
    try (match type of Hh with context [Malformed] => idtac end;
         injection Hh as <- <-; split; [exact Hval | intros k []]).
  - destruct (addKid_inv _ _ _ _ _ _ Hh)
      as [(_ & _ & -> & ->) | (n & a & tags & _ & _ & _ & _ & Hk)].
    { split; [exact Hval | intros k []]. }
    cbn zeta in Hk. destruct Hk as (-> & Hv & -> & _ & _). split.
    + intros k Hk. apply in_app_or in Hk as [Hk | [<- | []]]; auto.
    + intros k [<- | []]. exact Hv.
  - injection Hh as <- <-. split; [exact Hval|].
    intros k Hk. apply Kid_find_sorted_In in Hk as [Hk _]. auto.
  - injection Hh as <- <-. split; [exact Hval|]. unfold getKid.
    destruct (Kid_findOne kidId (User._id u) db) as [k0|] eqn:Hf;
      cbn; [|intros k []].
    intros k [<- | []]. apply Kid_findOne_some in Hf as [Hf _]. auto.
  - destruct (updateKid_inv _ _ _ _ _ _ Hh)
      as [(_ & -> & ->)
         | (found & Hf & [(_ & -> & ->)
                         | [(m & ms & _ & -> & ->) | (Hv & -> & ->)]])];
      try (split; [exact Hval | intros k []]).
    destruct (Kid_findOne_some _ _ _ _ Hf) as (Hin & _ & _).
    assert (Hsaved : kid_valid (kid_edited found body)).
    { destruct (kid_validation_bounds _ Hv) as (Hn & Ha & Hc & Hi).
      unfold kid_valid. repeat split; try tauto.
      cbn [kid_edited Kid.name]. destruct (KidBody.name body) as [n|].
      - apply trim_idem.
      - now destruct (Hval found Hin) as (_ & Ht & _). }
    cbn [kids kid_payload payload_kids]. split.
    + intros k Hk. apply update_first_In in Hk as [Hk | (y & Hy & _ & ->)];
        [auto|]. apply fold_write_valid; auto.
    + intros k [<- | []]. exact Hsaved.
  - destruct (deleteKid_inv _ _ _ _ _ Hh)
      as [(_ & -> & ->) | (gone & b & c & Hf & -> & Hk & ->)];
      [split; [exact Hval | intros k []]|].
    cbn [kids kid_payload payload_kids]. split; [|intros k []].
    intros k Hin. apply Hval. rewrite Hk.
    apply in_app_or in Hin as [Hin | Hin]; apply in_or_app; [now left|].
    right. now right.
Qed.

(** ** Routes behind the guard *)

Section Routes.
Context `{JwtLib}.

(** What the guard has established when it calls [next()]. *)
Lemma auth_next_inv (env : Env) (now : Z) (db : Db) (h : option string)
    (user : User.t) (trace : list AuthEffect) :
  auth env now db h = (Next user, trace) ->
  exists t c,
    h = Some ("Bearer " ++ t)%string
    /\ jwt_verify t (JWT_SECRET env) now = Ok c
    /\ findById (claim_id c) db = Some user.
Proof.
  destruct h as [s|]; [|discriminate]. unfold auth.
  destruct (truthy_opt (Some s)); [|discriminate]. cbn [negb val].
  destruct (startsWith "Bearer " s) eqn:Hp; [|discriminate]. cbn [negb].
  apply bearer_prefix_inv in Hp as [t ->]. rewrite bearer_substring.
  destruct (truthy t) eqn:Ht; [|discriminate]. cbn [negb].
  destruct (jwt_verify t (JWT_SECRET env) now) as [c|e] eqn:Hv.
  - destruct (findById (claim_id c) db) as [u|] eqn:Hf; [|discriminate].
    intros [= <- <-]. now exists t, c.
  - destruct (error_name e =? "JsonWebTokenError"); [discriminate|].
    destruct (error_name e =? "TokenExpiredError"); discriminate.
Qed.

(** How the guard refuses. *)
Lemma auth_rejected_inv (env : Env) (now : Z) (db : Db) (h : option string)
    (r : Response) (trace : list AuthEffect) :
  auth env now db h = (Rejected r, trace) ->
  exists st msg, r = fail st msg /\ (st = 401 \/ st = 500)%Z.
Proof.
  unfold auth.
  destruct (negb (truthy_opt h));
    [intros [= <- <-]; eexists; eexists; split; [reflexivity | now left]|].
  destruct (negb (startsWith "Bearer " (val h)));
    [intros [= <- <-]; eexists; eexists; split; [reflexivity | now left]|].
  destruct (negb (truthy (substringFrom 7 (val h))));
    [intros [= <- <-]; eexists; eexists; split; [reflexivity | now left]|].
  destruct (jwt_verify _ (JWT_SECRET env) now) as [c|e].
  - destruct (findById (claim_id c) db); [discriminate|].
    intros [= <- <-]; eexists; eexists; split; [reflexivity | now left].
  - destruct (error_name e =? "JsonWebTokenError");
      [|destruct (error_name e =? "TokenExpiredError")];
      intros [= <- <-]; eexists; eexists; split; try reflexivity; auto.
Qed.

Lemma findById_again (id : oid) (db : Db) (user : User.t) :
  findById id db = Some user -> findById (User._id user) db = Some user.
Proof.
  unfold findById.
  destruct (find (fun u => (User._id u =? id)%N) (users db)) as [s|] eqn:E;
    [|discriminate].
  intros [= <-]. cbn [without_password User._id].
  apply find_some in E as E'. destruct E' as [_ Hid]. apply N.eqb_eq in Hid.
  now rewrite Hid, E.
Qed.

(** X16.  A kid handler runs only for a request whose header carries a token that
    verifies under the service's secret and names a stored user whose stored
    role is [parent]; the handler then runs for that user.  A request stopped
    by a middleware is answered 401, 403 or 500 with [success: false] and
    leaves the store as it was. *)
Theorem kids_route_guarded (env : Env) (now : Z) (db : Db)
    (h : option string) (req : KidRequest) (a : RouteAnswer) (db' : Db) :
  kids_route env now db h req = (a, db') ->
  match a with
  | Stopped r =>
      db' = db /\ success r = false /\ token r = None /\ data r = None
      /\ (status r = 401 \/ status r = 403 \/ status r = 500)%Z
  | Handled r =>
      exists t c user,
        h = Some ("Bearer " ++ t)%string
        /\ jwt_verify t (JWT_SECRET env) now = Ok c
        /\ findById (claim_id c) db = Some user
        /\ User.role user = "parent"
        /\ kid_handler now db user req = (r, db')
  end.
Proof.
  unfold kids_route.
  destruct (auth env now db h) as [[r0 | user] trace] eqn:Ha; cbn [fst].
  - intros [= <- <-].
    destruct (auth_rejected_inv _ _ _ _ _ _ Ha) as (st & msg & -> & Hst).
    cbn. intuition.
  - destruct (auth_next_inv _ _ _ _ _ _ Ha) as (t & c & -> & Hv & Hf).
    unfold checkRole. cbn [existsb].
    destruct (User.role user =? "parent") eqn:Hr; cbn [orb negb].
    + destruct (kid_handler now db user req) as [r db1] eqn:Hh.
      intros [= <- <-]. exists t, c, user. apply String.eqb_eq in Hr.
      now repeat split.
    + intros [= <- <-]. cbn. intuition.
Qed.

(** X17.  The role that opens the kid routes is the stored one: a token that
    verifies and names a stored user whose role is not [parent] is answered
    403, whatever role the token claims and whatever the request, and the
    store is as it was. *)
Theorem kids_route_refuses_other_roles (env : Env) (now : Z) (db : Db)
    (t : string) (c : Claims) (user : User.t) (req : KidRequest) :
  jwt_verify t (JWT_SECRET env) now = Ok c ->
  findById (claim_id c) db = Some user ->
  User.role user <> "parent" ->
  kids_route env now db (Some ("Bearer " ++ t)%string) req
  = (Stopped
       (fail 403 "Access denied. Only parent can perform this action"), db).
Proof.
  intros Hv Hf Hr. unfold kids_route.
  rewrite auth_bearer by (unfold jwt_verify in Hv;
                          destruct (truthy t); [reflexivity | discriminate Hv]).
  rewrite Hv, Hf. cbn [fst]. unfold checkRole. cbn [existsb].
  apply String.eqb_neq in Hr. rewrite Hr. reflexivity.
Qed.

(** X15.  [GET /api/auth/me] behind the guard answers 200, 401 or 500, never the
    404 of its handler.  On 200 the data are those of the stored user the
    token names: id, address, role and creation time, the family code and
    the [kids] array exactly for a parent, the name and the parent exactly
    for a kid. *)
Theorem me_route_answers (env : Env) (now : Z) (db : Db) (h : option string) :
  match me_route env now db h with
  | MeFailed r => success r = false /\ (status r = 401 \/ status r = 500)%Z
  | MeFound st m =>
      st = 200%Z
      /\ exists t c stored,
           h = Some ("Bearer " ++ t)%string
           /\ jwt_verify t (JWT_SECRET env) now = Ok c
           /\ In stored (users db) /\ User._id stored = claim_id c
           /\ Me.id m = User._id stored /\ Me.email m = User.email stored
           /\ Me.role m = User.role stored
           /\ Me.createdAt m = User.createdAt stored
           /\ Me.familyCode m
              = only_if (User.role stored =? "parent") (User.familyCode stored)
           /\ Me.kids m
              = only_if (User.role stored =? "parent") (User.kids stored)
           /\ Me.name m
              = only_if (User.role stored =? "kid") (User.name stored)
           /\ Me.parent m
              = only_if (User.role stored =? "kid") (User.parent stored)
  end.
Proof.
  unfold me_route.
  destruct (auth env now db h) as [[r0 | user] trace] eqn:Ha; cbn [fst].
  - destruct (auth_rejected_inv _ _ _ _ _ _ Ha) as (st & msg & -> & Hst).
    cbn. intuition.
  - destruct (auth_next_inv _ _ _ _ _ _ Ha) as (t & c & -> & Hv & Hf).
    unfold getCurrentUser. rewrite (findById_again _ _ _ Hf).
    split; [reflexivity|].
    unfold findById in Hf.
    destruct (find (fun u => (User._id u =? claim_id c)%N) (users db))
      as [s|] eqn:E; [|discriminate Hf].
    injection Hf as <-. apply find_some in E as [Hin Hid].
    apply N.eqb_eq in Hid.
    exists t, c, s. cbn.
    repeat split; try assumption.
    + destruct (User.role s =? "parent") eqn:Hp; cbn; [|reflexivity].
      apply String.eqb_eq in Hp. rewrite Hp. reflexivity.
    + destruct (User.role s =? "parent") eqn:Hp; cbn; [|reflexivity].
      apply String.eqb_eq in Hp. rewrite Hp. reflexivity.
Qed.

End Routes.

(** ** The linkage between users and kid profiles *)

Lemma users_update_In (id : oid) (f : User.t -> User.t) (l : list User.t)
    (v : User.t) :
  NoDup (map User._id l) ->
  In v (update_first (fun w => (User._id w =? id)%N) f l) ->
  (In v l /\ User._id v <> id)
  \/ exists y, In y l /\ User._id y = id /\ v = f y.
Proof.
  induction l as [|a l IH]; cbn [update_first map]; [intros _ []|].
  intros Hnd Hin. inversion_clear Hnd as [|? ? Hn Hnd'].
  destruct (User._id a =? id)%N eqn:Ea.
  - apply N.eqb_eq in Ea. destruct Hin as [<- | Hin].
    + right. exists a. split; [now left | now split].
    + left. split; [now right|]. intros E. apply Hn. rewrite Ea, <- E.
      now apply in_map.
  - apply N.eqb_neq in Ea. destruct Hin as [<- | Hin].
    + left. split; [now left | exact Ea].
    + destruct (IH Hnd' Hin) as [[Hv Hne] | (y & Hy & Hid & ->)].
      * left. split; [now right | exact Hne].
      * right. exists y. split; [now right | now split].
Qed.

Lemma map_eq_In {A B} (g : A -> B) (l l' : list A) (x : A) :
  map g l = map g l' -> In x l -> exists y, In y l' /\ g y = g x.
Proof.
  intros Hm Hin. apply (in_map g) in Hin. rewrite Hm in Hin.
  apply in_map_iff in Hin as (y & Hy & Hin). now exists y.
Qed.

Lemma wf_add_user (db : Db) (user : User.t) :
  store_wf db ->
  User._id user = next_oid db -> User.kids user = [] ->
  store_wf (mkDb (users db ++ [user]) (kids db) (next_oid db + 1)%N).
Proof.
  intros [Hu Hk Hub Hkb Hl Hlk] Hid Hkids. constructor; cbn [users kids next_oid].
  - rewrite map_app. cbn [map]. apply NoDup_app; [exact Hu | repeat constructor; auto |].
    intros i Hi [<- | []]. apply in_map_iff in Hi as (w & Hw & Hin).
    apply Hub in Hin. lia.
  - exact Hk.
  - intros v Hv. apply in_app_or in Hv as [Hv | [<- | []]];
      [apply Hub in Hv|]; lia.
  - intros k Hin. apply Hkb in Hin. lia.
  - intros v Hv. apply in_app_or in Hv as [Hv | [<- | []]]; [now apply Hl|].
    rewrite Hkids. constructor.
  - intros v i Hv. apply in_app_or in Hv as [Hv | [<- | []]]; [now apply Hlk|].
    rewrite Hkids, Hid. split; [intros []|].
    intros (k & Hin & _ & Hp). apply Hkb in Hin. lia.
Qed.

Lemma wf_add_kid (db : Db) (p : oid) (k : Kid.t) :
  store_wf db ->
  (p < next_oid db)%N ->
  Kid._id k = next_oid db -> Kid.parent k = p ->
  store_wf
    (mkDb (update_first (fun v => (User._id v =? p)%N)
             (push_kid p (next_oid db)) (users db))
          (kids db ++ [k]) (next_oid db + 1)%N).
Proof.
  intros [Hu Hk Hub Hkb Hl Hlk] Hp Hid Hpar.
  assert (Hids : map User._id
                   (update_first (fun v => (User._id v =? p)%N)
                      (push_kid p (next_oid db)) (users db))
                 = map User._id (users db)).
  { apply update_first_map. intros v. unfold push_kid.
    now destruct (User._id v =? p)%N. }
  assert (Hnew : forall v, In v (users db) -> ~ In (next_oid db) (User.kids v)).
  { intros v Hv Hin. apply (Hlk v _ Hv) in Hin as (k0 & Hk0 & Hi & _).
    apply Hkb in Hk0. lia. }
  constructor; cbn [users kids next_oid].
  - now rewrite Hids.
  - rewrite map_app. cbn [map].
    apply NoDup_app; [exact Hk | repeat constructor; auto |].
    intros i Hi [<- | []]. apply in_map_iff in Hi as (w & Hw & Hin).
    apply Hkb in Hin. lia.
  - intros v Hv. destruct (map_eq_In User._id _ _ v Hids Hv) as (y & Hy & <-).
    apply Hub in Hy. lia.
  - intros k0 Hin. apply in_app_or in Hin as [Hin | [<- | []]];
      [apply Hkb in Hin|]; lia.
  - intros v Hv.
    apply users_update_In in Hv as [[Hv _] | (y & Hy & Hyid & ->)];
      [now apply Hl | | exact Hu].
    unfold push_kid. apply N.eqb_eq in Hyid as Hyb. rewrite Hyb.
    cbn [User.kids]. apply NoDup_app; [now apply Hl | repeat constructor; auto |].
    intros i Hi [<- | []]. now apply (Hnew y).
  - intros v i Hv.
    apply users_update_In in Hv as [[Hv Hne] | (y & Hy & Hyid & ->)];
      [| | exact Hu].
    + rewrite (Hlk v i Hv). split.
      * intros (k0 & Hin & Hi & Hp0). exists k0.
        split; [apply in_or_app; now left | now split].
      * intros (k0 & Hin & Hi & Hp0).
        apply in_app_or in Hin as [Hin | [<- | []]]; [now exists k0|].
        congruence.
    + unfold push_kid. apply N.eqb_eq in Hyid as Hyb. rewrite Hyb.
      cbn [User.kids User._id]. split.
      * intros Hin. apply in_app_or in Hin as [Hin | [<- | []]].
        -- apply (Hlk y i Hy) in Hin as (k0 & Hin & Hi & Hp0). exists k0.
           split; [apply in_or_app; now left | now split].
        -- exists k. split; [apply in_or_app; right; now left|].
           split; [exact Hid | congruence].
      * intros (k0 & Hin & Hi & Hp0). apply in_or_app.
        apply in_app_or in Hin as [Hin | [<- | []]].
        -- left. apply (Hlk y i Hy). now exists k0.
        -- right. left. congruence.
Qed.

Lemma wf_same_frames (db : Db) (ks : list Kid.t) :
  store_wf db ->
  map kid_frame ks = map kid_frame (kids db) ->
  store_wf (mkDb (users db) ks (next_oid db)).
Proof.
  intros [Hu Hk Hub Hkb Hl Hlk] Hfr.
  assert (Hids : map Kid._id ks = map Kid._id (kids db)).
  { assert (E : forall l, map Kid._id l = map (fun f => fst (fst f)) (map kid_frame l))
      by (intros l; rewrite map_map; reflexivity).
    now rewrite !E, Hfr. }
  constructor; cbn [users kids next_oid]; try assumption.
  - now rewrite Hids.
  - intros k Hin. destruct (map_eq_In kid_frame _ _ k Hfr Hin) as (y & Hy & E).
    apply Hkb in Hy. unfold kid_frame in E. injection E as E1 E2 _.
    rewrite <- E1, <- E2. exact Hy.
  - intros v i Hv. rewrite (Hlk v i Hv). split.
    + intros (k & Hin & Hi & Hp).
      destruct (map_eq_In kid_frame _ _ k (eq_sym Hfr) Hin) as (y & Hy & E).
      unfold kid_frame in E. injection E as E1 E2 _. exists y.
      split; [exact Hy | split; congruence].
    + intros (k & Hin & Hi & Hp).
      destruct (map_eq_In kid_frame _ _ k Hfr Hin) as (y & Hy & E).
      unfold kid_frame in E. injection E as E1 E2 _. exists y.
      split; [exact Hy | split; congruence].
Qed.

Lemma wf_delete (db : Db) (p : oid) (gone : Kid.t) (b c : list Kid.t) :
  store_wf db ->
  kids db = b ++ gone :: c -> Kid.parent gone = p ->
  store_wf
    (mkDb (update_first (fun v => (User._id v =? p)%N)
             (pull_kid (Kid._id gone)) (users db))
          (b ++ c) (next_oid db)).
Proof.
  intros [Hu Hk Hub Hkb Hl Hlk] Hks Hpar.
  assert (Hids : map User._id
                   (update_first (fun v => (User._id v =? p)%N)
                      (pull_kid (Kid._id gone)) (users db))
                 = map User._id (users db))
    by (apply update_first_map; reflexivity).
  assert (Hsub : forall k, In k (b ++ c) -> In k (kids db)).
  { intros k Hin. rewrite Hks. apply in_or_app.
    apply in_app_or in Hin as [Hin | Hin]; [now left | right; now right]. }
  assert (Hother : forall k, In k (b ++ c) -> Kid._id k <> Kid._id gone).
  { intros k Hin E. rewrite Hks, map_app in Hk. cbn [map] in Hk.
    apply NoDup_remove_2 in Hk. apply Hk. rewrite <- E, <- map_app.
    now apply in_map. }
  assert (Hrest : forall k, In k (kids db) -> Kid._id k <> Kid._id gone ->
                            In k (b ++ c)).
  { intros k Hin Hne. rewrite Hks in Hin. apply in_or_app.
    apply in_app_or in Hin as [Hin | [<- | Hin]]; [now left | | now right].
    now contradiction Hne. }
  constructor; cbn [users kids next_oid].
  - now rewrite Hids.
  - rewrite Hks, map_app in Hk. cbn [map] in Hk.
    apply NoDup_remove_1 in Hk. now rewrite map_app.
  - intros v Hv. destruct (map_eq_In User._id _ _ v Hids Hv) as (y & Hy & <-).
    now apply Hub.
  - intros k Hin. now apply Hkb, Hsub.
  - intros v Hv.
    apply users_update_In in Hv as [[Hv _] | (y & Hy & Hyid & ->)];
      [now apply Hl | | exact Hu].
    cbn [pull_kid User.kids]. apply NoDup_filter. now apply Hl.
  - intros v i Hv.
    apply users_update_In in Hv as [[Hv Hne] | (y & Hy & Hyid & ->)];
      [| | exact Hu].
    + rewrite (Hlk v i Hv). split.
      * intros (k & Hin & Hi & Hp0). exists k. split; [|now split].
        apply Hrest; [exact Hin|]. intros E.
        assert (k = gone)
          by (apply (NoDup_map_eq Kid._id (kids db)); try assumption;
              rewrite Hks; apply in_or_app; right; now left).
        congruence.
      * intros (k & Hin & Hi & Hp0). exists k. split; [now apply Hsub | now split].
    + cbn [pull_kid User.kids User._id]. rewrite filter_In, (Hlk y i Hy). split.
      * intros [(k & Hin & Hi & Hp0) Hne]. exists k. split; [|now split].
        apply Hrest; [exact Hin|]. intros E. rewrite <- Hi, E, N.eqb_refl in Hne.
        discriminate Hne.
      * intros (k & Hin & Hi & Hp0). split; [exists k; split; [now apply Hsub | now split]|].
        apply negb_true_iff, N.eqb_neq. rewrite <- Hi. now apply Hother.
Qed.

(** X27.  The well-formedness of the store is an invariant of the kid routes, for a
    caller whose id is below the counter (as that of every stored user is):
    ids keep identifying documents, and every [kids] array keeps listing,
    once each, exactly the profiles its user owns. *)
Theorem kid_handler_keeps_store_wf (now : Z) (db : Db) (u : User.t)
    (req : KidRequest) (r : KidResponse) (db' : Db) :
  store_wf db ->
  (User._id u < next_oid db)%N ->
  kid_handler now db u req = (r, db') ->
  store_wf db'.
Proof.
  intros Hwf Hbelow Hh.
  destruct req as [body | | [kidId|] | [kidId|] body | [kidId|]];
    cbn [kid_handler] in Hh;
    try (match type of Hh with context [Malformed] => idtac end;
         now injection Hh as _ <-).
  - destruct (addKid_inv _ _ _ _ _ _ Hh)
      as [(_ & _ & _ & ->) | (n & a & tags & _ & _ & _ & _ & Hk)];
      [exact Hwf|].
    cbn zeta in Hk. destruct Hk as (_ & _ & Hks & Hus & Hn).
    destruct db' as [us ks nx]. cbn [users kids next_oid] in Hks, Hus, Hn.
    subst us ks nx. now apply wf_add_kid.
  - now injection Hh as _ <-.
  - now injection Hh as _ <-.
  - destruct (updateKid_inv _ _ _ _ _ _ Hh)
      as [(_ & _ & ->)
         | (found & Hf & [(_ & _ & ->)
                         | [(m & ms & _ & _ & ->) | (Hv & _ & ->)]])];
      try exact Hwf.
    apply wf_same_frames; [exact Hwf|].
    apply update_first_map. intros k.
    now destruct (fold_write_fields (kid_edited found body)
                    (kid_modified (kid_edit found body)) k) as [-> _].
  - destruct (deleteKid_inv _ _ _ _ _ Hh)
      as [(_ & _ & ->) | (gone & b & c & Hf & _ & Hk & ->)]; [exact Hwf|].
    destruct (Kid_findOne_some _ _ _ _ Hf) as (_ & <- & Hpar).
    now apply wf_delete.
Qed.

(** X28.  On a well-formed store, what [GET /api/kids] lists for a stored user
    and what that user's [kids] array holds are the same ids. *)
Theorem getKids_agrees_with_kids_array (db : Db) (v : User.t) :
  store_wf db ->
  In v (users db) ->
  Permutation (map Kid._id (payload_kids (kid_payload (getKids db v))))
    (User.kids v).
Proof.
  intros [Hu Hk Hub Hkb Hl Hlk] Hv.
  unfold getKids. cbn [kid_payload payload_kids].
  assert (Hp := sort_newest_first_perm
                  (filter (fun k => (Kid.parent k =? User._id v)%N) (kids db))).
  fold (Kid_find_sorted (User._id v) db) in Hp.
  apply NoDup_Permutation.
  - apply (Permutation_NoDup (Permutation_map Kid._id Hp)).
    clear - Hk. induction (kids db) as [|a l IH]; cbn; [constructor|].
    inversion_clear Hk as [|? ? Hn Hnd]. destruct (Kid.parent a =? User._id v)%N.
    + cbn. constructor; [|now apply IH]. intros Hin. apply Hn.
      apply in_map_iff in Hin as (x & Hx & Hin). apply filter_In in Hin as [Hin _].
      rewrite <- Hx. now apply in_map.
    + now apply IH.
  - now apply Hl.
  - intros i. rewrite (Hlk v i Hv). split.
    + intros Hin. apply in_map_iff in Hin as (k & Hi & Hin).
      apply Kid_find_sorted_In in Hin as [Hin Hpar]. now exists k.
    + intros (k & Hin & Hi & Hpar). apply in_map_iff. exists k.
      split; [exact Hi|]. apply (Permutation_in _ Hp). apply filter_In.
      split; [exact Hin | now apply N.eqb_eq].
Qed.

Section SignupLinks.
Context `{BcryptLib} `{JwtLib}.

(** X8.  The well-formedness of the store is an invariant of signup, whatever it
    answers: also when a kid signup is refused after its account was
    stored. *)
Theorem signup_keeps_store_wf
    (env : Env) (now : Z) (salt : string) (rnd : nat -> bytes3) (fuel : nat)
    (db : Db) (body : Body.t) (resp : Response) (db' : Db) :
  store_wf db ->
  signup env now salt rnd fuel db body = Some (resp, db') ->
  store_wf db'.
Proof.
  intros Hwf Hs.
  destruct (signup_inv _ _ _ _ _ _ _ _ _ Hs)
    as [[-> _] | (_ & _ & _ & _ & user & db1 & fc & par & nm & HU & Hcase)];
    [exact Hwf|].
  apply User_create_fields in HU as (Hu & Hdb1 & _).
  assert (Hwf1 : store_wf db1)
    by (rewrite Hdb1; apply wf_add_user; [exact Hwf | |]; now rewrite Hu).
  destruct Hcase as [(_ & _ & _ & _ & _ & -> & _)
                    | (_ & _ & p & Hp & _ & _ & _ & Hkid)]; [exact Hwf1|].
  destruct Hkid as [(e & HK & _) | (k & db2 & HK & -> & _)].
  - now apply Kid_create_thrown_db in HK as ->.
  - apply Kid_create_fields in HK as (n & a & _ & _ & Hk & -> & _).
    unfold findByIdAndUpdate_push_kids. cbn [users kids next_oid].
    assert (Hid : Kid._id k = next_oid db1) by now rewrite Hk.
    rewrite Hid. apply wf_add_kid; [exact Hwf1 | | exact Hid | now rewrite Hk].
    apply findOne_familyCode_stored in Hp as (y & Hy & Hyid & _).
    rewrite <- Hyid, Hdb1. cbn [next_oid].
    apply (wf_users_below _ Hwf) in Hy. lia.
Qed.

End SignupLinks.

(** ** The e-mail pattern *)

Lemma all_chars_app (p : ascii -> bool) (a b : string) :
  all_chars p (a ++ b) = all_chars p a && all_chars p b.
Proof.
  induction a as [|x a IH]; cbn; [reflexivity|].
  now rewrite IH, andb_assoc.
Qed.

Lemma all_chars_weaken (p q : ascii -> bool) (s : string) :
  (forall c, p c = true -> q c = true) ->
  all_chars p s = true -> all_chars q s = true.
Proof.
  intros Hpq. induction s as [|c s IH]; cbn; [reflexivity|].
  intros Hs. apply andb_true_iff in Hs as [Hc Hs].
  now rewrite (Hpq c Hc), IH.
Qed.

Lemma matches_cat (a b : Regex.re) (s : string) :
  matches (Regex.cat a b) s -> matches (Regex.Cat a b) s.
Proof.
  unfold Regex.cat. intros Hm.
  destruct a; try (inversion Hm; fail);
    destruct b; try (inversion Hm; fail); try exact Hm;
    try (change s with ("" ++ s)%string; constructor; [constructor | exact Hm]).
Qed.

Lemma matches_alt (a b : Regex.re) (s : string) :
  matches (Regex.alt a b) s -> matches (Regex.Alt a b) s.
Proof.
  unfold Regex.alt. intros Hm.
  destruct a; destruct b; try exact Hm;
    try (now apply MAltR); try (now apply MAltL).
Qed.

Lemma matches_nullable (r : Regex.re) :
  Regex.nullable r = true -> matches r "".
Proof.
  induction r as [| | p | a IHa b IHb | a IHa b IHb | a IHa]; cbn;
    try discriminate; intros Hn.
  - constructor.
  - apply andb_true_iff in Hn as [Ha Hb].
    change "" with ("" ++ "")%string. constructor; auto.
  - apply orb_true_iff in Hn as [Ha | Hb]; [apply MAltL | apply MAltR]; auto.
  - constructor.
Qed.

Lemma matches_deriv (r : Regex.re) (c : ascii) (s : string) :
  matches (Regex.deriv c r) s -> matches r (String c s).
Proof.
  revert s.
  induction r as [| | p | a IHa b IHb | a IHa b IHb | a IHa]; cbn; intros s Hm.
  - inversion Hm.
  - inversion Hm.
  - destruct (p c) eqn:Hp; inversion Hm; subst. now constructor.
  - assert (Hleft : matches (Regex.cat (Regex.deriv c a) b) s ->
                    matches (Regex.Cat a b) (String c s)).
    { intros Hc. apply matches_cat in Hc. inversion Hc; subst.
      change (String c (s1 ++ s2)) with (String c s1 ++ s2)%string.
      constructor; auto. }
    destruct (Regex.nullable a) eqn:Hn; [|auto].
    apply matches_alt in Hm. inversion Hm; subst; [auto|].
    change (String c s) with ("" ++ String c s)%string.
    constructor; [now apply matches_nullable | auto].
  - apply matches_alt in Hm. inversion Hm; subst;
      [apply MAltL | apply MAltR]; auto.
  - apply matches_cat in Hm. inversion Hm; subst.
    change (String c (s1 ++ s2)) with (String c s1 ++ s2)%string.
    constructor; auto.
Qed.

(** What the matcher accepts, the pattern denotes. *)
Lemma test_matches (r : Regex.re) (s : string) :
  Regex.test r s = true -> matches r s.
Proof.
  revert r. induction s as [|c s IH]; cbn; intros r Ht.
  - now apply matches_nullable.
  - now apply matches_deriv, IH.
Qed.

Lemma matches_alphabet (r : Regex.re) (s : string) :
  matches r s -> all_chars (alphabet r) s = true.
Proof.
  induction 1; cbn; try reflexivity.
  - now rewrite H.
  - rewrite all_chars_app. apply andb_true_iff. split.
    + eapply all_chars_weaken; [|exact IHmatches1]. intros c ->. reflexivity.
    + eapply all_chars_weaken; [|exact IHmatches2]. intros c ->.
      apply orb_true_r.
  - eapply all_chars_weaken; [|exact IHmatches]. intros c ->. reflexivity.
  - eapply all_chars_weaken; [|exact IHmatches]. intros c ->.
    apply orb_true_r.
  - rewrite all_chars_app. apply andb_true_iff. split; assumption.
Qed.

Lemma matches_star_last (a : Regex.re) (s : string) :
  matches (Regex.Star a) s ->
  s = "" \/ exists s1 s2,
              s = (s1 ++ s2)%string /\ matches (Regex.Star a) s1
              /\ matches a s2.
Proof.
  intros Hm. remember (Regex.Star a) as r eqn:Hr.
  induction Hm; try discriminate Hr; [now left|].
  injection Hr as ->. right.
  destruct (IHHm2 eq_refl) as [-> | (t1 & t2 & -> & Ht1 & Ht2)].
  - exists "", s1. rewrite app_empty_r. repeat split; [constructor | exact Hm1].
  - exists (s1 ++ t1)%string, t2. rewrite app_assoc_s.
    repeat split; [now constructor | exact Ht2].
Qed.

Lemma matches_plus_last (a : Regex.re) (s : string) :
  matches (Regex.Plus a) s ->
  exists s1 s2,
    s = (s1 ++ s2)%string /\ matches (Regex.Star a) s1 /\ matches a s2.
Proof.
  unfold Regex.Plus. intros Hm. inversion Hm as [| |? ? t1 t2 H1 H2| | | |]; subst.
  destruct (matches_star_last _ _ H2) as [-> | (r1 & r2 & -> & Hr1 & Hr2)].
  - exists "", t1. rewrite app_empty_r. repeat split; [constructor | exact H1].
  - exists (t1 ++ r1)%string, r2. rewrite app_assoc_s.
    repeat split; [now constructor | exact Hr2].
Qed.

Lemma matches_word (s : string) :
  matches Regex.word s -> exists c, s = String c "" /\ word_char c = true.
Proof.
  unfold Regex.word. intros Hm. inversion Hm; subst. now exists c.
Qed.

Lemma matches_lit (x : ascii) (s : string) :
  matches (Regex.lit x) s -> s = String x "".
Proof.
  unfold Regex.lit. intros Hm. inversion Hm as [|? c Hc| | | | |]; subst.
  apply Ascii.eqb_eq in Hc. now subst.
Qed.

(** X29.  An address the schema accepts is a local part, an at sign, a domain, a
    dot and a last label: local part and domain are not empty and made of
    word characters, dots and hyphens; the last label is two or three word
    characters.  So it holds exactly one at sign and no blank. *)
Theorem accepted_address_shape (s : string) :
  Regex.test emailPattern s = true ->
  exists loc domain label,
    s = (loc ++ "@" ++ domain ++ "." ++ label)%string
    /\ loc <> "" /\ domain <> ""
    /\ all_chars label_char loc = true
    /\ all_chars label_char domain = true
    /\ all_chars word_char label = true
    /\ (2 <= String.length label <= 3)%nat.
Proof.
  intros Ht. apply test_matches in Ht. unfold emailPattern in Ht.
  cbv zeta in Ht.
  inversion Ht as [| |? ? A r1 HA H1| | | |]; subst; clear Ht.
  inversion H1 as [| |? ? T r2 HT H2| | | |]; subst; clear H1.
  inversion H2 as [| |? ? at_ r3 Hat H3| | | |]; subst; clear H2.
  inversion H3 as [| |? ? B r4 HB H4| | | |]; subst; clear H3.
  inversion H4 as [| |? ? T2 P HT2 HP| | | |]; subst; clear H4.
  apply matches_lit in Hat as ->.
  apply matches_plus_last in HP as (S1 & L & -> & HS1 & HL).
  inversion HL as [| |? ? dot r5 Hdot H5| | | |]; subst; clear HL.
  apply matches_lit in Hdot as ->.
  inversion H5 as [| |? ? w1 r6 Hw1 H6| | | |]; subst; clear H5.
  inversion H6 as [| |? ? w2 r7 Hw2 H7| | | |]; subst; clear H6.
  apply matches_word in Hw1 as (c1 & -> & Hc1).
  apply matches_word in Hw2 as (c2 & -> & Hc2).
  apply matches_alphabet in HT, HT2, HS1.
  assert (HA' := matches_alphabet _ _ HA). assert (HB' := matches_alphabet _ _ HB).
  assert (Hne : forall x, matches (Regex.Plus Regex.word) x -> x <> "").
  { intros x Hx. inversion Hx as [| |? ? y z Hy Hz| | | |]; subst.
    apply matches_word in Hy as (c & -> & _). discriminate. }
  assert (Hw : forall x, all_chars (alphabet (Regex.Plus Regex.word)) x = true ->
                         all_chars label_char x = true).
  { intros x. apply all_chars_weaken. intros c.
    cbn [alphabet Regex.Plus Regex.word]. unfold label_char, word_char.
    intros Hc. apply orb_true_iff in Hc as [-> | ->]; reflexivity. }
  assert (Hsep : forall c,
             alphabet (Regex.Star
                         (Regex.Cat
                            (Regex.Opt (Regex.Alt (Regex.lit ".") (Regex.lit "-")))
                            (Regex.Plus Regex.word))) c = true ->
             label_char c = true).
  { intros c. cbn [alphabet Regex.Opt Regex.Plus Regex.lit Regex.word].
    unfold label_char, word_char.
    rewrite (Ascii.eqb_sym "." c), (Ascii.eqb_sym "-" c).
    destruct (is_upper c || is_lower c || is_digit c || Ascii.eqb c "_"),
      (Ascii.eqb c "."), (Ascii.eqb c "-"); cbn; intros; congruence. }
  assert (Htld : forall c,
             alphabet (Regex.Star
                         (Regex.Cat (Regex.lit ".")
                            (Regex.Cat Regex.word
                               (Regex.Cat Regex.word (Regex.Opt Regex.word))))) c
             = true -> label_char c = true).
  { intros c. cbn [alphabet Regex.Opt Regex.Plus Regex.lit Regex.word].
    unfold label_char, word_char.
    rewrite (Ascii.eqb_sym "." c).
    destruct (is_upper c || is_lower c || is_digit c || Ascii.eqb c "_"),
      (Ascii.eqb c "."), (Ascii.eqb c "-"); cbn; intros; congruence. }
  assert (Hlast : exists w3, r7 = w3 /\ all_chars word_char w3 = true
                             /\ (String.length w3 <= 1)%nat).
  { exists r7. split; [reflexivity|].
    inversion H7 as [| | |? ? ? He|? ? ? Hw3| |]; subst.
    - inversion He; subst. cbn. auto.
    - apply matches_word in Hw3 as (c3 & -> & Hc3). cbn. rewrite Hc3. auto. }
  destruct Hlast as (w3 & -> & Hw3 & Hlen).
  exists (A ++ T)%string, (B ++ T2 ++ S1)%string,
    (String c1 "" ++ String c2 "" ++ w3)%string.
  split; [|split; [|split; [|split; [|split; [|split]]]]].
  - rewrite !app_assoc_s. reflexivity.
  - intros E. apply (Hne A HA). destruct A; [reflexivity | discriminate E].
  - intros E. apply (Hne B HB). destruct B; [reflexivity | discriminate E].
  - rewrite all_chars_app, (Hw A HA').
    now rewrite (all_chars_weaken _ _ T Hsep HT).
  - rewrite !all_chars_app, (Hw B HB').
    rewrite (all_chars_weaken _ _ T2 Hsep HT2).
    now rewrite (all_chars_weaken _ _ S1 Htld HS1).
  - cbn. now rewrite Hc1, Hc2, Hw3.
  - cbn. lia.
Qed.

(** ** Family codes on the stores the service comes to hold *)

Section FamilyCodes.
Context `{BcryptLib} `{JwtLib}.










End FamilyCodes.

Section FamilyCodesClaim.
Context `{BcryptLib} `{JwtLib}.




End FamilyCodesClaim.

(** * Runs on the plain libraries *)

(** The plain codec reads back what it writes. *)

Lemma append_empty_r (s : string) : (s ++ "")%string = s.
Proof. induction s as [|c s IH]; cbn; [reflexivity | now rewrite IH]. Qed.

Lemma dec_nat_enc (n : nat) (r : string) :
  Plain.dec_nat (Plain.enc_nat n ++ r) = Some (n, r).
Proof. induction n as [|n IH]; cbn; [reflexivity | now rewrite IH]. Qed.

Lemma dec_str_enc (s r : string) :
  Plain.dec_str (Plain.enc_str s ++ r) = Some (s, r).
Proof. induction s as [|c s IH]; cbn; [reflexivity | now rewrite IH]. Qed.

Lemma dec_Z_enc (z : Z) (r : string) :
  Plain.dec_Z (Plain.enc_Z z ++ r) = Some (z, r).
Proof.
  unfold Plain.enc_Z, Plain.dec_Z. cbn [append]. rewrite dec_nat_enc.
  destruct (Z.ltb_spec z 0); cbn; repeat f_equal; lia.
Qed.

Lemma dec_exp_enc (e : option Z) (r : string) :
  Plain.dec_exp (Plain.enc_exp e ++ r) = Some (e, r).
Proof.
  destruct e as [z|]; [|reflexivity].
  cbn -[Plain.enc_Z Plain.dec_Z]. now rewrite dec_Z_enc.
Qed.

Lemma dec_claims_encode (c : Claims) :
  Plain.dec_claims (Plain.plain_encode c) = Some c.
Proof.
  destruct c as [id role i e]. unfold Plain.plain_encode, Plain.dec_claims.
  cbn [claim_id claim_role iat exp].
  rewrite dec_nat_enc, dec_str_enc, dec_Z_enc.
  rewrite <- (append_empty_r (Plain.enc_exp e)).
  rewrite dec_exp_enc, N2Nat.id. reflexivity.
Qed.

Lemma plain_decode_compact (c : Claims) (tag : string) :
  Plain.plain_decode (Plain.plain_compact (Plain.plain_encode c) tag)
  = Some (Plain.plain_encode c, c, tag).
Proof.
  unfold Plain.plain_decode, Plain.plain_compact.
  now rewrite dec_str_enc, dec_claims_encode.
Qed.

#[local] Instance plain_jwt : JwtLib :=
  {| hmac := Plain.plain_hmac;
     jws_encode := Plain.plain_encode;
     jws_compact := Plain.plain_compact;
     jws_decode := Plain.plain_decode;
     jws_decode_compact := plain_decode_compact;
     jws_decode_empty := eq_refl |}.

#[local] Existing Instance Plain.bcrypt.

(** The scenarios of the specification. *)

Example scenario_parent_signup :
  exists tok,
    signup Sample.env 5000 "salt" (Sample.late 1) 1
      Sample.empty Sample.parentBody
    = Some (mkResponse 201 true (Some "User created successfully") (Some tok)
              (Some (Data.mk 1%N "p1@x.com" "parent" 5000%Z (Some "A3F2B1")
                       None None None None)),
            Sample.family).
Proof. eexists. vm_compute. reflexivity. Qed.

Example scenario_kid_signup :
  exists tok,
    signup Sample.env 6000 "salt" (Sample.late 0) 0
      Sample.family (Sample.kidBody "k1@x.com" "a3f2b1")
    = Some (mkResponse 201 true (Some "User created successfully") (Some tok)
              (Some (Data.mk 2%N "k1@x.com" "kid" 6000%Z None (Some "Al")
                       (Some 1%N) (Some 3%N) (Some 10%Z))),
            mkDb [push_kid 1%N 3%N Sample.parent1; Sample.kid1]
              [Kid.mk 3%N "Al" 10%Z "from-blue-400 to-purple-500" [] 1%N 6000%Z]
              4%N).
Proof. eexists. vm_compute. reflexivity. Qed.

Example scenario_login_unknown_address :
  login Sample.env 7000 Sample.family
    (Body.mk (JStr "nobody@x.com") (JStr "secret1") JUndefined JUndefined
       JUndefined JUndefined)
  = fail 401 "Invalid email or password".
Proof. reflexivity. Qed.

Example scenario_login_then_guard :
  exists tok,
    token (login Sample.env 7000 Sample.family
             (Body.mk (JStr " P1@X.com") (JStr "secret1") JUndefined JUndefined
                JUndefined JUndefined))
    = Some tok
    /\ fst (auth Sample.env 9000 Sample.family (Some ("Bearer " ++ tok)%string))
       = Next (without_password Sample.parent1).
Proof. eexists. split; vm_compute; reflexivity. Qed.

(** A no-break space before the address is trimmed like a space. *)
Example scenario_signup_no_break_space :
  signup Sample.env 7000 "salt" (Sample.late 0) 1 Sample.family
    (Body.mk (JStr (String (ascii_of_nat 160) "p1@x.com")) (JStr "secret1")
       JUndefined JUndefined JUndefined JUndefined)
  = Some (fail 409 "User with this email already exists", Sample.family).
Proof. reflexivity. Qed.



(** C6 on the plain libraries: the minute-long token of [parent1], presented
    100 seconds after the epoch, has expired; the same claims signed with
    another key are an invalid token, at any time. *)
Lemma C6_expired_and_forged_witness :
  auth Sample.env 100000 Sample.family (Some ("Bearer " ++ Sample.token1)%string)
  = (Rejected (fail 401 "Token has expired"), [JwtVerify Sample.token1])
  /\ auth Sample.env 6000 Sample.family (Some ("Bearer " ++ Sample.forged1)%string)
     = (Rejected (fail 401 "Invalid token"), [JwtVerify Sample.forged1]).
Proof.
  split.
  - refine (proj2 (proj1
      (C6_expired_and_forged_tokens_rejected Sample.env 100000 Sample.family
         "s3cret" Sample.token1 (Plain.plain_encode Sample.claims1)
         (Plain.plain_hmac "s3cret" (Plain.plain_encode Sample.claims1))
         Sample.claims1 eq_refl eq_refl eq_refl eq_refl)
      65%Z eq_refl eq_refl _)).
    vm_compute. discriminate.
  - refine (proj2 (proj1 (proj2
      (C6_expired_and_forged_tokens_rejected Sample.env 6000 Sample.family
         "s3cret" Sample.forged1 (Plain.plain_encode Sample.claims1)
         (Plain.plain_hmac "guess" (Plain.plain_encode Sample.claims1))
         Sample.claims1 eq_refl eq_refl eq_refl eq_refl))
      "guess" eq_refl _)).
    vm_compute. discriminate.
Defined.


(** C8 on the plain libraries: entropy that draws the parent's code twice
    and then every outcome in turn, from 00 00 00 on. *)
Lemma C8_loop_terminates_witness :
  draws_every_outcome (Sample.late 2)
  /\ (exists c, producible c /\ code_unused Sample.family c)
  /\ exists fuel c,
       code_unused Sample.family c /\ producible c
       /\ forall fuel', (fuel <= fuel')%nat ->
            unique_code_loop fuel' (Sample.late 2) 0 Sample.family = Some c
            /\ forall env now salt body,
                 schema_typed body = true ->
                 exists r db',
                   signup env now salt (Sample.late 2) fuel' Sample.family body
                   = Some (r, db').
Proof.
  assert (Hfree : exists c, producible c /\ code_unused Sample.family c).
  { exists "000000". split; [now exists (x00, (x00, x00))|].
    intros u [<- | []]. discriminate. }
  split; [apply late_draws_every_outcome|]. split; [exact Hfree|].
  exact (proj1 (C8_unique_code_loop_terminates Sample.family (Sample.late 2)
                  (late_draws_every_outcome 2) Hfree)).
Defined.

(** C9 on the plain libraries: the kid of the sample family is loaded,
    renamed and saved, which calls bcrypt not at all and keeps both digests;
    given a new password instead, the same save hashes it once and stores
    the hash in the kid's document. *)
Lemma C9_save_witness :
  (let db := mkDb [Sample.parent1; Sample.kid1] [] 3%N in
   forall r db' calls,
     User_save "pepper" db (set_name "Bob" (hydrate Sample.kid1)) = (r, db', calls) ->
     calls = []
     /\ map User.password (users db')
        = [Some "salt$secret1"; Some "salt$secret1"])
  /\ User_save "pepper" (mkDb [Sample.parent1; Sample.kid1] [] 3%N)
       (set_password "secret9" (hydrate Sample.kid1))
     = (Ok (with_password (Some "pepper$secret9") Sample.kid1),
        mkDb [Sample.parent1; with_password (Some "pepper$secret9") Sample.kid1]
          [] 3%N,
        [GenSalt 10; Hash "secret9" "pepper"]).
Proof.
  split.
  - intros db r db' calls Hs.
    pose proof (proj2 (proj2 (proj2
                  (C9_password_hashed_exactly_when_modified "pepper" db
                     (set_name "Bob" (hydrate Sample.kid1)))))
                  r db' calls Hs) as [Hsame _].
    destruct (Hsame eq_refl) as [Hc Hp].
    split; [exact Hc | exact (Hp eq_refl)].
  - reflexivity.
Defined.

(** C5 on the plain libraries: a kid joins the sample family at second 6
    with a token valid for a minute, verified at second 30. *)
Lemma C5_signup_token_witness :
  exists resp db',
    signup Sample.env 6000 "salt" (Sample.late 0) 0
      Sample.family (Sample.kidBody "k1@x.com" "a3f2b1") = Some (resp, db')
    /\ status resp = 201%Z
    /\ exists user stored tok d c,
         users db' = stored ++ [user]
         /\ List.length stored = List.length (users Sample.family)
         /\ token resp = Some tok
         /\ data resp = Some d
         /\ Data.id d = User._id user /\ Data.role d = User.role user
         /\ jwt_verify tok (JWT_SECRET Sample.env) 30000 = Ok c
         /\ claim_id c = User._id user
         /\ claim_role c = User.role user.
Proof.
  destruct (signup Sample.env 6000 "salt" (Sample.late 0) 0
              Sample.family (Sample.kidBody "k1@x.com" "a3f2b1"))
    as [[resp db']|] eqn:Hs; [|vm_compute in Hs; discriminate Hs].
  exists resp, db'. split; [reflexivity|].
  assert (Hst : status resp = 201%Z).
  { vm_compute in Hs. injection Hs as <- _. reflexivity. }
  split; [exact Hst|].
  apply (C5_signup_token_verifies_to_created_user Sample.env 6000 30000 "salt"
           (Sample.late 0) 0 Sample.family
           (Sample.kidBody "k1@x.com" "a3f2b1") resp db' Hs Hst).
  intros ttl [= <-]. reflexivity.
Defined.

(** ** The further properties, run on the plain libraries *)

(** A second parent signs up to the sample family, with entropy that draws
    the stored code twice before a free one. *)
Lemma parent_signup_postcondition_witness :
  exists resp db',
    signup Sample.env 7000 "salt" (Sample.late 2) 3 Sample.family
      Sample.parent2Body = Some (resp, db')
    /\ status resp = 201%Z
    /\ exists code,
         code_unused Sample.family code
         /\ db' = mkDb [Sample.parent1;
                        User.mk 2%N "p2@x.com" (Some "salt$secret2") "parent"
                          (Some code) None None [] 7000%Z] [] 3%N.
Proof.
  destruct (signup Sample.env 7000 "salt" (Sample.late 2) 3 Sample.family
              Sample.parent2Body) as [[resp db']|] eqn:Hs; [|vm_compute in Hs; discriminate Hs].
  exists resp, db'. split; [reflexivity|].
  assert (Hst : status resp = 201%Z).
  { vm_compute in Hs. injection Hs as <- _. reflexivity. }
  split; [exact Hst|].
  destruct (parent_signup_postcondition Sample.env 7000 "salt" (Sample.late 2)
              3 Sample.family Sample.parent2Body resp db' Hs Hst eq_refl)
    as (code & user & tok & Hun & _ & Hu & Hdb & _).
  exists code. split; [exact Hun|]. rewrite Hdb, Hu. reflexivity.
Defined.

(** A kid joins the first family of the two. *)
Lemma kid_signup_postcondition_witness :
  exists resp db',
    signup Sample.env 9000 "salt" (Sample.late 0) 0
      Household.db (Household.joinBody 9) = Some (resp, db')
    /\ status resp = 201%Z
    /\ kids db'
       = [Household.al; Household.bea;
          Kid.mk 7%N "Kim" 9%Z "from-blue-400 to-purple-500" [] 1%N 9000%Z].
Proof.
  destruct (signup Sample.env 9000 "salt" (Sample.late 0) 0
              Household.db (Household.joinBody 9))
    as [[resp db']|] eqn:Hs; [|vm_compute in Hs; discriminate Hs].
  exists resp, db'. split; [reflexivity|].
  assert (Hst : status resp = 201%Z).
  { vm_compute in Hs. injection Hs as <- _. reflexivity. }
  split; [exact Hst|].
  destruct (kid_signup_postcondition Sample.env 9000 "salt"
              (Sample.late 0) 0 Household.db
              (Household.joinBody 9) resp db' Hs Hst eq_refl)
    as (p & n & a & user & k & tok & Hp & Hn & Ha & _ & Hk & Hdb & _).
  injection Hp as <-. injection Hn as <-. injection Ha as <-.
  rewrite Hdb, Hk. reflexivity.
Defined.

(** A kid of 19 joins: the account is stored, the profile is refused, and
    the address is taken. *)
Lemma kid_signup_can_leave_an_account_behind_witness :
  exists resp db',
    signup Sample.env 9000 "salt" (Sample.late 0) 0
      Household.db (Household.joinBody 19) = Some (resp, db')
    /\ status resp = 400%Z /\ db' <> Household.db
    /\ message resp = Some "Age cannot exceed 18"
    /\ map User.email (users db')
       = ["p1@x.com"; "k1@x.com"; "p2@x.com"; "k9@x.com"]
    /\ kids db' = kids Household.db
    /\ signup Sample.env 9500 "salt" (Sample.late 0) 0 db'
         (Household.joinBody 9)
       = Some (fail 409 "User with this email already exists", db').
Proof.
  destruct (signup Sample.env 9000 "salt" (Sample.late 0) 0
              Household.db (Household.joinBody 19))
    as [[resp db']|] eqn:Hs; [|vm_compute in Hs; discriminate Hs].
  exists resp, db'. split; [reflexivity|].
  assert (Hst : status resp = 400%Z).
  { vm_compute in Hs. injection Hs as <- _. reflexivity. }
  assert (Hne : db' <> Household.db).
  { vm_compute in Hs. injection Hs as _ <-. discriminate. }
  split; [exact Hst|]. split; [exact Hne|].
  destruct (kid_signup_can_leave_an_account_behind Sample.env 9000 "salt"
              (Sample.late 0) 0 Household.db
              (Household.joinBody 19) resp db' Hs Hst Hne)
    as [(user & p & Hp & _ & Hmail & Husers & Hkids & Hresp) Hlater].
  injection Hp as <-.
  split; [rewrite Hresp; reflexivity|].
  split; [rewrite Husers, map_app; cbn [map]; rewrite Hmail; reflexivity|].
  split; [exact Hkids|].
  apply Hlater; [reflexivity | reflexivity |].
  intros c Hc. destruct c; try reflexivity. now contradiction Hc.
Defined.

Lemma Household_kids_valid (k : Kid.t) :
  In k (kids Household.db) -> kid_valid k.
Proof.
  intros [<- | [<- | []]]; unfold kid_valid; cbn;
    repeat split; try lia; discriminate.
Qed.

Lemma Household_wf : store_wf Household.db.
Proof.
  constructor; cbn [Household.db users kids next_oid map].
  - repeat constructor; cbn; intuition discriminate.
  - repeat constructor; cbn; intuition discriminate.
  - intros v [<- | [<- | [<- | []]]]; reflexivity.
  - intros k [<- | [<- | []]]; split; reflexivity.
  - intros v [<- | [<- | [<- | []]]]; cbn; repeat constructor; cbn; intuition.
  - intros v i [<- | [<- | [<- | []]]]; cbn; split.
    + intros [<- | []]. exists Household.al. cbn. auto.
    + intros (k & [<- | [<- | []]] & Hi & Hp); cbn in *;
        [now left | discriminate Hp].
    + intros [].
    + intros (k & [<- | [<- | []]] & Hi & Hp); cbn in *; discriminate Hp.
    + intros [<- | []]. exists Household.bea. cbn. auto.
    + intros (k & [<- | [<- | []]] & Hi & Hp); cbn in *;
        [discriminate Hp | now left].
Qed.

(** Whatever a signup answers: here the kid of 19, whose account stays. *)
Lemma signup_only_appends_witness :
  exists resp db' new_users,
    signup Sample.env 9000 "salt" (Sample.late 0) 0
      Household.db (Household.joinBody 19) = Some (resp, db')
    /\ map account (users db')
       = map account (users Household.db) ++ map account new_users
    /\ (List.length new_users <= 1)%nat
    /\ (List.length (kids db') <= List.length (kids Household.db) + 1)%nat.
Proof.
  destruct (signup Sample.env 9000 "salt" (Sample.late 0) 0
              Household.db (Household.joinBody 19))
    as [[resp db']|] eqn:Hs; [|vm_compute in Hs; discriminate Hs].
  destruct (signup_only_appends Sample.env 9000 "salt"
              (Sample.late 0) 0 Household.db
              (Household.joinBody 19) resp db' Hs)
    as (nu & nk & Hu & Hk & Hnu & Hnk).
  exists resp, db', nu. split; [reflexivity|]. split; [exact Hu|].
  split; [exact Hnu|]. rewrite Hk, length_app. lia.
Defined.

Lemma signup_keeps_parent_codes_distinct_witness :
  exists resp db',
    NoDup (parent_codes (users Household.db))
    /\ signup Sample.env 7000 "salt" (Sample.late 2) 3 Household.db
         (Body.mk (JStr "p3@x.com") (JStr "secret3") JUndefined JUndefined JUndefined JUndefined)
       = Some (resp, db')
    /\ NoDup (parent_codes (users db')).
Proof.
  destruct (signup Sample.env 7000 "salt" (Sample.late 2) 3 Household.db
              (Body.mk (JStr "p3@x.com") (JStr "secret3") JUndefined JUndefined JUndefined JUndefined))
    as [[resp db']|] eqn:Hs; [|vm_compute in Hs; discriminate Hs].
  assert (Hnd : NoDup (parent_codes (users Household.db))).
  { repeat constructor; cbn; intuition discriminate. }
  exists resp, db'. split; [exact Hnd|]. split; [reflexivity|].
  exact (signup_keeps_parent_codes_distinct Sample.env 7000 "salt"
           (Sample.late 2) 3 Household.db _ resp db' Hnd Hs).
Defined.

Lemma signup_keeps_addresses_valid_witness :
  exists resp db',
    addresses_valid Household.db
    /\ signup Sample.env 9000 "salt" (Sample.late 0) 0
         Household.db (Household.joinBody 9) = Some (resp, db')
    /\ addresses_valid db'.
Proof.
  destruct (signup Sample.env 9000 "salt" (Sample.late 0) 0
              Household.db (Household.joinBody 9))
    as [[resp db']|] eqn:Hs; [|vm_compute in Hs; discriminate Hs].
  assert (Hv : addresses_valid Household.db).
  { intros u [<- | [<- | [<- | []]]]; split; reflexivity. }
  exists resp, db'. split; [exact Hv|]. split; [reflexivity|].
  exact (signup_keeps_addresses_valid Sample.env 9000 "salt"
           (Sample.late 0) 0 Household.db _ resp db' Hv Hs).
Defined.

Lemma signup_keeps_kids_valid_witness :
  exists resp db',
    (forall k, In k (kids Household.db) -> kid_valid k)
    /\ signup Sample.env 9000 "salt" (Sample.late 0) 0
         Household.db (Household.joinBody 9) = Some (resp, db')
    /\ (List.length (kids db') = 3)%nat
    /\ forall k, In k (kids db') -> kid_valid k.
Proof.
  destruct (signup Sample.env 9000 "salt" (Sample.late 0) 0
              Household.db (Household.joinBody 9))
    as [[resp db']|] eqn:Hs; [|vm_compute in Hs; discriminate Hs].
  exists resp, db'. split; [exact Household_kids_valid|].
  split; [reflexivity|]. split.
  - vm_compute in Hs. injection Hs as _ <-. reflexivity.
  - exact (signup_keeps_kids_valid Sample.env 9000 "salt"
             (Sample.late 0) 0 Household.db _ resp db'
             Household_kids_valid Hs).
Defined.

Lemma signup_keeps_store_wf_witness :
  exists resp db',
    store_wf Household.db
    /\ signup Sample.env 9000 "salt" (Sample.late 0) 0
         Household.db (Household.joinBody 9) = Some (resp, db')
    /\ status resp = 201%Z
    /\ store_wf db'.
Proof.
  destruct (signup Sample.env 9000 "salt" (Sample.late 0) 0
              Household.db (Household.joinBody 9))
    as [[resp db']|] eqn:Hs; [|vm_compute in Hs; discriminate Hs].
  exists resp, db'. split; [exact Household_wf|].
  split; [reflexivity|]. split.
  - vm_compute in Hs. injection Hs as <- _. reflexivity.
  - exact (signup_keeps_store_wf Sample.env 9000 "salt"
             (Sample.late 0) 0 Household.db _ resp db'
             Household_wf Hs).
Defined.

(** The guard lets the token of [parent1] through at second 30. *)
Lemma auth_next_sound_witness :
  exists user trace,
    auth Sample.env 30000 Household.db
      (Some ("Bearer " ++ Sample.token1)%string) = (Next user, trace)
    /\ User._id user = 1%N /\ User.password user = None
    /\ trace = [JwtVerify Sample.token1; UserFindById 1%N].
Proof.
  destruct (auth Sample.env 30000 Household.db
              (Some ("Bearer " ++ Sample.token1)%string))
    as [[r | user] trace] eqn:Ha; [discriminate Ha|].
  exists user, trace. split; [reflexivity|].
  destruct (auth_next_sound Sample.env 30000 Household.db _ user trace Ha)
    as (t & c & stored & Hh & _ & Hv & _ & Hid & Hu & Hpw & Htr).
  injection Hh as Ht. subst t.
  vm_compute in Hv. injection Hv as <-.
  split; [rewrite Hu; exact Hid|]. split; [exact Hpw | exact Htr].
Defined.

(** The token of [parent1], presented to a store that holds no user. *)
Lemma auth_unknown_user_witness :
  jwt_verify Sample.token1 (JWT_SECRET Sample.env) 30000 = Ok Sample.claims1
  /\ auth Sample.env 30000 Sample.empty
       (Some ("Bearer " ++ Sample.token1)%string)
     = (Rejected (fail 401 "User not found"),
        [JwtVerify Sample.token1; UserFindById 1%N]).
Proof.
  assert (Hv : jwt_verify Sample.token1 (JWT_SECRET Sample.env) 30000
               = Ok Sample.claims1) by reflexivity.
  split; [exact Hv|].
  apply (auth_unknown_user Sample.env 30000 Sample.empty Sample.token1
           Sample.claims1 Hv).
  intros u [].
Defined.

(** [parent1] logs in at second 7; the token is checked at second 30. *)
Lemma login_success_witness :
  let body := Body.mk (JStr " P1@X.com") (JStr "secret1") JUndefined JUndefined
                JUndefined JUndefined in
  status (login Sample.env 7000 Sample.family body) = 200%Z
  /\ exists tok c,
       token (login Sample.env 7000 Sample.family body) = Some tok
       /\ jwt_verify tok (JWT_SECRET Sample.env) 30000 = Ok c
       /\ claim_id c = 1%N /\ claim_role c = "parent".
Proof.
  intros body.
  assert (Hst : status (login Sample.env 7000 Sample.family body) = 200%Z)
    by reflexivity.
  split; [exact Hst|].
  destruct (login_success Sample.env 7000 30000 Sample.family body Hst)
    as (user & digest & tok & c & Hf & _ & _ & Htok & _ & Hv & Hid & Hrole).
  { intros ttl [= <-]. reflexivity. }
  injection Hf as <-. exists tok, c.
  split; [exact Htok|]. split; [exact Hv|]. split; [exact Hid | exact Hrole].
Defined.


(** The second parent signs up at second 7 and asks who it is at second
    30. *)
Lemma signup_then_me_witness :
  exists resp db' tok,
    signup Sample.env 7000 "salt" (Sample.late 2) 3 Sample.family
      Sample.parent2Body = Some (resp, db')
    /\ status resp = 201%Z
    /\ token resp = Some tok
    /\ me_route Sample.env 30000 db' (Some ("Bearer " ++ tok)%string)
       = MeFound 200
           (Me.mk 2%N "p2@x.com" "parent" 7000%Z (Some (Some "000000"))
              (Some []) None None).
Proof.
  destruct (signup Sample.env 7000 "salt" (Sample.late 2) 3 Sample.family
              Sample.parent2Body) as [[resp db']|] eqn:Hs; [|vm_compute in Hs; discriminate Hs].
  assert (Hst : status resp = 201%Z).
  { vm_compute in Hs. injection Hs as <- _. reflexivity. }
  destruct (signup_then_me Sample.env 7000 30000 "salt" (Sample.late 2) 3
              Sample.family Sample.parent2Body resp db' Hs Hst)
    as (d & tok & Hd & Htok & Hme).
  { intros u [<- | []]. discriminate. }
  { intros ttl [= <-]. reflexivity. }
  exists resp, db', tok. split; [reflexivity|]. split; [exact Hst|].
  split; [exact Htok|]. rewrite Hme.
  vm_compute in Hs. injection Hs as <- _. injection Hd as <-. reflexivity.
Defined.

(** ** The kid routes, run *)

(** [parent1] adds a profile at second 9; the name is trimmed and the
    default colour filled in. *)
Lemma addKid_postcondition_witness :
  addKid 9000 Household.db Household.parent1 Household.cyBody
  = (mkKidResponse 201 true (Some "Kid added successfully")
       (OneKid (Kid.mk 6%N "Cy" 4%Z "from-blue-400 to-purple-500"
                  ["lego"; "frogs"] 1%N 9000%Z)),
     mkDb [push_kid 1%N 6%N Household.parent1; Sample.kid1; Household.parent2]
       [Household.al; Household.bea;
        Kid.mk 6%N "Cy" 4%Z "from-blue-400 to-purple-500" ["lego"; "frogs"]
          1%N 9000%Z] 7%N).
Proof.
  destruct (addKid 9000 Household.db Household.parent1 Household.cyBody)
    as [r db'] eqn:Ha.
  assert (Hst : kid_status r = 201%Z).
  { vm_compute in Ha. injection Ha as <- _. reflexivity. }
  destruct (proj2 (proj2 (addKid_postcondition 9000 Household.db
                            Household.parent1 Household.cyBody r db' Ha)) Hst)
    as (n & a & tags & Hn & Hage & Hi & _ & Hk).
  injection Hn as <-. injection Hage as <-. injection Hi as <-.
  cbn zeta in Hk. destruct Hk as (-> & _ & Hks & Hus & Hnx).
  destruct db' as [us ks nx]. cbn [users kids next_oid] in Hks, Hus, Hnx.
  subst us ks nx. reflexivity.
Defined.

Lemma addKid_then_read_witness :
  exists r db' k,
    addKid 9000 Household.db Household.parent1 Household.cyBody = (r, db')
    /\ kid_status r = 201%Z
    /\ kid_payload r = OneKid k
    /\ getKid db' Household.parent1 (WellFormed (Kid._id k))
       = mkKidResponse 200 true None (OneKid k)
    /\ List.length (payload_kids (kid_payload (getKids db' Household.parent1)))
       = 2%nat.
Proof.
  destruct (addKid 9000 Household.db Household.parent1 Household.cyBody)
    as [r db'] eqn:Ha.
  assert (Hst : kid_status r = 201%Z).
  { vm_compute in Ha. injection Ha as <- _. reflexivity. }
  destruct (addKid_then_read 9000 Household.db Household.parent1
              Household.cyBody r db' Ha Hst)
    as (k & Hp & Hg & _ & Hlen).
  { intros k [<- | [<- | []]]; discriminate. }
  exists r, db', k. split; [reflexivity|]. split; [exact Hst|].
  split; [exact Hp|]. split; [exact Hg|]. rewrite Hlen. reflexivity.
Defined.

(** [parent1] renames its kid; with an id that is no ObjectId the answer
    is 500. *)
Lemma updateKid_postcondition_witness :
  (exists r db',
      updateKid Household.db Household.parent1 (WellFormed 3%N)
        Household.renameBody = (r, db')
      /\ users db' = users Household.db
      /\ map kid_frame (kids db') = map kid_frame (kids Household.db)
      /\ kid_status r = 200%Z
      /\ option_map Kid.name (hd_error (payload_kids (kid_payload r)))
         = Some "Alan")
  /\ updateKid Household.db Household.parent1 Malformed Household.renameBody
     = (kid_fail 500 "Failed to update kid", Household.db).
Proof.
  split; [|reflexivity].
  destruct (updateKid Household.db Household.parent1 (WellFormed 3%N)
              Household.renameBody)
    as [r db'] eqn:Hu.
  exists r, db'. split; [reflexivity|].
  destruct (updateKid_postcondition Household.db Household.parent1
              (WellFormed 3%N) Household.renameBody r db' Hu)
    as (Hus & _ & Hfr & _ & _
        & [([H4 | [H4 | H4]] & _) | (id & found & Hid & Hf & -> & _)]).
  - vm_compute in Hu. injection Hu as <- _. discriminate H4.
  - vm_compute in Hu. injection Hu as <- _. discriminate H4.
  - vm_compute in Hu. injection Hu as <- _. discriminate H4.
  - injection Hid as <-. injection Hf as <-.
    split; [exact Hus|]. split; [exact Hfr|]. split; reflexivity.
Defined.

Lemma updateKid_then_getKid_witness :
  exists r db',
    kid_ids_distinct Household.db
    /\ updateKid Household.db Household.parent1 (WellFormed 3%N)
         Household.renameBody
       = (r, db')
    /\ kid_status r = 200%Z
    /\ getKid db' Household.parent1 (WellFormed 3%N)
       = mkKidResponse 200 true None (kid_payload r)
    /\ kid_ids_distinct db'.
Proof.
  destruct (updateKid Household.db Household.parent1 (WellFormed 3%N)
              Household.renameBody)
    as [r db'] eqn:Hu.
  assert (Hst : kid_status r = 200%Z).
  { vm_compute in Hu. injection Hu as <- _. reflexivity. }
  exists r, db'. split; [exact (wf_kid_ids _ Household_wf)|].
  split; [reflexivity|]. split; [exact Hst|].
  exact (updateKid_then_getKid Household.db Household.parent1 (WellFormed 3%N)
           Household.renameBody r db' (wf_kid_ids _ Household_wf) Hu Hst).
Defined.

(** [parent1] deletes its kid; with an id that is no ObjectId the answer
    is 500. *)
Lemma deleteKid_postcondition_witness :
  (exists r db',
      kid_ids_distinct Household.db
      /\ deleteKid Household.db Household.parent1 (WellFormed 3%N) = (r, db')
      /\ kid_status r = 200%Z
      /\ kids db' = [Household.bea]
      /\ getKid db' Household.parent1 (WellFormed 3%N)
         = kid_fail 404 "Kid not found")
  /\ deleteKid Household.db Household.parent1 Malformed
     = (kid_fail 500 "Failed to delete kid", Household.db).
Proof.
  split; [|reflexivity].
  destruct (deleteKid Household.db Household.parent1 (WellFormed 3%N))
    as [r db'] eqn:Hd.
  exists r, db'. split; [exact (wf_kid_ids _ Household_wf)|].
  split; [reflexivity|].
  destruct (deleteKid_postcondition Household.db Household.parent1
              (WellFormed 3%N) r db' (wf_kid_ids _ Household_wf) Hd)
    as (_ & [(Hm & _) | [(_ & H4 & _)
            | (id & gone & b & c & Hid & -> & _ & _ & _ & _ & _ & Hg & _)]]).
  - discriminate Hm.
  - vm_compute in Hd. injection Hd as <- _. discriminate H4.
  - split; [reflexivity|]. split; [|exact Hg].
    vm_compute in Hd. injection Hd as <-. reflexivity.
Defined.

(** [parent1] reaches for the kid of [parent2]. *)
Lemma foreign_kid_is_not_found_witness :
  kid_ids_distinct Household.db
  /\ In Household.bea (kids Household.db)
  /\ Kid.parent Household.bea <> User._id Household.parent1
  /\ getKid Household.db Household.parent1 (WellFormed 5%N) = kid_fail 404 "Kid not found"
  /\ updateKid Household.db Household.parent1 (WellFormed 5%N) Household.renameBody
     = (kid_fail 404 "Kid not found", Household.db)
  /\ deleteKid Household.db Household.parent1 (WellFormed 5%N)
     = (kid_fail 404 "Kid not found", Household.db).
Proof.
  assert (Hin : In Household.bea (kids Household.db)) by (right; now left).
  assert (Hne : Kid.parent Household.bea <> User._id Household.parent1)
    by discriminate.
  split; [exact (wf_kid_ids _ Household_wf)|]. split; [exact Hin|].
  split; [exact Hne|].
  destruct (foreign_kid_is_not_found Household.db Household.parent1
              Household.bea Household.renameBody
              (wf_kid_ids _ Household_wf) Hin Hne) as (Hg & Hu & Hd & _).
  split; [exact Hg|]. split; [exact Hu | exact Hd].
Defined.

Lemma kid_handler_own_family_only_witness :
  exists r db',
    kid_ids_distinct Household.db
    /\ kid_handler 9000 Household.db Household.parent1 (DeleteKid (WellFormed 3%N)) = (r, db')
    /\ filter (fun k => negb (Kid.parent k =? 1)%N) (kids db') = [Household.bea]
    /\ map (outside 1%N) (users db') = map (outside 1%N) (users Household.db).
Proof.
  destruct (kid_handler 9000 Household.db Household.parent1 (DeleteKid (WellFormed 3%N)))
    as [r db'] eqn:Hh.
  exists r, db'. split; [exact (wf_kid_ids _ Household_wf)|].
  split; [reflexivity|].
  destruct (kid_handler_own_family_only 9000 Household.db Household.parent1
              (DeleteKid (WellFormed 3%N)) r db' (wf_kid_ids _ Household_wf) Hh)
    as (Hk & _ & Hu).
  split; [exact Hk | exact Hu].
Defined.

Lemma kid_handler_keeps_kids_valid_witness :
  exists r db',
    (forall k, In k (kids Household.db) -> kid_valid k)
    /\ kid_handler 9000 Household.db Household.parent1
         (PostKid Household.cyBody) = (r, db')
    /\ List.length (kids db') = 3%nat
    /\ forall k, In k (kids db') -> kid_valid k.
Proof.
  destruct (kid_handler 9000 Household.db Household.parent1
              (PostKid Household.cyBody)) as [r db'] eqn:Hh.
  exists r, db'. split; [exact Household_kids_valid|]. split; [reflexivity|].
  split.
  - vm_compute in Hh. injection Hh as _ <-. reflexivity.
  - exact (proj1 (kid_handler_keeps_kids_valid 9000 Household.db
                    Household.parent1 (PostKid Household.cyBody) r db'
                    Household_kids_valid Hh)).
Defined.

Lemma kid_handler_keeps_store_wf_witness :
  exists r db',
    store_wf Household.db
    /\ (User._id Household.parent1 < next_oid Household.db)%N
    /\ kid_handler 9000 Household.db Household.parent1 (DeleteKid (WellFormed 3%N)) = (r, db')
    /\ kid_status r = 200%Z
    /\ store_wf db'.
Proof.
  destruct (kid_handler 9000 Household.db Household.parent1 (DeleteKid (WellFormed 3%N)))
    as [r db'] eqn:Hh.
  exists r, db'. split; [exact Household_wf|]. split; [reflexivity|].
  split; [reflexivity|]. split.
  - vm_compute in Hh. injection Hh as <- _. reflexivity.
  - exact (kid_handler_keeps_store_wf 9000 Household.db Household.parent1
             (DeleteKid (WellFormed 3%N)) r db' Household_wf eq_refl Hh).
Defined.

Lemma getKids_agrees_with_kids_array_witness :
  store_wf Household.db
  /\ In Household.parent2 (users Household.db)
  /\ Permutation
       (map Kid._id
          (payload_kids (kid_payload (getKids Household.db Household.parent2))))
       [5%N].
Proof.
  assert (Hin : In Household.parent2 (users Household.db))
    by (right; right; now left).
  split; [exact Household_wf|]. split; [exact Hin|].
  exact (getKids_agrees_with_kids_array Household.db Household.parent2
           Household_wf Hin).
Defined.

(** ** The routes, run *)

(** [parent1] lists its kids with its token. *)
Lemma kids_route_guarded_witness :
  exists a db',
    kids_route Sample.env 30000 Household.db
      (Some ("Bearer " ++ Sample.token1)%string) ListKids = (a, db')
    /\ a = Handled (mkKidResponse 200 true None (KidList 1 [Household.al]))
    /\ exists user,
         findById 1%N Household.db = Some user /\ User.role user = "parent".
Proof.
  destruct (kids_route Sample.env 30000 Household.db
              (Some ("Bearer " ++ Sample.token1)%string) ListKids)
    as [a db'] eqn:Hk.
  exists a, db'. split; [reflexivity|].
  assert (Ha : a = Handled (mkKidResponse 200 true None
                              (KidList 1 [Household.al]))).
  { vm_compute in Hk. injection Hk as <- _. reflexivity. }
  split; [exact Ha|].
  assert (Hg := kids_route_guarded Sample.env 30000 Household.db _ ListKids
                  a db' Hk).
  rewrite Ha in Hg. destruct Hg as (t & c & user & Hh & Hv & Hf & Hr & _).
  injection Hh as Ht. subst t. vm_compute in Hv. injection Hv as <-.
  exists user. split; [exact Hf | exact Hr].
Defined.

(** The kid account of the first family tries to add a profile. *)
Lemma kids_route_refuses_other_roles_witness :
  jwt_verify Household.kidToken (JWT_SECRET Sample.env) 30000
  = Ok Household.kidClaims
  /\ findById 2%N Household.db = Some (without_password Sample.kid1)
  /\ kids_route Sample.env 30000 Household.db
       (Some ("Bearer " ++ Household.kidToken)%string)
       (PostKid Household.cyBody)
     = (Stopped
          (fail 403 "Access denied. Only parent can perform this action"),
        Household.db).
Proof.
  assert (Hv : jwt_verify Household.kidToken (JWT_SECRET Sample.env) 30000
               = Ok Household.kidClaims) by reflexivity.
  assert (Hf : findById (claim_id Household.kidClaims) Household.db
               = Some (without_password Sample.kid1)) by reflexivity.
  split; [exact Hv|]. split; [exact Hf|].
  apply (kids_route_refuses_other_roles Sample.env 30000 Household.db
           Household.kidToken Household.kidClaims
           (without_password Sample.kid1) (PostKid Household.cyBody) Hv Hf).
  discriminate.
Defined.

(** ** The e-mail pattern, run *)

Lemma accepted_address_shape_witness :
  Regex.test emailPattern "ann.lee@mail.example.org" = true
  /\ exists loc domain label,
       "ann.lee@mail.example.org"
       = (loc ++ "@" ++ domain ++ "." ++ label)%string
       /\ all_chars label_char loc = true
       /\ all_chars label_char domain = true
       /\ (2 <= String.length label <= 3)%nat.
Proof.
  assert (Ht : Regex.test emailPattern "ann.lee@mail.example.org" = true)
    by reflexivity.
  split; [exact Ht|].
  destruct (accepted_address_shape _ Ht)
    as (loc & domain & label & Hs & _ & _ & Hl & Hd & _ & Hlen).
  exists loc, domain, label. repeat split; try assumption; lia.
Defined.

(** The stored parent signs up again, in other letter case. *)
Lemma signup_checks_first_failure_wins_witness :
  emails_normalized Sample.family
  /\ signup Sample.env 7000 "salt" (Sample.late 0) 1
       Sample.family Sample.parentBody
     = Some (fail 409 "User with this email already exists", Sample.family).
Proof.
  assert (Hn : emails_normalized Sample.family).
  { intros u [<- | []]. reflexivity. }
  split; [exact Hn|].
  apply (proj1 (signup_checks_first_failure_wins
                  Sample.env 7000 "salt" (Sample.late 0) 1
                  Sample.family Sample.parentBody Hn eq_refl)
           SignupSpec.EmailNotRegistered Sample.family).
  split; [reflexivity|].
  exists [SignupSpec.EmailAndPasswordPresent; SignupSpec.PasswordLongEnough;
          SignupSpec.RoleKnown; SignupSpec.KidHasFamilyCode;
          SignupSpec.KidHasName; SignupSpec.KidHasAge], [].
  split; [reflexivity|]. split; [|reflexivity].
  intros c' Hc'. cbn in Hc'.
  repeat (destruct Hc' as [<- | Hc']; [reflexivity|]). destruct Hc'.
Defined.

(** An unknown address and a wrong password for a stored address are
    answered alike. *)
Lemma login_refusals_uniform_for_strings_witness :
  login Sample.env 7000 Sample.family
    (Body.mk (JStr "nobody@x.com") (JStr "secret1") JUndefined JUndefined
       JUndefined JUndefined)
  = login Sample.env 9000 Sample.family
      (Body.mk (JStr "P1@x.com") (JStr "secret2") JUndefined JUndefined
         JUndefined JUndefined).
Proof.
  refine (proj1 (login_refusals_uniform_for_strings
                   Sample.env Sample.env 7000 9000 Sample.family Sample.family
                   (Body.mk (JStr "nobody@x.com") (JStr "secret1") JUndefined
                      JUndefined JUndefined JUndefined)
                   (Body.mk (JStr "P1@x.com") (JStr "secret2") JUndefined
                      JUndefined JUndefined JUndefined)
                   _ _ eq_refl eq_refl)).
  - now apply NoSuchUser.
  - now apply (WrongPassword _ _ Sample.parent1 "salt$secret1").
Defined.
